(** * Catalog ingestion scripts: a shallow embedding and its properties

    The development follows the Python scripts under
    [backend/src/data/catalogs]:

    - [test_multiformat_ingestion.py] (class [CatalogIngestionTester]):
      JSON, CSV and PDF ingestion into per-format result buckets, and the
      cross-format [dedup_map];
    - [test_extraction_time.py]: the [measure_*_extraction] functions;
    - [generate_pdf_catalogs.py]: the synthetic tables the PDF catalogs are
      generated from.

    The cache manager and the price parser are not in the scripts: modules
    [Cache] and [Price] model them from the specification.

    Python values are modelled by [pyval]; a [dict] is an association list
    that keeps insertion order; a [try]/[except] block is a computation that
    returns the state reached when the exception was raised together with
    the exception. *)

From Stdlib Require Import ZArith QArith String Ascii List Bool Lia.
From stdpp Require Import gmap strings.
Import ListNotations.

Local Open Scope string_scope.
Local Open Scope nat_scope.
Local Open Scope list_scope.
Local Set Warnings "-register-all".

(** ** Python values *)

Module Py.

(** The values [json.load], [csv.DictReader] and pdfplumber hand to the
    scripts.  A JSON number without fraction or exponent is an [int], any
    other a [float]: [PInt] carries the value of an [int], [PFloat] the exact
    value of a finite [float].  A [string] stands for a Python [str], one
    [ascii] per character. *)
Inductive pyval : Type :=
| PNone : pyval
| PBool : bool -> pyval
| PInt : Z -> pyval
| PFloat : Q -> pyval
| PStr : string -> pyval
| PList : list pyval -> pyval
| PDict : list (pyval * pyval) -> pyval.

(** The exceptions the scripts can meet.  [LoadError] stands for whatever
    [open], [json.load], [csv.DictReader] or [pdfplumber.open] raise on a
    file that cannot be read or parsed; its argument is [str(e)].  An
    [AttributeError] or a [TypeError] carries the name of the type of the
    value it was raised on. *)
Inductive exn : Type :=
| LoadError : string -> exn
| AttributeError : string -> exn
| TypeError : string -> exn.

Inductive result (A : Type) : Type :=
| Ok : A -> result A
| Raise : exn -> result A.
Arguments Ok {A} _.
Arguments Raise {A} _.

(** [bool(v)] *)
Definition truthy (v : pyval) : bool :=
  match v with
  | PNone => false
  | PBool b => b
  | PInt z => negb (Z.eqb z 0)
  | PFloat q => negb (Qeq_bool q 0)
  | PStr s => negb (String.eqb s "")
  | PList l => match l with [] => false | _ => true end
  | PDict d => match d with [] => false | _ => true end
  end.

(** [a or b] *)
Definition py_or (a b : pyval) : pyval := if truthy a then a else b.

(** Lists and dicts are unhashable; [None], booleans, numbers and strings
    are hashable. *)
Definition hashable (v : pyval) : bool :=
  match v with
  | PList _ | PDict _ => false
  | _ => true
  end.

Definition bool_num (b : bool) : Q := if b then 1%Q else 0%Q.

(** The value of a boolean, an [int] or a [float] as a number: [bool] is a
    subclass of [int], and numbers of different types compare by value. *)
Definition num_value (v : pyval) : option Q :=
  match v with
  | PBool b => Some (bool_num b)
  | PInt z => Some (inject_Z z)
  | PFloat q => Some q
  | _ => None
  end.

(** Equality of dict keys: [True == 1] and [1 == 1.0] in Python, so a
    boolean and a number of the same value are the same key. *)
Definition key_eqb (a b : pyval) : bool :=
  match num_value a, num_value b with
  | Some p, Some q => Qeq_bool p q
  | None, None =>
      match a, b with
      | PNone, PNone => true
      | PStr s, PStr t => String.eqb s t
      | _, _ => false
      end
  | _, _ => false
  end.

(** A Python [dict] with values in [V]: bindings in insertion order, at most
    one per key. *)
Definition dict (V : Type) : Type := list (pyval * V).

Fixpoint dict_get {V : Type} (d : dict V) (k : pyval) : option V :=
  match d with
  | [] => None
  | (k', v) :: rest => if key_eqb k' k then Some v else dict_get rest k
  end.

(** [d.get(k, default)] *)
Definition get_default {V : Type} (d : dict V) (k : pyval) (default : V) : V :=
  match dict_get d k with
  | Some v => v
  | None => default
  end.

(** [d[k] = v]: an existing key keeps its place, a new one goes last. *)
Fixpoint dict_set {V : Type} (d : dict V) (k : pyval) (v : V) : dict V :=
  match d with
  | [] => [(k, v)]
  | (k', v') :: rest =>
      if key_eqb k' k then (k', v) :: rest else (k', v') :: dict_set rest k v
  end.

(** [type(v).__name__], as the messages of the exceptions spell it. *)
Definition type_name (v : pyval) : string :=
  match v with
  | PNone => "NoneType"
  | PBool _ => "bool"
  | PInt _ => "int"
  | PFloat _ => "float"
  | PStr _ => "str"
  | PList _ => "list"
  | PDict _ => "dict"
  end.

(** [len(v)]: defined on strings, lists and dicts, a [TypeError] elsewhere. *)
Definition py_len (v : pyval) : result nat :=
  match v with
  | PStr s => Ok (String.length s)
  | PList l => Ok (List.length l)
  | PDict d => Ok (List.length d)
  | _ => Raise (TypeError (type_name v))
  end.

Fixpoint chars (s : string) : list pyval :=
  match s with
  | EmptyString => []
  | String c rest => PStr (String c EmptyString) :: chars rest
  end.

(** [for x in v]: the characters of a string, the items of a list, the keys
    of a dict. *)
Definition py_iter (v : pyval) : result (list pyval) :=
  match v with
  | PStr s => Ok (chars s)
  | PList l => Ok l
  | PDict d => Ok (map fst d)
  | _ => Raise (TypeError (type_name v))
  end.

(** [v.get(k, default)]: only a dict has the method. *)
Definition py_get (v : pyval) (k : string) (default : pyval) : result pyval :=
  match v with
  | PDict d => Ok (get_default d (PStr k) default)
  | _ => Raise (AttributeError (type_name v))
  end.

End Py.
Import Py.

(** ** [CatalogIngestionTester]: the state of one tester object *)

Module Tester.

(** One entry of [results[fmt]['products']]. *)
Record product : Type := mkProduct {
  p_id : pyval;
  p_name : pyval;
  p_vendor : pyval;
  p_source : string;
  p_format : string }.

(** One entry of [results[fmt]['errors']]: the file ([str(path)]) and the
    exception whose [str(e)] is stored. *)
Record error_entry : Type := mkError {
  e_file : string;
  e_error : exn }.

(** [results[fmt]]: ['count'], ['products'], ['errors']. *)
Record bucket : Type := mkBucket {
  count : nat;
  products : list product;
  errors : list error_entry }.

Definition empty_bucket : bucket := mkBucket 0 [] [].

(** The fields of the tester that ingestion touches: the three buckets of
    [self.results] and [self.dedup_map], which maps a product id to the list
    of the sources it was seen in. *)
Record state : Type := mkState {
  res_json : bucket;
  res_csv : bucket;
  res_pdf : bucket;
  dedup_map : dict (list string) }.

(** [__init__] *)
Definition init : state := mkState empty_bucket empty_bucket empty_bucket [].

Definition add_count (n : nat) (b : bucket) : bucket :=
  mkBucket (count b + n) (products b) (errors b).

Definition add_product (p : product) (b : bucket) : bucket :=
  mkBucket (count b) (products b ++ [p]) (errors b).

Definition add_error (e : error_entry) (b : bucket) : bucket :=
  mkBucket (count b) (products b) (errors b ++ [e]).

Definition on_json (f : bucket -> bucket) (st : state) : state :=
  mkState (f (res_json st)) (res_csv st) (res_pdf st) (dedup_map st).

Definition on_csv (f : bucket -> bucket) (st : state) : state :=
  mkState (res_json st) (f (res_csv st)) (res_pdf st) (dedup_map st).

Definition on_pdf (f : bucket -> bucket) (st : state) : state :=
  mkState (res_json st) (res_csv st) (f (res_pdf st)) (dedup_map st).

Definition set_dedup (m : dict (list string)) (st : state) : state :=
  mkState (res_json st) (res_csv st) (res_pdf st) m.

(** [_add_dedup(product_id, source)].  The membership test hashes the id, so
    an unhashable id raises before the map changes. *)
Definition _add_dedup (product_id : pyval) (source : string)
    (m : dict (list string)) : result (dict (list string)) :=
  if hashable product_id then
    match dict_get m product_id with
    | None => Ok (dict_set m product_id [source])
    | Some sources => Ok (dict_set m product_id (sources ++ [source]))
    end
  else Raise (TypeError (type_name product_id)).

(** A step of a [try] body: the state reached, and the exception if one
    was raised there. *)
Definition outcome : Type := (state * option exn)%type.

(** *** [test_json_catalogs] *)

(** A file found by [rglob("*.json")]: its path, its name, and what
    [open] followed by [json.load] gives for it. *)
Record json_file : Type := mkJsonFile {
  jf_path : string;
  jf_name : string;
  jf_load : result pyval }.

(** [product.get('id', product.get('name', 'unknown'))] *)
Definition json_product_id (d : dict pyval) : pyval :=
  get_default d (PStr "id") (get_default d (PStr "name") (PStr "unknown")).

(** The entry appended to [results['json']['products']]. *)
Definition json_product (fname : string) (d : dict pyval) : product :=
  {| p_id := json_product_id d;
     p_name := get_default d (PStr "name") (PStr "N/A");
     p_vendor := get_default d (PStr "vendor") (PStr "N/A");
     p_source := fname;
     p_format := "JSON" |}.

(** The body of [for product in products] for one element: [.get] is a
    method of dicts only. *)
Definition json_product_step (fname : string) (product : pyval) (st : state)
    : outcome :=
  match product with
  | PDict d =>
      let st1 := on_json (add_product (json_product fname d)) st in
      match _add_dedup (json_product_id d) fname (dedup_map st1) with
      | Ok m => (set_dedup m st1, None)
      | Raise e => (st1, Some e)
      end
  | _ => (st, Some (AttributeError (type_name product)))
  end.

Fixpoint json_products_loop (fname : string) (ps : list pyval) (st : state)
    : outcome :=
  match ps with
  | [] => (st, None)
  | p :: rest =>
      match json_product_step fname p st with
      | (st1, None) => json_products_loop fname rest st1
      | (st1, Some e) => (st1, Some e)
      end
  end.

(** The [try] body for one file, after [json.load] returned [data]. *)
Definition json_file_body (fname : string) (data : pyval) (st : state)
    : outcome :=
  match py_get data "catalog_name" (PStr fname) with
  | Raise e => (st, Some e)
  | Ok _catalog_name =>
      match py_get data "products" (PList []) with
      | Raise e => (st, Some e)
      | Ok prods =>
          match py_len prods with
          | Raise e => (st, Some e)
          | Ok product_count =>
              let st1 := on_json (add_count product_count) st in
              match py_iter prods with
              | Raise e => (st1, Some e)
              | Ok ps => json_products_loop fname ps st1
              end
          end
      end
  end.

(** One iteration of [for json_file in json_files[:10]]: the [try] body, and
    the [except Exception] clause that records the file and goes on. *)
Definition json_file_step (st : state) (f : json_file) : state :=
  let '(st1, raised) :=
    match jf_load f with
    | Raise e => (st, Some e)
    | Ok data => json_file_body (jf_name f) data st
    end in
  match raised with
  | None => st1
  | Some e => on_json (add_error (mkError (jf_path f) e)) st1
  end.

Definition test_json_catalogs (json_files : list json_file) (st : state)
    : state :=
  fold_left json_file_step (firstn 10 json_files) st.

(** *** [csv.DictReader] *)

(** [dict(zip(fieldnames, row))]: pairs are inserted left to right, so of two
    columns with the same header the later one wins. *)
Fixpoint dict_of_zip (fieldnames row : list string) (d : dict pyval)
    : dict pyval :=
  match fieldnames, row with
  | k :: ks, c :: cs => dict_of_zip ks cs (dict_set d (PStr k) (PStr c))
  | _, _ => d
  end.

(** One row of [csv.DictReader] (default [restkey=None], [restval=None]): a
    row longer than the header keeps its extra cells under the key [None], a
    shorter one gets [None] for the headers it lacks.  No row is dropped for
    its length. *)
Definition dict_reader_row (fieldnames row : list string) : dict pyval :=
  let d := dict_of_zip fieldnames row [] in
  let lf := List.length fieldnames in
  let lr := List.length row in
  if lf <? lr then dict_set d PNone (PList (map PStr (skipn lf row)))
  else if lr <? lf then
    fold_left (fun d key => dict_set d (PStr key) PNone) (skipn lr fieldnames) d
  else d.

Definition blank_row (row : list string) : bool :=
  match row with [] => true | _ => false end.

(** [list(csv.DictReader(f))] over the rows [csv.reader] yields for the file:
    the first one is the header, blank rows ([[]]) after it are passed
    over. *)
Definition DictReader (lines : list (list string)) : list (dict pyval) :=
  match lines with
  | [] => []
  | fieldnames :: data =>
      map (dict_reader_row fieldnames)
          (List.filter (fun r => negb (blank_row r)) data)
  end.

(** *** [test_csv_catalogs] *)

(** A file found by [glob("*.csv")]: what [open] and [csv.reader] give. *)
Record csv_file : Type := mkCsvFile {
  cf_path : string;
  cf_name : string;
  cf_read : result (list (list string)) }.

(** [row.get(k)] *)
Definition row_get (row : dict pyval) (k : string) : pyval :=
  get_default row (PStr k) PNone.

(** [row.get('Product Name') or row.get('Product') or row.get('id', 'unknown')] *)
Definition csv_product_id (row : dict pyval) : pyval :=
  py_or (py_or (row_get row "Product Name") (row_get row "Product"))
        (get_default row (PStr "id") (PStr "unknown")).

(** [row.get('Vendor') or row.get('Provider') or 'N/A'] *)
Definition csv_vendor (row : dict pyval) : pyval :=
  py_or (py_or (row_get row "Vendor") (row_get row "Provider")) (PStr "N/A").

(** The entry appended to [results['csv']['products']]: [name = product_id]. *)
Definition csv_product (fname : string) (row : dict pyval) : product :=
  let product_id := csv_product_id row in
  let name := product_id in
  {| p_id := product_id;
     p_name := name;
     p_vendor := csv_vendor row;
     p_source := fname;
     p_format := "CSV" |}.

Definition csv_row_step (fname : string) (row : dict pyval) (st : state)
    : outcome :=
  let st1 := on_csv (add_product (csv_product fname row)) st in
  match _add_dedup (csv_product_id row) fname (dedup_map st1) with
  | Ok m => (set_dedup m st1, None)
  | Raise e => (st1, Some e)
  end.

Fixpoint csv_rows_loop (fname : string) (rows : list (dict pyval)) (st : state)
    : outcome :=
  match rows with
  | [] => (st, None)
  | row :: rest =>
      match csv_row_step fname row st with
      | (st1, None) => csv_rows_loop fname rest st1
      | (st1, Some e) => (st1, Some e)
      end
  end.

Definition csv_file_body (fname : string) (lines : list (list string))
    (st : state) : outcome :=
  let rows := DictReader lines in
  let product_count := List.length rows in
  csv_rows_loop fname rows (on_csv (add_count product_count) st).

Definition csv_file_step (st : state) (f : csv_file) : state :=
  let '(st1, raised) :=
    match cf_read f with
    | Raise e => (st, Some e)
    | Ok lines => csv_file_body (cf_name f) lines st
    end in
  match raised with
  | None => st1
  | Some e => on_csv (add_error (mkError (cf_path f) e)) st1
  end.

(** [csv_dir] is [None] when the [csv] directory does not exist: the method
    returns at once. *)
Definition test_csv_catalogs (csv_dir : option (list csv_file)) (st : state)
    : state :=
  match csv_dir with
  | None => st
  | Some csv_files => fold_left csv_file_step csv_files st
  end.

(** *** [test_pdf_catalogs] *)

(** pdfplumber's [extract_tables]: a cell is a [str] or [None]. *)
Definition cell : Type := option string.
Definition table : Type := list (list cell).

Record page : Type := mkPage {
  extract_text : option string;
  extract_tables : list table }.

Record pdf_file : Type := mkPdfFile {
  pf_path : string;
  pf_name : string;
  pf_open : result (list page) }.

(** [str.isspace] on one character. *)
Definition is_space (c : ascii) : bool :=
  let n := nat_of_ascii c in
  ((9 <=? n) && (n <=? 13)) || ((28 <=? n) && (n <=? 32))
  || (n =? 133) || (n =? 160).

Fixpoint lstrip (s : string) : string :=
  match s with
  | String c rest => if is_space c then lstrip rest else s
  | EmptyString => EmptyString
  end.

Fixpoint rstrip (s : string) : string :=
  match s with
  | EmptyString => EmptyString
  | String c rest =>
      match rstrip rest with
      | EmptyString => if is_space c then EmptyString else String c EmptyString
      | r => String c r
      end
  end.

(** [s.strip()] *)
Definition strip (s : string) : string := rstrip (lstrip s).

(** [c.strip()] on a cell: [None] has no such method. *)
Definition cell_strip (c : cell) : result string :=
  match c with
  | Some s => Ok (strip s)
  | None => Raise (AttributeError "NoneType")
  end.

(** The truth value of a cell: [None] and [''] are false. *)
Definition cell_truthy (c : cell) : bool :=
  match c with
  | Some s => negb (String.eqb s "")
  | None => false
  end.

(** [len(row) > 0 and row[0]] *)
Definition has_first_cell (row : list cell) : bool :=
  match row with
  | [] => false
  | c :: _ => cell_truthy c
  end.

(** All the tables of the document, in page order:
    [if page_tables: tables.extend(page_tables)].  The text of the pages is
    concatenated too, and never read. *)
Definition collect_tables (pages : list page) : list table :=
  flat_map extract_tables pages.

(** The entry appended to [results['pdf']['products']]. *)
Definition pdf_product (fname product_id vendor : string) : product :=
  {| p_id := PStr product_id;
     p_name := PStr product_id;
     p_vendor := PStr vendor;
     p_source := fname;
     p_format := "PDF" |}.

(** [row[1].strip() if len(row) > 1 else 'N/A'], for the cells after the
    first. *)
Definition pdf_vendor (rest : list cell) : result string :=
  match rest with
  | c1 :: _ => cell_strip c1
  | [] => Ok "N/A"
  end.

(** The body of [for row in table[1:]].  The second component counts the
    products of the current file ([product_count]). *)
Definition pdf_row_step (fname : string) (row : list cell)
    (acc : state * nat) : (state * nat) * option exn :=
  let '(st, product_count) := acc in
  match row with
  | c0 :: rest =>
      if cell_truthy c0 then
        match cell_strip c0 with
        | Raise e => (acc, Some e)
        | Ok product_id =>
            match pdf_vendor rest with
            | Raise e => (acc, Some e)
            | Ok vendor =>
                let st1 :=
                  on_pdf (add_product (pdf_product fname product_id vendor)) st in
                match _add_dedup (PStr product_id) fname (dedup_map st1) with
                | Ok m => ((set_dedup m st1, S product_count), None)
                | Raise e => ((st1, product_count), Some e)
                end
            end
        end
      else (acc, None)
  | [] => (acc, None)
  end.

Fixpoint pdf_rows_loop (fname : string) (rows : list (list cell))
    (acc : state * nat) : (state * nat) * option exn :=
  match rows with
  | [] => (acc, None)
  | row :: rest =>
      match pdf_row_step fname row acc with
      | (acc1, None) => pdf_rows_loop fname rest acc1
      | (acc1, Some e) => (acc1, Some e)
      end
  end.

(** [if len(table) > 1: headers = table[0]; for row in table[1:]: ...] *)
Definition pdf_table_step (fname : string) (t : table) (acc : state * nat)
    : (state * nat) * option exn :=
  match t with
  | _headers :: (_ :: _) as data => pdf_rows_loop fname data acc
  | _ => (acc, None)
  end.

Fixpoint pdf_tables_loop (fname : string) (ts : list table) (acc : state * nat)
    : (state * nat) * option exn :=
  match ts with
  | [] => (acc, None)
  | t :: rest =>
      match pdf_table_step fname t acc with
      | (acc1, None) => pdf_tables_loop fname rest acc1
      | (acc1, Some e) => (acc1, Some e)
      end
  end.

(** The [try] body for one file: the products are appended row by row, the
    count of the bucket is raised once, after the last table. *)
Definition pdf_file_body (fname : string) (pages : list page) (st : state)
    : outcome :=
  match pdf_tables_loop fname (collect_tables pages) (st, 0) with
  | ((st1, product_count), None) => (on_pdf (add_count product_count) st1, None)
  | ((st1, _), Some e) => (st1, Some e)
  end.

Definition pdf_file_step (st : state) (f : pdf_file) : state :=
  let '(st1, raised) :=
    match pf_open f with
    | Raise e => (st, Some e)
    | Ok pages => pdf_file_body (pf_name f) pages st
    end in
  match raised with
  | None => st1
  | Some e => on_pdf (add_error (mkError (pf_path f) e)) st1
  end.

(** [pdf_dir] is [None] when the [pdf] directory does not exist;
    [have_pdfplumber] tells whether the library could be imported. *)
Definition test_pdf_catalogs (have_pdfplumber : bool)
    (pdf_dir : option (list pdf_file)) (st : state) : state :=
  match pdf_dir with
  | None => st
  | Some pdf_files =>
      if have_pdfplumber then fold_left pdf_file_step pdf_files st else st
  end.

(** *** [test_deduplication] *)


(** [run]: the three ingestions in turn, on a fresh tester; the
    deduplication summary and the report that follow only print. *)
Definition run (json_files : list json_file) (csv_dir : option (list csv_file))
    (have_pdfplumber : bool) (pdf_dir : option (list pdf_file)) : state :=
  test_pdf_catalogs have_pdfplumber pdf_dir
    (test_csv_catalogs csv_dir (test_json_catalogs json_files init)).

(** *** What the statements below observe *)

(** Every product ingested so far: JSON first, then CSV, then PDF, as [run]
    appends them. *)
Definition ingested (st : state) : list product :=
  products (res_json st) ++ products (res_csv st) ++ products (res_pdf st).

(** The sources of the products of [ps] whose id is the key [k], in order. *)
Definition members (k : pyval) (ps : list product) : list string :=
  map p_source (List.filter (fun p => key_eqb (p_id p) k) ps).

(** The entry a dedup map should hold for [k]: no entry without members. *)
Definition entry_of (k : pyval) (ps : list product) : option (list string) :=
  match members k ps with
  | [] => None
  | sources => Some sources
  end.

(** A JSON record whose [name] key is present with an empty (false) value. *)
Definition blank_name_json (r : dict pyval) : bool :=
  match dict_get r (PStr "name") with
  | Some v => negb (truthy v)
  | None => false
  end.

(** A CSV row with no true [Product Name] or [Product] and an [id] that is
    present and empty. *)
Definition blank_name_csv (row : dict pyval) : bool :=
  negb (truthy (row_get row "Product Name"))
  && negb (truthy (row_get row "Product"))
  && match dict_get row (PStr "id") with
     | Some v => negb (truthy v)
     | None => false
     end.

(** A CSV row that offers no name at all: no true [Product Name] or
    [Product], and no [id] column. *)
Definition nameless_csv_row (row : dict pyval) : bool :=
  negb (truthy (row_get row "Product Name"))
  && negb (truthy (row_get row "Product"))
  && match dict_get row (PStr "id") with
     | Some _ => false
     | None => true
     end.

(** The values a row offers under string keys are hashable: those of a
    [DictReader] row are strings or [None]. *)
Definition cells_hashable (row : dict pyval) : Prop :=
  forall k v, dict_get row (PStr k) = Some v -> hashable v = true.

(** No two bindings of a dict have the same key. *)
Fixpoint keys_distinct {V : Type} (m : dict V) : Prop :=
  match m with
  | [] => True
  | (k, _) :: rest => dict_get rest k = None /\ keys_distinct rest
  end.


(** The dedup map agrees with the product lists: it has one binding per
    key, and the entry of a key lists the sources of the products with that
    id, in ingestion order. *)
Definition dedup_consistent (st : state) : Prop :=
  keys_distinct (dedup_map st) /\
  forall k, dict_get (dedup_map st) k = entry_of k (ingested st).

(** While JSON files are read no CSV or PDF product exists yet; while CSV
    files are read no PDF product does. *)
Definition json_phase (st : state) : Prop :=
  products (res_csv st) = [] /\ products (res_pdf st) = [].

Definition csv_phase (st : state) : Prop := products (res_pdf st) = [].

Definition json_inv (st : state) : Prop := dedup_consistent st /\ json_phase st.

Definition csv_inv (st : state) : Prop := dedup_consistent st /\ csv_phase st.

(** The rows a table offers as data: those after the first, when the table
    has more than one row. *)
Definition data_rows (t : table) : list (list cell) :=
  match t with
  | _headers :: (_ :: _) as data => data
  | _ => []
  end.

(** The data rows that are not separators: their first cell is true. *)
Definition kept_rows (t : table) : list (list cell) :=
  List.filter has_first_cell (data_rows t).

(** A row whose second cell, when it has one, is a string. *)
Definition second_cell_ok (row : list cell) : bool :=
  match row with
  | _ :: None :: _ => false
  | _ => true
  end.

(** The product a kept row with a usable second cell is turned into. *)
Definition product_of_row (fname : string) (row : list cell) : product :=
  match row with
  | Some s :: Some v :: _ => pdf_product fname (strip s) (strip v)
  | Some s :: _ => pdf_product fname (strip s) "N/A"
  | _ => pdf_product fname "" "N/A"
  end.

End Tester.

(** ** [test_extraction_time.py] *)

Module Measure.

Import Tester.

(** The three fields [measure_json_extraction] reads from one product:
    [product.get('name', '')], [product.get('vendor', '')],
    [product.get('category', '')]. *)
Definition json_fields (product : pyval) : result (pyval * pyval * pyval) :=
  match py_get product "name" (PStr "") with
  | Raise e => Raise e
  | Ok name =>
      match py_get product "vendor" (PStr "") with
      | Raise e => Raise e
      | Ok vendor =>
          match py_get product "category" (PStr "") with
          | Raise e => Raise e
          | Ok category => Ok (name, vendor, category)
          end
      end
  end.

Fixpoint json_fields_loop (ps : list pyval) : result unit :=
  match ps with
  | [] => Ok tt
  | p :: rest =>
      match json_fields p with
      | Raise e => Raise e
      | Ok _ => json_fields_loop rest
      end
  end.

(** [measure_json_extraction] on one loaded catalog: the ['products'] entry
    of its result.  There is no [try] here: an exception ends the script. *)
Definition measure_json (data : pyval) : result nat :=
  match py_get data "products" (PList []) with
  | Raise e => Raise e
  | Ok prods =>
      match py_len prods with
      | Raise e => Raise e
      | Ok product_count =>
          match py_iter prods with
          | Raise e => Raise e
          | Ok ps =>
              match json_fields_loop ps with
              | Raise e => Raise e
              | Ok _ => Ok product_count
              end
          end
      end
  end.

(** [row.get('Product Name') or row.get('Product') or row.get('Service', '')] *)
Definition csv_name (row : dict pyval) : pyval :=
  py_or (py_or (row_get row "Product Name") (row_get row "Product"))
        (get_default row (PStr "Service") (PStr "")).

(** [row.get('Vendor') or row.get('Provider', '')] *)
Definition csv_vendor (row : dict pyval) : pyval :=
  py_or (row_get row "Vendor") (get_default row (PStr "Provider") (PStr "")).

(** [measure_csv_extraction] on one file: one count per row. *)
Definition measure_csv (lines : list (list string)) : nat :=
  fold_left (fun product_count _row => product_count + 1) (DictReader lines) 0.

(** [measure_pdf_extraction]: the rows after the first of every table with
    more than one row, counted when their first cell is true. *)
Definition count_rows (rows : list (list cell)) (product_count : nat) : nat :=
  fold_left
    (fun n row => if has_first_cell row then n + 1 else n)
    rows product_count.

Definition count_table (product_count : nat) (t : table) : nat :=
  match t with
  | _headers :: (_ :: _) as data => count_rows data product_count
  | _ => product_count
  end.

Definition measure_pdf (pages : list page) : nat :=
  fold_left count_table (collect_tables pages) 0.

End Measure.

(** ** [generate_pdf_catalogs.py]: the tables of the synthetic catalogs *)

Module Fixtures.

Definition dq : string := String (ascii_of_nat 34) EmptyString.

(** [data]: Technology Products Catalog 2026 *)
Definition data : list (list string) :=
  [ ["Product"; "Category"; "Price"; "Specs"];
    [("MacBook Pro 16" ++ dq)%string; "Laptops"; "$2,499"; "32GB RAM, 1TB SSD"];
    [("iPad Pro 12.9" ++ dq)%string; "Tablets"; "$1,099";
       ("12.9" ++ dq ++ " Display, M2 Chip")%string];
    ["AirPods Pro"; "Audio"; "$249"; "ANC, Spatial Audio"];
    ["Apple Watch Series 9"; "Wearables"; "$399"; "Always-On Display"];
    ["iPhone 15 Pro Max"; "Smartphones"; "$1,199";
       ("6.7" ++ dq ++ ", A17 Pro, 256GB")%string];
    ["Mac Studio"; "Desktop"; "$1,999"; "M2 Max, 32GB RAM"];
    [("iMac 24" ++ dq)%string; "All-in-One"; "$1,499"; "M3, 256GB SSD"] ].

(** [data2]: Cloud Services Pricing Guide 2026 *)
Definition data2 : list (list string) :=
  [ ["Service"; "Provider"; "Monthly Cost"; "Key Features"];
    ["EC2 Instance"; "AWS"; "$10-50"; "t3.medium, 4GB RAM, 20GB SSD"];
    ["Cloud SQL"; "GCP"; "$15-100"; "PostgreSQL, 1TB Storage, HA"];
    ["App Service"; "Azure"; "$13-99"; "Custom Domain, SSL, Auto-scale"];
    ["Cloud Run"; "GCP"; "Pay-as-you-go"; "Containers, Auto-scaling, 2M/month free"];
    ["RDS Database"; "AWS"; "$15-200"; "Managed, Automated Backups, Multi-AZ"];
    ["Lambda Functions"; "AWS"; "Pay-as-you-go"; "1M requests/month free"];
    ["Cloud Functions"; "GCP"; "Pay-as-you-go"; "Event-driven, Serverless"] ].

(** [data3]: Enterprise Software License Catalog *)
Definition data3 : list (list string) :=
  [ ["Software"; "License Type"; "Cost"; "User Limit"];
    ["Microsoft 365"; "Subscription"; "$132/user/year"; "Unlimited"];
    ["Salesforce CRM"; "Subscription"; "$1,980/user/year"; "Cloud-based"];
    ["Adobe Creative Cloud"; "Subscription"; "$54.49/month"; "Single user"];
    ["Slack Workspace"; "Subscription"; "$96/user/year"; "Unlimited members"];
    ["GitHub Enterprise"; "Subscription"; "$231/user/year"; "Unlimited repos"];
    ["Jira Cloud"; "Subscription"; "$90/user/year"; "Up to 10k issues"];
    ["Confluence Cloud"; "Subscription"; "$55/month"; "Unlimited pages"];
    ["Okta IAM"; "Enterprise"; "Custom pricing"; "Enterprise users"] ].

(** [data4]: SaaS Analytics & Monitoring 2026 *)
Definition data4 : list (list string) :=
  [ ["Product"; "Category"; "Pricing"; "Use Case"];
    ["Datadog"; "Monitoring"; "$15/host/month"; "Infrastructure monitoring"];
    ["New Relic"; "APM"; "$299-599/month"; "Application performance"];
    ["Segment"; "CDP"; "$140/month+"; "Customer data platform"];
    ["Mixpanel"; "Analytics"; "$999/month+"; "Product analytics"];
    ["Amplitude"; "Analytics"; "$995/month+"; "User behavior analytics"];
    ["Looker"; "BI"; "Custom pricing"; "Business intelligence"];
    ["Tableau"; "Visualization"; "$70/user/month"; "Data visualization"] ].

(** The third column of the rows after the header. *)
Definition price_column (t : list (list string)) : list string :=
  map (fun row => nth 2 row "") (tl t).

(** A table as pdfplumber returns it when every cell has text. *)
Definition as_table (t : list (list string)) : Tester.table :=
  map (map (@Some string)) t.

End Fixtures.

(** ** The field aliases, as the specification words them *)

Module Aliases.

Inductive format : Type := JSON | CSV | PDF.

(** The alias table [format -> canonical field -> accepted source keys], in
    priority order.  A PDF row is read by column position, not by key. *)
Definition name_aliases (fmt : format) : list string :=
  match fmt with
  | JSON => ["name"]
  | CSV => ["Product Name"; "Product"; "Service"]
  | PDF => []
  end.

Definition vendor_aliases (fmt : format) : list string :=
  match fmt with
  | JSON => ["vendor"]
  | CSV => ["Vendor"; "Provider"]
  | PDF => []
  end.

(** The first alias, in order, that is present in the field map with a
    non-empty value; its value wins. *)
Fixpoint spec_resolve (aliases : list string) (field_map : dict pyval)
    : option pyval :=
  match aliases with
  | [] => None
  | a :: rest =>
      match dict_get field_map (PStr a) with
      | Some v => if truthy v then Some v else spec_resolve rest field_map
      | None => spec_resolve rest field_map
      end
  end.

End Aliases.

(** ** The cache manager *)

Module Cache.

Section CacheManager.

(** [ExtractionResult], and the world [build_fn] acts on. *)
Variables (R W : Type).

(** Modelled from the spec: the cache entry and the two tiers of the cache
    manager, which the scripts do not contain.  Times are seconds; the time
    to live is 24 hours. *)
Definition TTL : Z := 24 * 3600.

Record CacheEntry : Type := mkEntry {
  fingerprint : string;
  result : R;
  created_at : Z;
  expires_at : Z }.

(** The two tiers, and the number of times a build function was run. *)
Record cache : Type := mkCache {
  memory : gmap string CacheEntry;
  durable : gmap string CacheEntry;
  executions : nat }.

Definition empty : cache := mkCache ∅ ∅ 0.

(** Expiry is checked at read time against the caller's clock. *)
Definition live (now : Z) (e : CacheEntry) : bool := (now <? expires_at e)%Z.

Definition live_in (now : Z) (tier : gmap string CacheEntry) (fp : string)
    : option CacheEntry :=
  match tier !! fp with
  | Some e => if live now e then Some e else None
  | None => None
  end.

(** A read: the fast tier first, then the durable one. *)
Definition find (now : Z) (c : cache) (fp : string) : option CacheEntry :=
  match live_in now (memory c) fp with
  | Some e => Some e
  | None => live_in now (durable c) fp
  end.

Inductive failure : Type := CacheBuildFailure.

(** Modelled from the spec: the cache manager's [get_or_build] is not in the
    scripts, which only time two requests.  On a hit with a non-expired
    entry the stored result is returned with [was_hit = true] and [build_fn]
    is not run.  On a miss or an expired entry [build_fn] is run once; its
    result is written to both tiers with [expires_at] 24 hours after the
    write and returned with [was_hit = false]; a failed build leaves no
    entry. *)
Definition get_or_build (fp : string) (build_fn : W -> option R * W)
    (now : Z) (cw : cache * W) : (failure + R * bool) * (cache * W) :=
  let '(c, w) := cw in
  match find now c fp with
  | Some e => (inr (result e, true), (c, w))
  | None =>
      match build_fn w with
      | (Some r, w1) =>
          let e := mkEntry fp r now (now + TTL) in
          (inr (r, false),
           (mkCache (<[fp := e]> (memory c)) (<[fp := e]> (durable c))
                    (S (executions c)), w1))
      | (None, w1) =>
          (inl CacheBuildFailure,
           (mkCache (delete fp (memory c)) (delete fp (durable c))
                    (S (executions c)), w1))
      end
  end.

End CacheManager.

End Cache.

(** ** Price parsing *)

Module Price.

Inductive currency : Type := USD.

(** Modelled from the spec: the price of a product, which the scripts keep
    as text.  A decimal amount is [mantissa / 10 ^ scale]. *)
Record decimal : Type := mkDecimal {
  mantissa : N;
  scale : nat }.

Definition whole (n : N) : decimal := mkDecimal n 0.

Inductive price : Type :=
| Amount : decimal -> option currency -> price
| PriceRange : decimal -> decimal -> option currency -> price
| Unpriced : string -> price.

Definition digit_of (c : ascii) : option N :=
  let n := N_of_ascii c in
  if ((48 <=? n) && (n <=? 57))%N then Some (n - 48)%N else None.

Fixpoint has_digit (s : string) : bool :=
  match s with
  | EmptyString => false
  | String c rest =>
      match digit_of c with
      | Some _ => true
      | None => has_digit rest
      end
  end.

(** The digits of the integer part after the first one; a comma between two
    digits groups thousands. *)
Fixpoint int_part (s : string) (acc : N) : N * string :=
  match s with
  | EmptyString => (acc, s)
  | String c rest =>
      match digit_of c with
      | Some d => int_part rest (10 * acc + d)%N
      | None =>
          if Ascii.eqb c "," then
            match rest with
            | String c2 rest2 =>
                match digit_of c2 with
                | Some d => int_part rest2 (10 * acc + d)%N
                | None => (acc, s)
                end
            | EmptyString => (acc, s)
            end
          else (acc, s)
      end
  end.

Fixpoint frac_part (s : string) (acc : N) (sc : nat) : N * nat * string :=
  match s with
  | EmptyString => (acc, sc, s)
  | String c rest =>
      match digit_of c with
      | Some d => frac_part rest (10 * acc + d)%N (S sc)
      | None => (acc, sc, s)
      end
  end.

(** A plain decimal at the head of [s], and what follows it. *)
Definition parse_decimal (s : string) : option (decimal * string) :=
  match s with
  | EmptyString => None
  | String c rest =>
      match digit_of c with
      | None => None
      | Some d =>
          let '(i, after) := int_part rest d in
          match after with
          | String dot (String c2 rest2) =>
              if Ascii.eqb dot "." then
                match digit_of c2 with
                | Some d2 =>
                    let '(m, sc, after2) := frac_part rest2 (10 * i + d2)%N 1 in
                    Some (mkDecimal m sc, after2)
                | None => Some (whole i, after)
                end
              else Some (whole i, after)
          | _ => Some (whole i, after)
          end
      end
  end.

(** Modelled from the spec: a non-numeric sentinel is a text none of whose
    characters is a decimal digit. *)
Definition digits : list ascii :=
  ["0"; "1"; "2"; "3"; "4"; "5"; "6"; "7"; "8"; "9"]%char.

Definition non_numeric (s : string) : Prop :=
  Forall (fun c => ~ In c digits) (list_ascii_of_string s).

(** The optional currency symbol at the head of a price. *)
Definition parse_symbol (s : string) : option currency * string :=
  match s with
  | String c rest => if Ascii.eqb c "$" then (Some USD, rest) else (None, s)
  | EmptyString => (None, s)
  end.

(** Modelled from the spec: the normalizer's price parser is not in the
    scripts, which never read the price column.  It recognizes a plain
    decimal with an optional currency symbol, a range kept as a min/max pair
    with the same currency, and a non-numeric sentinel, which is preserved
    verbatim as an [Unpriced] tag.  The specification does not say what a
    text with digits in another form (["$132/user/year"]) becomes: [None]
    here. *)
Definition parse_price (s : string) : option price :=
  if has_digit s then
    let '(cur, body) := parse_symbol s in
    match parse_decimal body with
    | Some (lo, EmptyString) => Some (Amount lo cur)
    | Some (lo, String dash rest) =>
        if Ascii.eqb dash "-" then
          match parse_decimal rest with
          | Some (hi, EmptyString) => Some (PriceRange lo hi cur)
          | _ => None
          end
        else None
    | None => None
    end
  else
    match s with
    | EmptyString => None
    | _ => Some (Unpriced s)
    end.

End Price.

(** ** Sample inputs *)

Module Samples.

Import Tester.

(** A file [json.load] rejects. *)
Definition broken_json : json_file :=
  mkJsonFile "catalogs/broken.json" "broken.json"
    (Raise (LoadError "Expecting value: line 1 column 1 (char 0)")).

Definition studio_json : json_file :=
  mkJsonFile "catalogs/studio.json" "studio.json"
    (Ok (PDict [(PStr "catalog_name", PStr "Studio");
                (PStr "products",
                 PList [PDict [(PStr "name", PStr "Mac Studio");
                               (PStr "vendor", PStr "Apple")]])])).

(** An object without a [products] key. *)
Definition no_products_json : json_file :=
  mkJsonFile "catalogs/meta.json" "meta.json"
    (Ok (PDict [(PStr "catalog_name", PStr "Metadata only")])).

(** A product whose [name] is present and empty. *)
Definition empty_name_json : json_file :=
  mkJsonFile "catalogs/empty_name.json" "empty_name.json"
    (Ok (PDict [(PStr "products",
                 PList [PDict [(PStr "name", PStr "");
                               (PStr "vendor", PStr "Acme")]])])).

(** An array of products whose second element is not an object. *)
Definition mixed_json : json_file :=
  mkJsonFile "catalogs/mixed.json" "mixed.json"
    (Ok (PDict [(PStr "products",
                 PList [PDict [(PStr "name", PStr "Mac Studio")];
                        PInt 5])])).

(** A product without a [name] key. *)
Definition nameless_json : json_file :=
  mkJsonFile "catalogs/nameless.json" "nameless.json"
    (Ok (PDict [(PStr "products",
                 PList [PDict [(PStr "vendor", PStr "Acme")]])])).

(** Seven rows of two cells under a header of two columns, and one row of a
    single cell. *)
Definition seven_and_one : list (list string) :=
  [ ["Product Name"; "Vendor"];
    ["MacBook Pro 16"; "Apple"];
    ["iPad Pro 12.9"; "Apple"];
    ["AirPods Pro"; "Apple"];
    ["Google Pixel 8 Pro"; "Google"];
    ["Microsoft Surface Pro 10"];
    ["HP Spectre x360"; "HP"];
    ["Mac Studio"; "Apple"];
    ["Apple Watch Series 9"; "Apple"] ].

Definition electronics_csv : csv_file :=
  mkCsvFile "catalogs/csv/electronics_products.csv" "electronics_products.csv"
    (Ok seven_and_one).

(** A row with neither a product name nor an id column. *)
Definition nameless_csv : csv_file :=
  mkCsvFile "catalogs/csv/nameless.csv" "nameless.csv"
    (Ok [ ["Vendor"; "Price"]; ["Acme"; "$5"] ]).

(** A catalog whose name column is [Service] and whose vendor column is
    [Provider], as in the cloud services table of the generated PDFs. *)
Definition cloud_services_csv : csv_file :=
  mkCsvFile "catalogs/csv/cloud_services.csv" "cloud_services.csv"
    (Ok Fixtures.data2).

Definition ec2_row : dict pyval :=
  [ (PStr "Service", PStr "EC2 Instance"); (PStr "Provider", PStr "AWS");
    (PStr "Monthly Cost", PStr "$10-50");
    (PStr "Key Features", PStr "t3.medium, 4GB RAM, 20GB SSD") ].



Definition pixel_csv : csv_file :=
  mkCsvFile "catalogs/csv/electronics_products.csv" "electronics_products.csv"
    (Ok [ ["Product Name"; "Vendor"]; ["Google Pixel 8 Pro"; "Google"] ]).

(** A table with a cell pdfplumber found no text box for. *)
Definition gap_table : table :=
  [ [Some "Product"; Some "Vendor"];
    [Some "Widget"; None];
    [Some "Gadget"; Some "Acme"] ].

Definition gap_pdf : pdf_file :=
  mkPdfFile "catalogs/pdf/gap.pdf" "gap.pdf"
    (Ok [mkPage (Some "Gap catalog") [gap_table]]).

(** A table with a separator row between two data rows. *)
Definition separated_table : table :=
  [ [Some "Product"; Some "Vendor"];
    [Some "Widget"; Some "Acme"];
    [Some ""; Some ""];
    [None; Some "note"];
    [Some "Gadget"; Some "Acme"] ].

Definition separated_pdf : pdf_file :=
  mkPdfFile "catalogs/pdf/separated.pdf" "separated.pdf"
    (Ok [mkPage None [separated_table]]).

End Samples.

(** ** [generate_report]: the figures of the report *)

Module Report.

Import Tester.

(** [total_products]: the sum of the three counts. *)
Definition total_products (st : state) : nat :=
  count (res_json st) + count (res_csv st) + count (res_pdf st).

(** [total_errors]: the sum of the lengths of the three error lists. *)
Definition total_errors (st : state) : nat :=
  List.length (errors (res_json st)) + List.length (errors (res_csv st))
  + List.length (errors (res_pdf st)).

(** [len(self.dedup_map)], printed as the number of unique products. *)
Definition unique_products (st : state) : nat := List.length (dedup_map st).

(** The success rate, printed when [total_products > 0]:
    [(total_products / (total_products + total_errors)) * 100
       if total_errors == 0 else 100].
    The quotient is taken only when [total_errors] is [0], of a number by
    itself, which is exact in floating point too. *)
Definition success_rate (st : state) : option Q :=
  let tp := total_products st in
  let te := total_errors st in
  if 0 <? tp then
    Some (if te =? 0
          then (inject_Z (Z.of_nat tp) / inject_Z (Z.of_nat (tp + te)) * 100)%Q
          else 100%Q)
  else None.

(** The report announces "NO ERRORS" when [total_errors] is [0]. *)
Definition no_errors (st : state) : bool := total_errors st =? 0.

End Report.

(** ** More observations *)

Module Observe.

Import Tester.

(** The number of sources recorded in a dedup map, over all its entries. *)
Definition total_sources (m : dict (list string)) : nat :=
  list_sum (map (fun kv => List.length (snd kv)) m).

(** The products whose id can be a dict key. *)
Definition with_hashable_id (ps : list product) : list product :=
  List.filter (fun p => hashable (p_id p)) ps.

(** The files of a directory that may be missing. *)
Definition files_read {A : Type} (dir : option (list A)) : list A :=
  match dir with
  | Some fs => fs
  | None => []
  end.

(** The PDF files read: none without pdfplumber. *)
Definition pdf_files_read (have_pdfplumber : bool)
    (pdf_dir : option (list pdf_file)) : list pdf_file :=
  if have_pdfplumber then files_read pdf_dir else [].

(** A file that cannot be read. *)
Definition csv_unreadable (f : csv_file) : bool :=
  match cf_read f with
  | Ok _ => false
  | Raise _ => true
  end.

(** What one or several files add to a bucket: the products appended, the
    amount the count is raised by, the error entries appended. *)
Record growth : Type := mkGrowth {
  g_new : list product;
  g_count : nat;
  g_errors : list error_entry }.

Definition grows (b b' : bucket) (g : growth) : Prop :=
  products b' = products b ++ g_new g /\
  count b' = count b + g_count g /\
  errors b' = errors b ++ g_errors g.

Definition no_growth : growth := mkGrowth [] 0 [].

Definition growth_app (g1 g2 : growth) : growth :=
  mkGrowth (g_new g1 ++ g_new g2) (g_count g1 + g_count g2)
           (g_errors g1 ++ g_errors g2).

(** A string without white space at either end. *)
Definition stripped (s : string) : Prop := strip s = s.

(** A relation between the dedup map and the products ingested so far. *)
Definition map_inv (P : dict (list string) -> list product -> Prop)
    (st : state) : Prop :=
  P (dedup_map st) (ingested st).

(** Every key of the map is hashable and every entry has a source. *)
Definition entries_sound (m : dict (list string)) : Prop :=
  Forall (fun kv => hashable (fst kv) = true /\ snd kv <> []) m.

(** Every product with a hashable id accounts for one source of the map. *)
Definition sources_counted (m : dict (list string)) (ps : list product) : Prop :=
  entries_sound m /\ total_sources m = List.length (with_hashable_id ps).

(** What every product of the CSV bucket looks like: the name is the id, a
    string or [None], and the vendor is never empty. *)
Definition csv_shape (fname : string) (p : product) : Prop :=
  p_format p = "CSV" /\ p_source p = fname /\ p_name p = p_id p /\
  hashable (p_id p) = true /\ truthy (p_vendor p) = true.

(** [isinstance(v, dict)] *)
Definition is_dict (v : pyval) : bool :=
  match v with
  | PDict _ => true
  | _ => false
  end.

(** What every product of the PDF bucket looks like. *)
Definition pdf_shape (fname : string) (p : product) : Prop :=
  p_format p = "PDF" /\ p_source p = fname /\ p_name p = p_id p /\
  exists s, p_id p = PStr s /\ stripped s.

End Observe.

(** ** [run-migration-022.py] *)

Module Migration.

Import Tester.

(** [s.split(sep)] for a separator of one character: the pieces between
    the separators, one more than there are separators. *)
Fixpoint split_on (sep : ascii) (s : string) : list string :=
  match s with
  | EmptyString => [EmptyString]
  | String c rest =>
      if Ascii.eqb c sep then EmptyString :: split_on sep rest
      else
        match split_on sep rest with
        | piece :: pieces => String c piece :: pieces
        | [] => [String c EmptyString]
        end
  end.

(** [c in s] *)
Fixpoint has_char (c : ascii) (s : string) : bool :=
  match s with
  | EmptyString => false
  | String c' rest => Ascii.eqb c' c || has_char c rest
  end.

(** [s.strip() and not s.strip().startswith('--')] *)
Definition is_statement (chunk : string) : bool :=
  negb (String.eqb (strip chunk) "") && negb (String.prefix "--" (strip chunk)).

(** [[s.strip() for s in sql_content.split(';')
      if s.strip() and not s.strip().startswith('--')]] *)
Definition statements (sql_content : string) : list string :=
  map strip (List.filter is_statement (split_on ";" sql_content)).

(** What [requests.post] gives for a statement: a response with a status
    code, or an exception. *)
Inductive response : Type :=
| Status : nat -> response
| PostFailed : string -> response.

(** The body of the loop for one statement: [200] and [201] count as a
    success; [404], any other status and any exception as a failure. *)
Definition tally (counts : nat * nat) (r : response) : nat * nat :=
  let '(success_count, failed_count) := counts in
  match r with
  | Status code =>
      if (code =? 200) || (code =? 201) then (S success_count, failed_count)
      else if code =? 404 then (success_count, S failed_count)
      else (success_count, S failed_count)
  | PostFailed _ => (success_count, S failed_count)
  end.

(** [for i, statement in enumerate(statements, 1)]; [post i statement] is
    the outcome of the request for the [i]-th statement. *)
Fixpoint execute (post : nat -> string -> response) (i : nat)
    (sts : list string) (counts : nat * nat) : nat * nat :=
  match sts with
  | [] => counts
  | statement :: rest => execute post (S i) rest (tally counts (post i statement))
  end.

(** How the script ends: on an exception nothing catches ([import requests]
    or [migration_path.read_text()] raising), on one of the two early
    [sys.exit(1)], or after the loop with the two counts and the number of
    statements. *)
Inductive ending : Type :=
| ImportFailed : ending
| MissingEnv : ending
| MissingFile : ending
| ReadFailed : exn -> ending
| Finished : nat -> nat -> nat -> ending.

(** The three summaries after the loop. *)
Inductive verdict : Type := AllFailed | NeedReview | AllSucceeded.

(** [not v] for what [os.getenv] returns: [None] or the empty string. *)
Definition unset (v : option string) : bool :=
  match v with
  | None => true
  | Some s => String.eqb s ""
  end.

(** The script, from its first line: whether [requests] can be imported,
    the two variables of the environment, the migration file ([None] when
    [migration_path.exists()] is false, otherwise what [read_text()] gives:
    the text, or the exception raised on a directory, a file that cannot be
    opened or bytes that cannot be decoded), and the outcomes of the
    requests.  What is printed is taken to reach the standard output. *)
Definition run_migration (have_requests : bool)
    (supabase_url supabase_service_key : option string)
    (migration : option (result string)) (post : nat -> string -> response)
    : ending :=
  if negb have_requests then ImportFailed
  else if unset supabase_url || unset supabase_service_key then MissingEnv
  else
    match migration with
    | None => MissingFile
    | Some (Raise e) => ReadFailed e
    | Some (Ok sql_content) =>
        let sts := statements sql_content in
        let '(success_count, failed_count) := execute post 1 sts (0, 0) in
        Finished success_count failed_count (List.length sts)
    end.

(** The exit status: [1] for an exception that is not caught and for the two
    early [sys.exit(1)], [0] on every path after the loop. *)
Definition exit_code (e : ending) : nat :=
  match e with
  | ImportFailed | MissingEnv | MissingFile | ReadFailed _ => 1
  | Finished _ _ _ => 0
  end.

(** [if failed_count == len(statements): ... elif failed_count > 0: ...
    else: ...] *)
Definition summary (e : ending) : option verdict :=
  match e with
  | Finished _ failed_count total =>
      Some (if failed_count =? total then AllFailed
            else if 0 <? failed_count then NeedReview
            else AllSucceeded)
  | _ => None
  end.

(** The responses that count as a success. *)
Definition accepted (r : response) : bool :=
  match r with
  | Status code => (code =? 200) || (code =? 201)
  | PostFailed _ => false
  end.

(** The outcomes of the requests, in order. *)
Fixpoint responses (post : nat -> string -> response) (i : nat)
    (sts : list string) : list response :=
  match sts with
  | [] => []
  | statement :: rest => post i statement :: responses post (S i) rest
  end.

End Migration.

(** ** [test_e2e_user_simulation.py]: [simulate_ingestion_extraction] *)

Module Simulation.

Import Tester.

(** One entry of [self.uploaded_catalogs], with what the three readers
    would give on its path: only the one of its format is called.
    [u_pages] is the outcome of importing pdfplumber, opening the file and
    taking [len(pdf.pages)]; [u_instant] tells that the clock did not advance
    during the extraction ([extraction_time == 0]). *)
Record uploaded : Type := mkUploaded {
  u_file : string;
  u_format : string;
  u_json : result pyval;
  u_csv : result (list (list string));
  u_pages : result nat;
  u_instant : bool }.

(** The variables of the method that outlive an iteration: the running
    total, the status of the step, the extractions recorded so far, and the
    local [product_count], unbound at first. *)
Record sim : Type := mkSim {
  total_products : nat;
  partial_failure : bool;
  extractions : list (string * string * nat);
  product_count : option nat }.

Definition start : sim := mkSim 0 false [] None.

(** [_ = product.get('name', ''); _ = product.get('vendor', '')] over the
    products. *)
Fixpoint read_fields (ps : list pyval) : option exn :=
  match ps with
  | [] => None
  | p :: rest =>
      match py_get p "name" (PStr "") with
      | Raise e => Some e
      | Ok _ =>
          match py_get p "vendor" (PStr "") with
          | Raise e => Some e
          | Ok _ => read_fields rest
          end
      end
  end.

(** The [if]/[elif] chain on the format: the new value of [product_count]
    and the exception raised, if any.  A PDF is counted by its pages, and as
    one product when it cannot be opened (the inner bare [except]); a format
    that is none of the three leaves [product_count] as the iteration before
    left it. *)
Definition extract (c : uploaded) (last : option nat) : option nat * option exn :=
  if String.eqb (u_format c) "json" then
    match u_json c with
    | Raise e => (last, Some e)
    | Ok data =>
        match py_get data "products" (PList []) with
        | Raise e => (last, Some e)
        | Ok prods =>
            match py_len prods with
            | Raise e => (last, Some e)
            | Ok n =>
                match py_iter prods with
                | Raise e => (Some n, Some e)
                | Ok ps => (Some n, read_fields ps)
                end
            end
        end
    end
  else if String.eqb (u_format c) "csv" then
    match u_csv c with
    | Raise e => (last, Some e)
    | Ok lines => (Some (List.length (DictReader lines)), None)
    end
  else if String.eqb (u_format c) "pdf" then
    match u_pages c with
    | Ok pages => (Some pages, None)
    | Raise _ => (Some 1, None)
    end
  else (last, None).

(** One iteration of [for catalog in self.uploaded_catalogs]: the [try]
    body and its [except Exception], which sets the status to
    ['partial_failure'].  The total is raised before the throughput is
    printed, and the throughput divides by the extraction time. *)
Definition sim_step (s : sim) (c : uploaded) : sim :=
  match extract c (product_count s) with
  | (pc, Some _) => mkSim (total_products s) true (extractions s) pc
  | (None, None) => mkSim (total_products s) true (extractions s) None
  | (Some n, None) =>
      if u_instant c then
        mkSim (total_products s + n) true (extractions s) (Some n)
      else
        mkSim (total_products s + n) (partial_failure s)
              (extractions s ++ [(u_file c, u_format c, n)]) (Some n)
  end.

(** The method: the final variables, and the value returned,
    [total_products > 0]. *)
Definition simulate_ingestion_extraction (uploaded_catalogs : list uploaded)
    : sim * bool :=
  let s := fold_left sim_step uploaded_catalogs start in
  (s, 0 <? total_products s).

(** The products the recorded extractions add up to. *)
Definition recorded (s : sim) : nat :=
  list_sum (map (fun x => snd x) (extractions s)).

End Simulation.

(** ** More sample inputs *)

Module MoreSamples.

Import Tester.

(** A file whose top-level value is an array. *)
Definition array_json : json_file :=
  mkJsonFile "catalogs/array.json" "array.json"
    (Ok (PList [PDict [(PStr "name", PStr "Mac Studio")]])).

(** A file whose [products] is a string. *)
Definition text_products_json : json_file :=
  mkJsonFile "catalogs/text.json" "text.json"
    (Ok (PDict [(PStr "products", PStr "none")])).

(** A file whose [products] is [null]. *)
Definition null_products_json : json_file :=
  mkJsonFile "catalogs/null.json" "null.json"
    (Ok (PDict [(PStr "products", PNone)])).

(** An eleventh file after ten good ones. *)
Definition ten_files : list json_file := repeat Samples.studio_json 10.

(** A CSV file that cannot be opened. *)
Definition locked_csv : csv_file :=
  mkCsvFile "catalogs/csv/locked.csv" "locked.csv"
    (Raise (LoadError "[Errno 13] Permission denied")).

(** The same product on two rows of one file. *)
Definition repeated_csv : csv_file :=
  mkCsvFile "catalogs/csv/repeated.csv" "repeated.csv"
    (Ok [ ["Product Name"; "Vendor"];
          ["Mac Studio"; "Apple"];
          ["Mac Studio"; "Apple"] ]).

(** A PDF with a page without tables and a page with a header-only table. *)
Definition cover_pdf : pdf_file :=
  mkPdfFile "catalogs/pdf/cover.pdf" "cover.pdf"
    (Ok [ mkPage (Some "Catalog 2026") [];
          mkPage None [ [ [Some "Product"; Some "Vendor"] ] ] ]).

(** An uploaded PDF that pdfplumber cannot open. *)
Definition damaged_upload : Simulation.uploaded :=
  Simulation.mkUploaded "Tech_Products_Catalog_2026.pdf" "pdf"
    (Raise (LoadError "not JSON")) (Raise (LoadError "not CSV"))
    (Raise (LoadError "No /Root object! - Is this really a PDF?")) false.

(** An uploaded JSON catalog read so fast that the clock shows no time. *)
Definition instant_upload : Simulation.uploaded :=
  Simulation.mkUploaded "agriculture_catalog.json" "json"
    (Ok (PDict [(PStr "products",
                 PList [PDict [(PStr "name", PStr "Tractor")];
                        PDict [(PStr "name", PStr "Plough")]])]))
    (Raise (LoadError "not CSV")) (Raise (LoadError "not a PDF")) true.

(** The end of a line. *)
Definition nl : string := String (ascii_of_nat 10) EmptyString.

(** A state with products and errors in every bucket. *)
Definition mixed_state : state :=
  run [Samples.studio_json; Samples.broken_json; Samples.mixed_json]
      (Some [Samples.electronics_csv; locked_csv])
      true
      (Some [Samples.gap_pdf; Samples.separated_pdf]).

End MoreSamples.

(** * Properties *)

(** ** Lists *)

Module ListFacts.

Lemma firstn_app_cons {A : Type} (n : nat) (l1 l2 : list A) (x : A) :
  List.length l1 < n ->
  firstn n (l1 ++ x :: l2) = l1 ++ x :: firstn (n - S (List.length l1)) l2.
Proof.
  revert n. induction l1 as [|a l1 IH]; intros n Hn; simpl in *.
  - destruct n; [lia|]. simpl. now rewrite Nat.sub_0_r.
  - destruct n; [lia|]. simpl. f_equal. apply IH. lia.
Qed.

Lemma Forall2_map_graph {A B : Type} (R : A -> B -> Prop) (g : A -> B)
    (l : list A) :
  (forall x, R x (g x)) -> Forall2 R l (map g l).
Proof. intros H. induction l; cbn [map]; constructor; auto. Qed.

Lemma fold_left_inv {A S : Type} (P : S -> Prop) (step : S -> A -> S)
    (l : list A) :
  (forall s a, P s -> P (step s a)) ->
  forall s, P s -> P (fold_left step l s).
Proof. intros H. induction l; cbn; auto. Qed.

End ListFacts.

(** ** Dict keys and lookups *)

Module PyFacts.

Lemma Qeq_bool_sym (p q : Q) : Qeq_bool p q = Qeq_bool q p.
Proof.
  destruct (Qeq_bool p q) eqn:E; symmetry.
  - apply Qeq_bool_iff. symmetry. now apply Qeq_bool_iff.
  - destruct (Qeq_bool q p) eqn:F; [|reflexivity].
    apply Qeq_bool_iff in F. symmetry in F. apply Qeq_bool_iff in F. congruence.
Qed.

Lemma Qeq_bool_trans (p q r : Q) :
  Qeq_bool p q = true -> Qeq_bool q r = true -> Qeq_bool p r = true.
Proof.
  rewrite !Qeq_bool_iff. intros H1 H2. now rewrite H1.
Qed.


Lemma key_eqb_sym (a b : pyval) : key_eqb a b = key_eqb b a.
Proof.
  destruct a, b; cbn; try reflexivity;
    first [apply Qeq_bool_sym | apply String.eqb_sym].
Qed.

Lemma key_eqb_trans (a b c : pyval) :
  key_eqb a b = true -> key_eqb b c = true -> key_eqb a c = true.
Proof.
  destruct a, b, c; cbn; try discriminate; try reflexivity;
    try apply Qeq_bool_trans.
  rewrite !String.eqb_eq. congruence.
Qed.

(** Two keys that are equal select the same bindings. *)
Lemma key_eqb_compat (a b k : pyval) :
  key_eqb a b = true -> key_eqb a k = key_eqb b k.
Proof.
  intros Hab. destruct (key_eqb b k) eqn:E.
  - eapply key_eqb_trans; eauto.
  - destruct (key_eqb a k) eqn:F; [|reflexivity].
    rewrite key_eqb_sym in Hab. rewrite <- E. symmetry.
    eapply key_eqb_trans; eauto.
Qed.

Lemma key_eqb_hashable_l (a b : pyval) : key_eqb a b = true -> hashable a = true.
Proof. destruct a, b; cbn; congruence. Qed.

Lemma dict_get_set {V : Type} (d : dict V) (k k' : pyval) (v : V) :
  hashable k = true ->
  dict_get (dict_set d k v) k' = if key_eqb k k' then Some v else dict_get d k'.
Proof.
  intros Hk. induction d as [|[k0 v0] d IH]; simpl.
  - reflexivity.
  - destruct (key_eqb k0 k) eqn:E; simpl.
    + rewrite (key_eqb_compat _ _ k' E).
      destruct (key_eqb k k'); reflexivity.
    + rewrite IH. destruct (key_eqb k0 k') eqn:F; [|reflexivity].
      destruct (key_eqb k k') eqn:G; [|reflexivity].
      rewrite (key_eqb_sym k k') in G.
      rewrite (key_eqb_trans _ _ _ F G) in E. discriminate.
Qed.

End PyFacts.

(** ** JSON ingestion *)

Module JsonFacts.

Import Tester PyFacts.

(** What the steps of a [try] body leave alone. *)
Lemma add_count_0 (st : state) : on_json (add_count 0) st = st.
Proof.
  destruct st as [[c ps es] cs pd m]. unfold on_json, add_count. simpl.
  now rewrite Nat.add_0_r.
Qed.

Lemma add_dedup_hashable (pid : pyval) (src : string) (m : dict (list string)) :
  hashable pid = true ->
  _add_dedup pid src m = Ok (dict_set m pid (get_default m pid [] ++ [src])).
Proof.
  intros H. unfold _add_dedup, get_default. rewrite H.
  destruct (dict_get m pid); reflexivity.
Qed.

Lemma add_dedup_unhashable (pid : pyval) (src : string) (m : dict (list string)) :
  hashable pid = false ->
  _add_dedup pid src m = Raise (TypeError (type_name pid)).
Proof. intros H. unfold _add_dedup. now rewrite H. Qed.

(** A list of records with hashable ids goes through the product loop
    without an exception: one product per record, in order. *)
Lemma json_products_loop_records (fname : string) (recs : list (dict pyval)) :
  Forall (fun r => hashable (json_product_id r) = true) recs ->
  forall st : state,
    let out := json_products_loop fname (map PDict recs) st in
    snd out = None /\
    count (res_json (fst out)) = count (res_json st) /\
    products (res_json (fst out)) =
      products (res_json st) ++ map (json_product fname) recs /\
    errors (res_json (fst out)) = errors (res_json st) /\
    res_csv (fst out) = res_csv st /\
    res_pdf (fst out) = res_pdf st.
Proof.
  induction 1 as [|r recs Hr _ IH]; intros st; cbn [map json_products_loop].
  - cbn. rewrite app_nil_r. repeat split.
  - unfold json_product_step. rewrite (add_dedup_hashable _ _ _ Hr).
    match goal with
    | |- context [json_products_loop _ _ (set_dedup ?m ?s)] =>
        specialize (IH (set_dedup m s)); cbv zeta in IH;
        destruct (json_products_loop fname (map PDict recs) (set_dedup m s))
          as [st1 raised]
    end.
    cbn in IH |- *. destruct IH as (H1 & H2 & H3 & H4 & H5 & H6).
    repeat split; try assumption.
    rewrite H3. now rewrite <- app_assoc.
Qed.

(** A file that loads as an object whose [products], when present, is an
    array of objects with hashable ids. *)
Lemma json_file_step_records (st : state) (f : json_file)
    (d : dict pyval) (recs : list (dict pyval)) :
  jf_load f = Ok (PDict d) ->
  get_default d (PStr "products") (PList []) = PList (map PDict recs) ->
  Forall (fun r => hashable (json_product_id r) = true) recs ->
  let st' := json_file_step st f in
  count (res_json st') = count (res_json st) + List.length recs /\
  products (res_json st') =
    products (res_json st) ++ map (json_product (jf_name f)) recs /\
  errors (res_json st') = errors (res_json st) /\
  res_csv st' = res_csv st /\
  res_pdf st' = res_pdf st.
Proof.
  intros Hload Hprods Hids. unfold json_file_step. rewrite Hload.
  unfold json_file_body. cbn [py_get]. rewrite Hprods.
  cbn [py_len py_iter]. rewrite length_map.
  match goal with
  | |- context [json_products_loop ?a ?b ?s] =>
      pose proof (json_products_loop_records a recs Hids s) as H;
      cbv zeta in H; destruct (json_products_loop a b s) as [st1 raised]
  end.
  cbn in H |- *. destruct H as (H1 & H2 & H3 & H4 & H5 & H6).
  subst raised. repeat split; assumption.
Qed.

(** The count is raised for the whole array before the loop starts: when
    an element is not an object the file is abandoned half way, counted in
    full, and recorded as an error. *)
Lemma count_runs_ahead_on_bad_element :
  count (res_json (json_file_step init Samples.mixed_json)) = 2 /\
  map p_name (products (res_json (json_file_step init Samples.mixed_json))) =
    [PStr "Mac Studio"] /\
  errors (res_json (json_file_step init Samples.mixed_json)) =
    [mkError "catalogs/mixed.json" (AttributeError "int")].
Proof. repeat split. Qed.

(** A file that cannot be loaded: the [except] clause runs on the state the
    file was met in. *)
Lemma json_file_step_load_error (st : state) (f : json_file) (e : exn) :
  jf_load f = Raise e ->
  json_file_step st f = on_json (add_error (mkError (jf_path f) e)) st.
Proof. intros H. unfold json_file_step. now rewrite H. Qed.

(** A file whose top-level value is not an object fails on the first
    [data.get]. *)
Lemma json_file_step_not_object (st : state) (f : json_file) (data : pyval) :
  jf_load f = Ok data ->
  (forall d, data <> PDict d) ->
  json_file_step st f =
    on_json (add_error (mkError (jf_path f) (AttributeError (type_name data)))) st.
Proof.
  intros H Hd. unfold json_file_step, json_file_body. rewrite H.
  destruct data; try reflexivity. now destruct (Hd l).
Qed.

(** The name of a product is empty exactly for a blank record. *)
Lemma json_name_truthy (fname : string) (r : dict pyval) :
  truthy (p_name (json_product fname r)) = negb (blank_name_json r).
Proof.
  unfold json_product, blank_name_json, get_default. cbn [p_name].
  destruct (dict_get r (PStr "name")); [now rewrite negb_involutive | reflexivity].
Qed.

Lemma json_name_placeholder (fname : string) (r : dict pyval) :
  dict_get r (PStr "name") = None ->
  p_name (json_product fname r) = PStr "N/A".
Proof. intros H. unfold json_product, get_default. cbn [p_name]. now rewrite H. Qed.

End JsonFacts.

Import Tester.

(** C4, as the scripts have it: a JSON file among the first ten that fails
    to load fails as a whole, with one error entry that names the file; it
    adds no product, no count and no dedup entry, and the files after it
    (within the first ten) are processed from the state so reached. *)
Theorem malformed_json_file_is_isolated
    (before after : list json_file) (f : json_file) (e : exn) (st : state) :
  jf_load f = Raise e ->
  List.length before < 10 ->
  let st0 := fold_left json_file_step before st in
  let st1 := json_file_step st0 f in
  (errors (res_json st1) = errors (res_json st0) ++ [mkError (jf_path f) e] /\
   products (res_json st1) = products (res_json st0) /\
   count (res_json st1) = count (res_json st0) /\
   dedup_map st1 = dedup_map st0 /\
   res_csv st1 = res_csv st0 /\
   res_pdf st1 = res_pdf st0) /\
  test_json_catalogs (before ++ f :: after) st =
    fold_left json_file_step (firstn (9 - List.length before) after) st1.
Proof.
  intros Hload Hlen st0 st1. split.
  - subst st1. rewrite (JsonFacts.json_file_step_load_error _ _ _ Hload).
    cbn. repeat split.
  - unfold test_json_catalogs.
    rewrite ListFacts.firstn_app_cons by assumption.
    rewrite fold_left_app. reflexivity.
Qed.


(** C10: an object without a [products] key is an empty catalog: the step
    for the file leaves the tester as it was (no product, no count, no
    error), and [measure_json_extraction] reports zero products. *)
Theorem missing_products_key_is_empty_catalog
    (st : state) (f : json_file) (d : dict pyval) :
  jf_load f = Ok (PDict d) ->
  dict_get d (PStr "products") = None ->
  json_file_step st f = st /\ Measure.measure_json (PDict d) = Ok 0.
Proof.
  intros Hload Hkey. split.
  - assert (Hd : get_default d (PStr "products") (PList []) = PList []).
    { unfold get_default. now rewrite Hkey. }
    unfold json_file_step, json_file_body. rewrite Hload. cbn [py_get].
    rewrite Hd. cbn. apply JsonFacts.add_count_0.
  - unfold Measure.measure_json. cbn [py_get]. unfold get_default.
    rewrite Hkey. reflexivity.
Qed.

Lemma missing_products_key_witness :
  json_file_step init Samples.no_products_json = init /\
  Measure.measure_json (PDict [(PStr "catalog_name", PStr "Metadata only")]) = Ok 0.
Proof.
  apply (missing_products_key_is_empty_catalog init Samples.no_products_json
           [(PStr "catalog_name", PStr "Metadata only")]); reflexivity.
Defined.

Lemma malformed_json_file_witness :
  errors (res_json (test_json_catalogs
    [Samples.studio_json; Samples.broken_json; Samples.studio_json] init)) =
    [mkError "catalogs/broken.json"
       (LoadError "Expecting value: line 1 column 1 (char 0)")] /\
  List.length (products (res_json (test_json_catalogs
    [Samples.studio_json; Samples.broken_json; Samples.studio_json] init))) = 2.
Proof.
  pose proof (malformed_json_file_is_isolated
    [Samples.studio_json] [Samples.studio_json] Samples.broken_json
    (LoadError "Expecting value: line 1 column 1 (char 0)") init
    eq_refl ltac:(simpl; lia)) as [_ H].
  cbn [app] in H. split; rewrite H; reflexivity.
Defined.

(** C4 fails for a file after the tenth: only [json_files[:10]] are read, so
    a malformed eleventh file is never opened and the error list does not
    report it. *)
Lemma malformed_eleventh_file_is_not_reported :
  Samples.broken_json = nth 10 (MoreSamples.ten_files ++ [Samples.broken_json])
                          Samples.studio_json /\
  jf_load Samples.broken_json =
    Raise (LoadError "Expecting value: line 1 column 1 (char 0)") /\
  errors (res_json (test_json_catalogs
                      (MoreSamples.ten_files ++ [Samples.broken_json]) init)) = [] /\
  count (res_json (test_json_catalogs
                     (MoreSamples.ten_files ++ [Samples.broken_json]) init)) = 10.
Proof. repeat split. Qed.

(** ** CSV ingestion *)

Module CsvFacts.

Import PyFacts.

Lemma dict_of_zip_cells (fieldnames row : list string) :
  forall d, cells_hashable d -> cells_hashable (dict_of_zip fieldnames row d).
Proof.
  revert row. induction fieldnames as [|k ks IH]; intros [|c cs] d Hd;
    cbn [dict_of_zip]; try assumption.
  apply IH. intros k' v. rewrite dict_get_set by reflexivity.
  destruct (key_eqb (PStr k) (PStr k')); [|apply Hd].
  intros [= <-]. reflexivity.
Qed.

Lemma restval_cells (keys : list string) :
  forall d, cells_hashable d ->
  cells_hashable (fold_left (fun d key => dict_set d (PStr key) PNone) keys d).
Proof.
  induction keys as [|k ks IH]; intros d Hd; cbn [fold_left]; [assumption|].
  apply IH. intros k' v. rewrite dict_get_set by reflexivity.
  destruct (key_eqb (PStr k) (PStr k')); [|apply Hd].
  intros [= <-]. reflexivity.
Qed.

Lemma dict_reader_row_cells (fieldnames row : list string) :
  cells_hashable (dict_reader_row fieldnames row).
Proof.
  assert (H0 : cells_hashable (dict_of_zip fieldnames row [])).
  { apply dict_of_zip_cells. intros k v. discriminate. }
  unfold dict_reader_row.
  destruct (List.length fieldnames <? List.length row).
  - intros k v. rewrite dict_get_set by reflexivity. cbn [key_eqb num_value]. apply H0.
  - destruct (List.length row <? List.length fieldnames); [|exact H0].
    now apply restval_cells.
Qed.

Lemma DictReader_cells (lines : list (list string)) :
  Forall cells_hashable (DictReader lines).
Proof.
  destruct lines as [|fieldnames data]; cbn [DictReader]; [constructor|].
  apply Forall_map. apply Forall_forall. intros row _.
  apply dict_reader_row_cells.
Qed.

Lemma row_get_hashable (row : dict pyval) (k : string) :
  cells_hashable row -> hashable (row_get row k) = true.
Proof.
  intros H. unfold row_get, get_default.
  destruct (dict_get row (PStr k)) eqn:E; [eauto | reflexivity].
Qed.

Lemma py_or_hashable (a b : pyval) :
  hashable a = true -> hashable b = true -> hashable (py_or a b) = true.
Proof. unfold py_or. now destruct (truthy a). Qed.

(** The id of a row is a string or [None]: [_add_dedup] cannot raise on it. *)
Lemma csv_product_id_hashable (row : dict pyval) :
  cells_hashable row -> hashable (csv_product_id row) = true.
Proof.
  intros H. unfold csv_product_id.
  repeat apply py_or_hashable; try now apply row_get_hashable.
  unfold get_default. destruct (dict_get row (PStr "id")) eqn:E; [eauto | reflexivity].
Qed.

Lemma csv_rows_loop_rows (fname : string) (rows : list (dict pyval)) :
  Forall cells_hashable rows ->
  forall st : state,
    let out := csv_rows_loop fname rows st in
    snd out = None /\
    count (res_csv (fst out)) = count (res_csv st) /\
    products (res_csv (fst out)) =
      products (res_csv st) ++ map (csv_product fname) rows /\
    errors (res_csv (fst out)) = errors (res_csv st) /\
    res_json (fst out) = res_json st /\
    res_pdf (fst out) = res_pdf st.
Proof.
  induction 1 as [|r rows Hr _ IH]; intros st; cbn [map csv_rows_loop].
  - cbn. rewrite app_nil_r. repeat split.
  - unfold csv_row_step.
    rewrite (JsonFacts.add_dedup_hashable _ _ _ (csv_product_id_hashable _ Hr)).
    match goal with
    | |- context [csv_rows_loop _ _ (set_dedup ?m ?s)] =>
        specialize (IH (set_dedup m s)); cbv zeta in IH;
        destruct (csv_rows_loop fname rows (set_dedup m s)) as [st1 raised]
    end.
    cbn in IH |- *. destruct IH as (H1 & H2 & H3 & H4 & H5 & H6).
    repeat split; try assumption.
    rewrite H3. now rewrite <- app_assoc.
Qed.

(** Every file that can be read goes through without an exception: one
    product per row of [DictReader], and no error entry. *)
Lemma csv_file_step_rows (st : state) (f : csv_file) (lines : list (list string)) :
  cf_read f = Ok lines ->
  let st' := csv_file_step st f in
  count (res_csv st') = count (res_csv st) + List.length (DictReader lines) /\
  products (res_csv st') =
    products (res_csv st) ++ map (csv_product (cf_name f)) (DictReader lines) /\
  errors (res_csv st') = errors (res_csv st) /\
  res_json st' = res_json st /\
  res_pdf st' = res_pdf st.
Proof.
  intros Hread. unfold csv_file_step, csv_file_body. rewrite Hread.
  match goal with
  | |- context [csv_rows_loop ?a ?b ?s] =>
      pose proof (csv_rows_loop_rows a b (DictReader_cells lines) s) as H;
      cbv zeta in H; destruct (csv_rows_loop a b s) as [st1 raised]
  end.
  cbn in H |- *. destruct H as (H1 & H2 & H3 & H4 & H5 & H6).
  subst raised. repeat split; assumption.
Qed.

Lemma DictReader_length (fieldnames : list string) (data : list (list string)) :
  List.length (DictReader (fieldnames :: data)) =
  List.length (List.filter (fun r => negb (blank_row r)) data).
Proof. cbn [DictReader]. apply length_map. Qed.

Lemma restval_get (keys : list string) (k : string) :
  forall d : dict pyval,
  dict_get (fold_left (fun d key => dict_set d (PStr key) PNone) keys d) (PStr k) =
  if existsb (String.eqb k) keys then Some PNone else dict_get d (PStr k).
Proof.
  induction keys as [|k0 keys IH]; intros d; cbn [fold_left existsb]; [reflexivity|].
  rewrite IH, dict_get_set by reflexivity. cbn [key_eqb num_value].
  rewrite (String.eqb_sym k0 k).
  destruct (String.eqb k k0); cbn [orb]; [|reflexivity].
  now destruct (existsb (String.eqb k) keys).
Qed.

(** A row shorter than the header is kept, with [None] under every header
    it has no cell for. *)
Lemma short_row_is_padded (fieldnames row : list string) (k : string) :
  List.length row < List.length fieldnames ->
  In k (skipn (List.length row) fieldnames) ->
  dict_get (dict_reader_row fieldnames row) (PStr k) = Some PNone.
Proof.
  intros Hlen Hin. unfold dict_reader_row.
  assert (H1 : (List.length fieldnames <? List.length row) = false)
    by (apply Nat.ltb_ge; lia).
  assert (H2 : (List.length row <? List.length fieldnames) = true)
    by (now apply Nat.ltb_lt).
  rewrite H1, H2, restval_get.
  assert (H3 : existsb (String.eqb k) (skipn (List.length row) fieldnames) = true).
  { apply existsb_exists. exists k. split; [assumption | apply String.eqb_refl]. }
  now rewrite H3.
Qed.

(** A row longer than the header is kept, with the cells beyond the header
    under the key [None]. *)
Lemma long_row_keeps_rest (fieldnames row : list string) :
  List.length fieldnames < List.length row ->
  dict_get (dict_reader_row fieldnames row) PNone =
  Some (PList (map PStr (skipn (List.length fieldnames) row))).
Proof.
  intros Hlen. unfold dict_reader_row.
  assert (H1 : (List.length fieldnames <? List.length row) = true)
    by (now apply Nat.ltb_lt).
  rewrite H1. now rewrite dict_get_set by reflexivity.
Qed.
(** A short row: the headers it has no cell for are bound to [None]. *)
Lemma dict_reader_row_example_short :
  dict_reader_row ["Product Name"; "Vendor"] ["Microsoft Surface Pro 10"] =
  [(PStr "Product Name", PStr "Microsoft Surface Pro 10"); (PStr "Vendor", PNone)].
Proof. reflexivity. Qed.

(** A long row: the cells beyond the header are kept under the key [None]. *)
Lemma dict_reader_row_example_long :
  dict_reader_row ["Product Name"; "Vendor"] ["Mac Studio"; "Apple"; "$1,999"] =
  [(PStr "Product Name", PStr "Mac Studio"); (PStr "Vendor", PStr "Apple");
   (PNone, PList [PStr "$1,999"])].
Proof. reflexivity. Qed.

(** The name of a CSV product is empty exactly for a blank row. *)
Lemma csv_name_truthy (fname : string) (row : dict pyval) :
  truthy (p_name (csv_product fname row)) = negb (blank_name_csv row).
Proof.
  unfold csv_product, csv_product_id, blank_name_csv, py_or, get_default.
  cbn [p_name].
  destruct (truthy (row_get row "Product Name")) eqn:E1; cbn [negb andb].
  - now rewrite E1.
  - destruct (truthy (row_get row "Product")) eqn:E2; cbn [negb andb].
    + now rewrite E2.
    + destruct (dict_get row (PStr "id")); [now rewrite negb_involutive | reflexivity].
Qed.

Lemma csv_name_placeholder (fname : string) (row : dict pyval) :
  nameless_csv_row row = true ->
  p_name (csv_product fname row) = PStr "unknown".
Proof.
  unfold nameless_csv_row, csv_product, csv_product_id, py_or, get_default.
  cbn [p_name]. intros H.
  destruct (truthy (row_get row "Product Name")); [discriminate|].
  destruct (truthy (row_get row "Product")); [discriminate|].
  destruct (dict_get row (PStr "id")); [discriminate | reflexivity].
Qed.

End CsvFacts.

(** C3, as the scripts have it: a data row whose column count differs from
    the header's is not skipped and no error is recorded for it.
    [csv.DictReader] pads a short row with [None] and keeps the extra cells
    of a long one; every data row that is not blank yields one product, the
    count grows by as much, and the error list is unchanged. *)
Theorem csv_rows_are_never_skipped
    (st : state) (f : csv_file) (fieldnames : list string)
    (data : list (list string)) :
  cf_read f = Ok (fieldnames :: data) ->
  let kept := List.filter (fun r => negb (blank_row r)) data in
  let st' := csv_file_step st f in
  products (res_csv st') =
    products (res_csv st) ++
    map (fun r => csv_product (cf_name f) (dict_reader_row fieldnames r)) kept /\
  count (res_csv st') = count (res_csv st) + List.length kept /\
  errors (res_csv st') = errors (res_csv st).
Proof.
  intros Hread kept st'.
  destruct (CsvFacts.csv_file_step_rows st f _ Hread) as (Hc & Hp & He & _).
  fold st' in Hc, Hp, He. repeat split.
  - rewrite Hp. cbn [DictReader]. now rewrite map_map.
  - rewrite Hc. now rewrite CsvFacts.DictReader_length.
  - exact He.
Qed.

Lemma csv_rows_are_never_skipped_witness :
  List.length (products (res_csv (csv_file_step init Samples.electronics_csv))) = 8 /\
  count (res_csv (csv_file_step init Samples.electronics_csv)) = 8 /\
  errors (res_csv (csv_file_step init Samples.electronics_csv)) = [].
Proof.
  destruct (csv_rows_are_never_skipped init Samples.electronics_csv
              ["Product Name"; "Vendor"] (tl Samples.seven_and_one) eq_refl)
    as (Hp & Hc & He).
  rewrite Hp, Hc, He. repeat split.
Defined.

(** C3 fails as stated: seven rows of two cells and one row of one cell,
    under a header of two columns, give eight products, a count of eight and
    no error entry; the short row is a product with vendor ['N/A']. *)
Lemma seven_and_one_gives_eight :
  count (res_csv (test_csv_catalogs (Some [Samples.electronics_csv]) init)) = 8 /\
  List.length
    (products (res_csv (test_csv_catalogs (Some [Samples.electronics_csv]) init))) = 8 /\
  errors (res_csv (test_csv_catalogs (Some [Samples.electronics_csv]) init)) = [] /\
  nth_error
    (products (res_csv (test_csv_catalogs (Some [Samples.electronics_csv]) init))) 4 =
  Some {| p_id := PStr "Microsoft Surface Pro 10";
          p_name := PStr "Microsoft Surface Pro 10";
          p_vendor := PStr "N/A";
          p_source := "electronics_products.csv";
          p_format := "CSV" |}.
Proof. repeat split. Qed.

(** C1, as the scripts have it: for a JSON file that loads as an object
    whose [products] is an array of objects with hashable ids, and for a CSV
    file that can be read, the count of the bucket grows by the number of
    products appended, one per record in order, and no error is recorded.
    The name of a product is the record's own value, or a placeholder when
    the key is absent: it is non-empty unless the record carries an empty
    name. *)
Theorem count_matches_products_and_names
    (st : state) (jf : json_file) (d : dict pyval) (recs : list (dict pyval))
    (cf : csv_file) (lines : list (list string)) :
  jf_load jf = Ok (PDict d) ->
  get_default d (PStr "products") (PList []) = PList (map PDict recs) ->
  Forall (fun r => hashable (json_product_id r) = true) recs ->
  cf_read cf = Ok lines ->
  let sj := json_file_step st jf in
  let sc := csv_file_step st cf in
  (exists new,
     products (res_json sj) = products (res_json st) ++ new /\
     count (res_json sj) = count (res_json st) + List.length new /\
     errors (res_json sj) = errors (res_json st) /\
     new = map (json_product (jf_name jf)) recs /\
     Forall2 (fun r p => truthy (p_name p) = negb (blank_name_json r)) recs new) /\
  (exists new,
     products (res_csv sc) = products (res_csv st) ++ new /\
     count (res_csv sc) = count (res_csv st) + List.length new /\
     errors (res_csv sc) = errors (res_csv st) /\
     new = map (csv_product (cf_name cf)) (DictReader lines) /\
     Forall2 (fun r p => truthy (p_name p) = negb (blank_name_csv r))
       (DictReader lines) new).
Proof.
  intros Hload Hprods Hids Hread sj sc. split.
  - destruct (JsonFacts.json_file_step_records st jf d recs Hload Hprods Hids)
      as (Hc & Hp & He & _).
    exists (map (json_product (jf_name jf)) recs). rewrite length_map.
    repeat split; try assumption.
    apply ListFacts.Forall2_map_graph. intros r.
    apply JsonFacts.json_name_truthy.
  - destruct (CsvFacts.csv_file_step_rows st cf lines Hread)
      as (Hc & Hp & He & _).
    exists (map (csv_product (cf_name cf)) (DictReader lines)).
    rewrite length_map. repeat split; try assumption.
    apply ListFacts.Forall2_map_graph. intros r.
    apply CsvFacts.csv_name_truthy.
Qed.

Lemma count_matches_products_witness :
  count (res_json (json_file_step init Samples.studio_json)) = 1 /\
  map p_name (products (res_json (json_file_step init Samples.studio_json))) =
    [PStr "Mac Studio"] /\
  count (res_csv (csv_file_step init Samples.pixel_csv)) = 1 /\
  map p_name (products (res_csv (csv_file_step init Samples.pixel_csv))) =
    [PStr "Google Pixel 8 Pro"].
Proof.
  destruct (count_matches_products_and_names init Samples.studio_json
              [(PStr "catalog_name", PStr "Studio");
               (PStr "products",
                PList [PDict [(PStr "name", PStr "Mac Studio");
                              (PStr "vendor", PStr "Apple")]])]
              [[(PStr "name", PStr "Mac Studio"); (PStr "vendor", PStr "Apple")]]
              Samples.pixel_csv
              [ ["Product Name"; "Vendor"]; ["Google Pixel 8 Pro"; "Google"] ]
              eq_refl eq_refl
              ltac:(repeat constructor) eq_refl)
    as [(nj & Hpj & Hcj & _ & Hnj & _) (nc & Hpc & Hcc & _ & Hnc & _)].
  rewrite Hcj, Hpj, Hcc, Hpc, Hnj, Hnc. repeat split.
Defined.

(** C1 fails as stated: a product whose [name] is present and empty is
    returned with the empty name, counted, and no error is recorded. *)
Lemma empty_name_is_returned :
  products (res_json (test_json_catalogs [Samples.empty_name_json] init)) =
    [ {| p_id := PStr ""; p_name := PStr ""; p_vendor := PStr "Acme";
         p_source := "empty_name.json"; p_format := "JSON" |} ] /\
  count (res_json (test_json_catalogs [Samples.empty_name_json] init)) = 1 /\
  errors (res_json (test_json_catalogs [Samples.empty_name_json] init)) = [] /\
  ~ Forall (fun p => truthy (p_name p) = true)
      (products (res_json (test_json_catalogs [Samples.empty_name_json] init))).
Proof.
  repeat split. intros H. inversion H as [|p ps Hp _]. discriminate Hp.
Qed.

(** C8, as the scripts have it: in a JSON file whose [products] is an
    array of objects with hashable ids, and in a CSV file that can be read, a
    record without a name is not failed.  It is ingested like any other,
    stays in the product list, and no error is recorded; when the name key is
    absent the product carries a placeholder: ['N/A'] for a JSON record,
    ['unknown'] for a CSV row. *)
Theorem nameless_record_gets_placeholder
    (st : state) (jf : json_file) (d : dict pyval) (recs : list (dict pyval))
    (cf : csv_file) (lines : list (list string)) :
  jf_load jf = Ok (PDict d) ->
  get_default d (PStr "products") (PList []) = PList (map PDict recs) ->
  Forall (fun r => hashable (json_product_id r) = true) recs ->
  cf_read cf = Ok lines ->
  let sj := json_file_step st jf in
  let sc := csv_file_step st cf in
  (forall r, In r recs ->
     In (json_product (jf_name jf) r) (products (res_json sj)) /\
     (dict_get r (PStr "name") = None ->
      p_name (json_product (jf_name jf) r) = PStr "N/A")) /\
  errors (res_json sj) = errors (res_json st) /\
  (forall row, In row (DictReader lines) ->
     In (csv_product (cf_name cf) row) (products (res_csv sc)) /\
     (nameless_csv_row row = true ->
      p_name (csv_product (cf_name cf) row) = PStr "unknown")) /\
  errors (res_csv sc) = errors (res_csv st).
Proof.
  intros Hload Hprods Hids Hread sj sc.
  destruct (JsonFacts.json_file_step_records st jf d recs Hload Hprods Hids)
    as (_ & Hpj & Hej & _).
  destruct (CsvFacts.csv_file_step_rows st cf lines Hread) as (_ & Hpc & Hec & _).
  fold sj in Hpj, Hej. fold sc in Hpc, Hec.
  repeat split; try assumption.
  - rewrite Hpj. apply in_or_app. right. now apply in_map.
  - apply JsonFacts.json_name_placeholder.
  - rewrite Hpc. apply in_or_app. right. now apply in_map.
  - apply CsvFacts.csv_name_placeholder.
Qed.

Lemma nameless_record_witness :
  In {| p_id := PStr "unknown"; p_name := PStr "N/A"; p_vendor := PStr "Acme";
        p_source := "nameless.json"; p_format := "JSON" |}
     (products (res_json (json_file_step init Samples.nameless_json))) /\
  errors (res_json (json_file_step init Samples.nameless_json)) = [] /\
  In {| p_id := PStr "unknown"; p_name := PStr "unknown"; p_vendor := PStr "Acme";
        p_source := "nameless.csv"; p_format := "CSV" |}
     (products (res_csv (csv_file_step init Samples.nameless_csv))) /\
  errors (res_csv (csv_file_step init Samples.nameless_csv)) = [].
Proof.
  destruct (nameless_record_gets_placeholder init Samples.nameless_json
              [(PStr "products", PList [PDict [(PStr "vendor", PStr "Acme")]])]
              [[(PStr "vendor", PStr "Acme")]]
              Samples.nameless_csv
              [ ["Vendor"; "Price"]; ["Acme"; "$5"] ]
              eq_refl eq_refl ltac:(repeat constructor) eq_refl)
    as (Hj & Hej & Hc & Hec).
  split; [|split; [|split]].
  - exact (proj1 (Hj [(PStr "vendor", PStr "Acme")] (or_introl eq_refl))).
  - exact Hej.
  - exact (proj1 (Hc [(PStr "Vendor", PStr "Acme"); (PStr "Price", PStr "$5")]
                    (or_introl eq_refl))).
  - exact Hec.
Defined.

(** C8 fails as stated: a JSON record and a CSV row without any name are
    both returned as products, under the placeholders ['N/A'] and
    ['unknown'], and neither error list gets an entry. *)
Lemma nameless_records_are_ingested :
  products (res_json (run [Samples.nameless_json] (Some [Samples.nameless_csv]) true None)) =
    [ {| p_id := PStr "unknown"; p_name := PStr "N/A"; p_vendor := PStr "Acme";
         p_source := "nameless.json"; p_format := "JSON" |} ] /\
  errors (res_json (run [Samples.nameless_json] (Some [Samples.nameless_csv]) true None)) = [] /\
  products (res_csv (run [Samples.nameless_json] (Some [Samples.nameless_csv]) true None)) =
    [ {| p_id := PStr "unknown"; p_name := PStr "unknown"; p_vendor := PStr "Acme";
         p_source := "nameless.csv"; p_format := "CSV" |} ] /\
  errors (res_csv (run [Samples.nameless_json] (Some [Samples.nameless_csv]) true None)) = [].
Proof. repeat split. Qed.

(** ** The dedup map *)

Module DedupFacts.

Import PyFacts.

Lemma members_app (k : pyval) (ps qs : list product) :
  members k (ps ++ qs) = members k ps ++ members k qs.
Proof. unfold members. now rewrite List.filter_app, map_app. Qed.

Lemma members_key (a b : pyval) (ps : list product) :
  key_eqb a b = true -> members a ps = members b ps.
Proof.
  intros Hab. unfold members. f_equal. apply List.filter_ext. intros p.
  rewrite (key_eqb_sym _ a), (key_eqb_sym _ b). now apply key_eqb_compat.
Qed.

Lemma get_default_entry (m : dict (list string)) (k : pyval) (ps : list product) :
  dict_get m k = entry_of k ps -> get_default m k [] = members k ps.
Proof.
  unfold get_default, entry_of. intros ->. now destruct (members k ps).
Qed.

Lemma entry_of_snoc (k : pyval) (ps : list product) (p : product) :
  entry_of k (ps ++ [p]) =
  if key_eqb (p_id p) k then Some (members k ps ++ [p_source p])
  else entry_of k ps.
Proof.
  unfold entry_of. rewrite members_app. unfold members at 2. cbn [List.filter].
  destruct (key_eqb (p_id p) k); cbn [map].
  - destruct (members k ps); reflexivity.
  - now rewrite app_nil_r.
Qed.

(** Appending a product and recording it keeps the map and the list in
    step, also when the id is unhashable and [_add_dedup] raises. *)
Lemma add_dedup_consistent (m : dict (list string)) (ps : list product)
    (p : product) :
  (forall k, dict_get m k = entry_of k ps) ->
  match _add_dedup (p_id p) (p_source p) m with
  | Ok m' => forall k, dict_get m' k = entry_of k (ps ++ [p])
  | Raise _ => forall k, dict_get m k = entry_of k (ps ++ [p])
  end.
Proof.
  intros Hm. destruct (hashable (p_id p)) eqn:Hh.
  - rewrite (JsonFacts.add_dedup_hashable _ _ _ Hh). intros k.
    rewrite dict_get_set by assumption. rewrite entry_of_snoc.
    destruct (key_eqb (p_id p) k) eqn:E; [|apply Hm].
    rewrite (get_default_entry _ _ _ (Hm (p_id p))).
    now rewrite (members_key _ _ _ E).
  - rewrite (JsonFacts.add_dedup_unhashable _ _ _ Hh). intros k.
    rewrite entry_of_snoc.
    destruct (key_eqb (p_id p) k) eqn:E; [|apply Hm].
    apply key_eqb_hashable_l in E. congruence.
Qed.

Lemma dict_set_distinct {V : Type} (m : dict V) (k : pyval) (v : V) :
  hashable k = true -> keys_distinct m -> keys_distinct (dict_set m k v).
Proof.
  intros Hk. induction m as [|[k0 v0] m IH]; cbn [dict_set keys_distinct].
  - intros _. split; [reflexivity | exact I].
  - intros [Hget Hm]. destruct (key_eqb k0 k) eqn:E; cbn [keys_distinct].
    + split; assumption.
    + split; [|now apply IH].
      rewrite dict_get_set by assumption.
      now rewrite key_eqb_sym, E.
Qed.

Lemma add_dedup_distinct (pid : pyval) (src : string) (m : dict (list string)) :
  keys_distinct m ->
  match _add_dedup pid src m with
  | Ok m' => keys_distinct m'
  | Raise _ => True
  end.
Proof.
  intros Hm. destruct (hashable pid) eqn:Hh.
  - rewrite (JsonFacts.add_dedup_hashable _ _ _ Hh). now apply dict_set_distinct.
  - now rewrite (JsonFacts.add_dedup_unhashable _ _ _ Hh).
Qed.


Lemma consistent_step (st st1 : state) (p : product) :
  dedup_consistent st ->
  ingested st1 = ingested st ++ [p] ->
  dedup_map st1 = dedup_map st ->
  match _add_dedup (p_id p) (p_source p) (dedup_map st1) with
  | Ok m => dedup_consistent (set_dedup m st1)
  | Raise _ => dedup_consistent st1
  end.
Proof.
  intros [Hd Hst] Hing Hmap.
  pose proof (add_dedup_consistent (dedup_map st1) (ingested st) p) as H.
  pose proof (add_dedup_distinct (p_id p) (p_source p) (dedup_map st1)) as D.
  rewrite Hmap in H, D |- *. specialize (H Hst). specialize (D Hd).
  destruct (_add_dedup (p_id p) (p_source p) (dedup_map st)) as [m'|e];
    unfold dedup_consistent in *.
  - cbn [set_dedup dedup_map]. change (ingested (set_dedup m' st1)) with (ingested st1).
    rewrite Hing. split; [exact D | exact H].
  - rewrite Hmap, Hing. split; [exact Hd | exact H].
Qed.

(** Where the id comes from: a JSON record without [id] is keyed on its
    name, a CSV row with a non-empty [Product Name] on that name. *)
Lemma json_id_is_name (d : dict pyval) (n : pyval) :
  dict_get d (PStr "id") = None ->
  dict_get d (PStr "name") = Some n ->
  json_product_id d = n.
Proof. intros Hid Hn. unfold json_product_id, get_default. now rewrite Hid, Hn. Qed.

Lemma json_id_is_id (d : dict pyval) (i : pyval) :
  dict_get d (PStr "id") = Some i -> json_product_id d = i.
Proof. intros Hid. unfold json_product_id, get_default. now rewrite Hid. Qed.

Lemma csv_id_is_product_name (row : dict pyval) :
  truthy (row_get row "Product Name") = true ->
  csv_product_id row = row_get row "Product Name".
Proof. intros H. unfold csv_product_id, py_or. now rewrite H, H. Qed.

(** *** JSON *)

Lemma json_product_step_inv (fname : string) (v : pyval) (st : state) :
  json_inv st -> json_inv (fst (json_product_step fname v st)).
Proof.
  intros [Hc [Hcsv Hpdf]]. unfold json_product_step.
  destruct v; try (split; [assumption | split; assumption]).
  pose proof (consistent_step st (on_json (add_product (json_product fname l)) st)
                (json_product fname l) Hc) as H.
  cbn [p_id p_source json_product] in H.
  assert (Hing : ingested (on_json (add_product (json_product fname l)) st) =
                 ingested st ++ [json_product fname l]).
  { unfold ingested. cbn. rewrite Hcsv, Hpdf. now rewrite !app_nil_r. }
  specialize (H Hing eq_refl).
  destruct (_add_dedup (json_product_id l) fname
              (dedup_map (on_json (add_product (json_product fname l)) st)));
    cbn [fst]; (split; [exact H | split; assumption]).
Qed.

Lemma json_products_loop_inv (fname : string) (ps : list pyval) :
  forall st, json_inv st -> json_inv (fst (json_products_loop fname ps st)).
Proof.
  induction ps as [|v ps IH]; intros st Hst; cbn [json_products_loop fst].
  - assumption.
  - pose proof (json_product_step_inv fname v st Hst) as H.
    destruct (json_product_step fname v st) as [st1 [e|]]; cbn [fst] in *.
    + assumption.
    + now apply IH.
Qed.

Lemma json_inv_bucket (f : bucket -> bucket) (st : state) :
  (forall b, products (f b) = products b) ->
  json_inv st -> json_inv (on_json f st).
Proof.
  intros Hf [[Hd Hc] Hp]. split; [|exact Hp].
  split; [exact Hd|].
  intros k. unfold ingested. cbn. rewrite Hf. apply Hc.
Qed.

Lemma json_file_body_inv (fname : string) (data : pyval) (st : state) :
  json_inv st -> json_inv (fst (json_file_body fname data st)).
Proof.
  intros Hst. unfold json_file_body.
  destruct (py_get data "catalog_name" (PStr fname)); [|assumption].
  destruct (py_get data "products" (PList [])) as [prods|]; [|assumption].
  destruct (py_len prods) as [n|]; [|assumption].
  assert (H1 : json_inv (on_json (add_count n) st)).
  { apply json_inv_bucket; [reflexivity | assumption]. }
  destruct (py_iter prods); [|assumption].
  now apply json_products_loop_inv.
Qed.

Lemma json_file_step_inv (st : state) (f : json_file) :
  json_inv st -> json_inv (json_file_step st f).
Proof.
  intros Hst. unfold json_file_step.
  destruct (jf_load f) as [data|e].
  - pose proof (json_file_body_inv (jf_name f) data st Hst) as H.
    destruct (json_file_body (jf_name f) data st) as [st1 [e|]]; cbn [fst] in H.
    + apply json_inv_bucket; [reflexivity | assumption].
    + assumption.
  - apply json_inv_bucket; [reflexivity | assumption].
Qed.

Lemma test_json_catalogs_inv (json_files : list json_file) (st : state) :
  json_inv st -> json_inv (test_json_catalogs json_files st).
Proof. apply ListFacts.fold_left_inv. intros s a. apply json_file_step_inv. Qed.

(** *** CSV *)

Lemma csv_row_step_inv (fname : string) (row : dict pyval) (st : state) :
  csv_inv st -> csv_inv (fst (csv_row_step fname row st)).
Proof.
  intros [Hc Hpdf]. unfold csv_row_step.
  pose proof (consistent_step st (on_csv (add_product (csv_product fname row)) st)
                (csv_product fname row) Hc) as H.
  cbn [p_id p_source csv_product] in H.
  assert (Hing : ingested (on_csv (add_product (csv_product fname row)) st) =
                 ingested st ++ [csv_product fname row]).
  { unfold ingested, csv_phase in *. cbn. rewrite Hpdf.
    now rewrite !app_nil_r, app_assoc. }
  specialize (H Hing eq_refl).
  destruct (_add_dedup (csv_product_id row) fname
              (dedup_map (on_csv (add_product (csv_product fname row)) st)));
    cbn [fst]; (split; [exact H | assumption]).
Qed.

Lemma csv_rows_loop_inv (fname : string) (rows : list (dict pyval)) :
  forall st, csv_inv st -> csv_inv (fst (csv_rows_loop fname rows st)).
Proof.
  induction rows as [|r rows IH]; intros st Hst; cbn [csv_rows_loop fst].
  - assumption.
  - pose proof (csv_row_step_inv fname r st Hst) as H.
    destruct (csv_row_step fname r st) as [st1 [e|]]; cbn [fst] in *.
    + assumption.
    + now apply IH.
Qed.

Lemma csv_inv_bucket (f : bucket -> bucket) (st : state) :
  (forall b, products (f b) = products b) ->
  csv_inv st -> csv_inv (on_csv f st).
Proof.
  intros Hf [[Hd Hc] Hp]. split; [|exact Hp].
  split; [exact Hd|].
  intros k. unfold ingested. cbn. rewrite Hf. apply Hc.
Qed.

Lemma csv_file_step_inv (st : state) (f : csv_file) :
  csv_inv st -> csv_inv (csv_file_step st f).
Proof.
  intros Hst. unfold csv_file_step.
  destruct (cf_read f) as [lines|e].
  - unfold csv_file_body.
    assert (H1 : csv_inv (on_csv (add_count (List.length (DictReader lines))) st)).
    { apply csv_inv_bucket; [reflexivity | assumption]. }
    pose proof (csv_rows_loop_inv (cf_name f) (DictReader lines) _ H1) as H.
    destruct (csv_rows_loop (cf_name f) (DictReader lines)
                (on_csv (add_count (List.length (DictReader lines))) st))
      as [st1 [e|]]; cbn [fst] in H.
    + apply csv_inv_bucket; [reflexivity | assumption].
    + assumption.
  - apply csv_inv_bucket; [reflexivity | assumption].
Qed.

Lemma test_csv_catalogs_inv (csv_dir : option (list csv_file)) (st : state) :
  csv_inv st -> csv_inv (test_csv_catalogs csv_dir st).
Proof.
  destruct csv_dir as [files|]; cbn [test_csv_catalogs]; [|auto].
  apply ListFacts.fold_left_inv. intros s a. apply csv_file_step_inv.
Qed.

End DedupFacts.

(** ** PDF ingestion *)

Module PdfFacts.

Import PyFacts DedupFacts.

Lemma pdf_row_step_inv (fname : string) (row : list cell) (acc : state * nat) :
  dedup_consistent (fst acc) ->
  dedup_consistent (fst (fst (pdf_row_step fname row acc))).
Proof.
  destruct acc as [st n]. cbn [fst]. intros Hc. unfold pdf_row_step.
  destruct row as [|c0 rest]; [assumption|].
  destruct (cell_truthy c0); [|assumption].
  destruct (cell_strip c0) as [product_id|]; [|assumption].
  destruct (pdf_vendor rest) as [vendor|]; [|assumption].
  pose proof (consistent_step st
                (on_pdf (add_product (pdf_product fname product_id vendor)) st)
                (pdf_product fname product_id vendor) Hc) as H.
  cbn [p_id p_source pdf_product] in H.
  assert (Hing : ingested (on_pdf (add_product (pdf_product fname product_id vendor)) st) =
                 ingested st ++ [pdf_product fname product_id vendor]).
  { unfold ingested. cbn. now rewrite !app_assoc. }
  specialize (H Hing eq_refl).
  destruct (_add_dedup (PStr product_id) fname
              (dedup_map (on_pdf (add_product (pdf_product fname product_id vendor)) st)));
    cbn [fst]; exact H.
Qed.

Lemma pdf_rows_loop_inv (fname : string) (rows : list (list cell)) :
  forall acc, dedup_consistent (fst acc) ->
  dedup_consistent (fst (fst (pdf_rows_loop fname rows acc))).
Proof.
  induction rows as [|r rows IH]; intros acc Hacc; cbn [pdf_rows_loop fst].
  - assumption.
  - pose proof (pdf_row_step_inv fname r acc Hacc) as H.
    destruct (pdf_row_step fname r acc) as [acc1 [e|]]; cbn [fst] in *.
    + assumption.
    + now apply IH.
Qed.

Lemma pdf_table_step_inv (fname : string) (t : table) (acc : state * nat) :
  dedup_consistent (fst acc) ->
  dedup_consistent (fst (fst (pdf_table_step fname t acc))).
Proof.
  intros H. unfold pdf_table_step. destruct t as [|h [|r rows]]; try assumption.
  now apply pdf_rows_loop_inv.
Qed.

Lemma pdf_tables_loop_inv (fname : string) (ts : list table) :
  forall acc, dedup_consistent (fst acc) ->
  dedup_consistent (fst (fst (pdf_tables_loop fname ts acc))).
Proof.
  induction ts as [|t ts IH]; intros acc Hacc; cbn [pdf_tables_loop fst].
  - assumption.
  - pose proof (pdf_table_step_inv fname t acc Hacc) as H.
    destruct (pdf_table_step fname t acc) as [acc1 [e|]]; cbn [fst] in *.
    + assumption.
    + now apply IH.
Qed.

Lemma consistent_bucket (f : bucket -> bucket) (st : state) :
  (forall b, products (f b) = products b) ->
  dedup_consistent st -> dedup_consistent (on_pdf f st).
Proof.
  intros Hf [Hd Hc]. split; [exact Hd|].
  intros k. unfold ingested. cbn. rewrite Hf. apply Hc.
Qed.

Lemma pdf_file_step_inv (st : state) (f : pdf_file) :
  dedup_consistent st -> dedup_consistent (pdf_file_step st f).
Proof.
  intros Hst. unfold pdf_file_step.
  destruct (pf_open f) as [pages|e].
  - unfold pdf_file_body.
    pose proof (pdf_tables_loop_inv (pf_name f) (collect_tables pages) (st, 0) Hst) as H.
    destruct (pdf_tables_loop (pf_name f) (collect_tables pages) (st, 0))
      as [[st1 n] [e|]]; cbn [fst] in H.
    + apply consistent_bucket; [reflexivity | assumption].
    + apply consistent_bucket; [reflexivity | assumption].
  - apply consistent_bucket; [reflexivity | assumption].
Qed.

Lemma test_pdf_catalogs_inv (have : bool) (pdf_dir : option (list pdf_file))
    (st : state) :
  dedup_consistent st -> dedup_consistent (test_pdf_catalogs have pdf_dir st).
Proof.
  destruct pdf_dir as [files|]; cbn [test_pdf_catalogs]; [|auto].
  destruct have; [|auto].
  apply ListFacts.fold_left_inv. intros s a. apply pdf_file_step_inv.
Qed.

(** After [run], the entry of every key lists the sources of the ingested
    products with that id, JSON first, then CSV, then PDF. *)
Lemma run_consistent (json_files : list json_file)
    (csv_dir : option (list csv_file)) (have : bool)
    (pdf_dir : option (list pdf_file)) :
  dedup_consistent (run json_files csv_dir have pdf_dir).
Proof.
  unfold run. apply test_pdf_catalogs_inv.
  apply test_csv_catalogs_inv.
  assert (H : json_inv (test_json_catalogs json_files init)).
  { apply test_json_catalogs_inv. repeat split. }
  destruct H as [Hc [_ Hpdf]]. split; assumption.
Qed.

(** *** Counting rows: [measure_pdf_extraction] *)

Lemma count_rows_length (rows : list (list cell)) (n : nat) :
  Measure.count_rows rows n = n + List.length (List.filter has_first_cell rows).
Proof.
  unfold Measure.count_rows. revert n.
  induction rows as [|r rows IH]; intros n; cbn [fold_left List.filter].
  - cbn. lia.
  - rewrite IH. destruct (has_first_cell r); cbn [List.length]; lia.
Qed.

Lemma count_table_length (t : table) (n : nat) :
  Measure.count_table n t = n + List.length (kept_rows t).
Proof.
  unfold Measure.count_table, kept_rows, data_rows.
  destruct t as [|h [|r rows]]; cbn [List.filter List.length]; try lia.
  apply count_rows_length.
Qed.

Lemma fold_count_table (ts : list table) (n : nat) :
  fold_left Measure.count_table ts n = n + List.length (flat_map kept_rows ts).
Proof.
  revert n. induction ts as [|t ts IH]; intros n; cbn [fold_left flat_map].
  - cbn. lia.
  - rewrite IH, count_table_length, length_app. lia.
Qed.

(** [measure_pdf_extraction] counts one product for each row after the
    header whose first cell is true, and nothing else. *)
Lemma measure_pdf_counts_kept_rows (pages : list page) :
  Measure.measure_pdf pages =
  List.length (flat_map kept_rows (collect_tables pages)).
Proof. unfold Measure.measure_pdf. now rewrite fold_count_table. Qed.

(** *** Appending products: [test_pdf_catalogs] *)

Lemma pdf_row_step_kept (fname : string) (row : list cell) (st : state) (n : nat) :
  has_first_cell row = true ->
  second_cell_ok row = true ->
  exists m,
    pdf_row_step fname row (st, n) =
    ((set_dedup m (on_pdf (add_product (product_of_row fname row)) st), S n), None).
Proof.
  intros H1 H2. destruct row as [|[s|] rest]; try discriminate.
  unfold pdf_row_step. cbn [has_first_cell] in H1. rewrite H1.
  cbn [cell_strip].
  destruct rest as [|[v|] rest']; try discriminate; cbn [pdf_vendor cell_strip product_of_row];
    rewrite JsonFacts.add_dedup_hashable by reflexivity; eauto.
Qed.

Lemma pdf_row_step_separator (fname : string) (row : list cell) (acc : state * nat) :
  has_first_cell row = false ->
  pdf_row_step fname row acc = (acc, None).
Proof.
  intros H. destruct acc as [st n]. unfold pdf_row_step.
  destruct row as [|c rest]; [reflexivity|].
  cbn [has_first_cell] in H. now rewrite H.
Qed.

Lemma pdf_rows_loop_kept (fname : string) (rows : list (list cell)) :
  Forall (fun r => second_cell_ok r = true) (List.filter has_first_cell rows) ->
  forall st n,
  exists st1,
    pdf_rows_loop fname rows (st, n) =
      ((st1, n + List.length (List.filter has_first_cell rows)), None) /\
    products (res_pdf st1) =
      products (res_pdf st) ++
      map (product_of_row fname) (List.filter has_first_cell rows) /\
    count (res_pdf st1) = count (res_pdf st) /\
    errors (res_pdf st1) = errors (res_pdf st) /\
    res_json st1 = res_json st /\ res_csv st1 = res_csv st.
Proof.
  induction rows as [|r rows IH]; intros Hok st n; cbn [pdf_rows_loop List.filter].
  - exists st. cbn. rewrite Nat.add_0_r, app_nil_r. repeat split.
  - cbn [List.filter] in Hok. destruct (has_first_cell r) eqn:Hr.
    + inversion Hok as [|? ? Hr2 Hrest]; subst.
      destruct (pdf_row_step_kept fname r st n Hr Hr2) as [m ->].
      destruct (IH Hrest (set_dedup m (on_pdf (add_product (product_of_row fname r)) st)) (S n))
        as (st1 & -> & Hp & Hc & He & Hj & Hcsv).
      exists st1. cbn in Hp, Hc, He, Hj, Hcsv. cbn [List.length map].
      repeat split; try assumption.
      * do 2 f_equal. lia.
      * rewrite Hp. now rewrite <- app_assoc.
    + rewrite (pdf_row_step_separator fname r (st, n) Hr). now apply IH.
Qed.

Lemma pdf_tables_loop_kept (fname : string) (ts : list table) :
  Forall (fun r => second_cell_ok r = true) (flat_map kept_rows ts) ->
  forall st n,
  exists st1,
    pdf_tables_loop fname ts (st, n) =
      ((st1, n + List.length (flat_map kept_rows ts)), None) /\
    products (res_pdf st1) =
      products (res_pdf st) ++ map (product_of_row fname) (flat_map kept_rows ts) /\
    count (res_pdf st1) = count (res_pdf st) /\
    errors (res_pdf st1) = errors (res_pdf st) /\
    res_json st1 = res_json st /\ res_csv st1 = res_csv st.
Proof.
  induction ts as [|t ts IH]; intros Hok st n; cbn [pdf_tables_loop flat_map].
  - exists st. cbn. rewrite Nat.add_0_r, app_nil_r. repeat split.
  - cbn [flat_map] in Hok. apply Forall_app in Hok. destruct Hok as [Ht Hts].
    assert (Hstep : exists st1,
      pdf_table_step fname t (st, n) = ((st1, n + List.length (kept_rows t)), None) /\
      products (res_pdf st1) =
        products (res_pdf st) ++ map (product_of_row fname) (kept_rows t) /\
      count (res_pdf st1) = count (res_pdf st) /\
      errors (res_pdf st1) = errors (res_pdf st) /\
      res_json st1 = res_json st /\ res_csv st1 = res_csv st).
    { unfold pdf_table_step, kept_rows, data_rows in *.
      destruct t as [|h [|r rows]].
      - exists st. cbn. rewrite Nat.add_0_r, app_nil_r. repeat split.
      - exists st. cbn. rewrite Nat.add_0_r, app_nil_r. repeat split.
      - now apply pdf_rows_loop_kept. }
    destruct Hstep as (st1 & -> & Hp & Hc & He & Hj & Hcsv).
    destruct (IH Hts st1 (n + List.length (kept_rows t)))
      as (st2 & -> & Hp2 & Hc2 & He2 & Hj2 & Hcsv2).
    exists st2. rewrite length_app, map_app.
    repeat split; try congruence.
    + do 2 f_equal. lia.
    + rewrite Hp2, Hp. now rewrite <- app_assoc.
Qed.

(** When no kept row has [None] for a second cell, a file that opens yields
    one product per kept row, counts them, and records no error. *)
Lemma pdf_file_step_kept (st : state) (f : pdf_file) (pages : list page) :
  pf_open f = Ok pages ->
  Forall (fun r => second_cell_ok r = true)
    (flat_map kept_rows (collect_tables pages)) ->
  let kept := flat_map kept_rows (collect_tables pages) in
  let st' := pdf_file_step st f in
  products (res_pdf st') =
    products (res_pdf st) ++ map (product_of_row (pf_name f)) kept /\
  count (res_pdf st') = count (res_pdf st) + List.length kept /\
  errors (res_pdf st') = errors (res_pdf st).
Proof.
  intros Hopen Hok kept st'. subst st'. unfold pdf_file_step, pdf_file_body.
  rewrite Hopen.
  destruct (pdf_tables_loop_kept (pf_name f) (collect_tables pages) Hok st 0)
    as (st1 & -> & Hp & Hc & He & _).
  cbn. subst kept. rewrite Hc. repeat split; assumption.
Qed.

End PdfFacts.




(** C7 at a table with an empty slot: the row [['Widget', None]] has a true
    first cell, yet [test_pdf_catalogs] appends no product for it, nor for the
    row after it: [row[1].strip()] raises on [None], the file is abandoned
    with an error entry and its count is never added.
    [measure_pdf_extraction] counts both rows. *)
Lemma none_cell_aborts_pdf_file :
  kept_rows Samples.gap_table =
    [ [Some "Widget"; None]; [Some "Gadget"; Some "Acme"] ] /\
  products (res_pdf (test_pdf_catalogs true (Some [Samples.gap_pdf]) init)) = [] /\
  count (res_pdf (test_pdf_catalogs true (Some [Samples.gap_pdf]) init)) = 0 /\
  errors (res_pdf (test_pdf_catalogs true (Some [Samples.gap_pdf]) init)) =
    [ mkError "catalogs/pdf/gap.pdf" (AttributeError "NoneType") ] /\
  Measure.measure_pdf [mkPage (Some "Gap catalog") [Samples.gap_table]] = 2.
Proof. repeat split. Qed.

(** With strings in the second cells the same code keeps one product per
    row with a true first cell and skips the separators. *)
Lemma separators_are_skipped :
  map p_name
    (products (res_pdf (test_pdf_catalogs true (Some [Samples.separated_pdf]) init))) =
    [PStr "Widget"; PStr "Gadget"] /\
  count (res_pdf (test_pdf_catalogs true (Some [Samples.separated_pdf]) init)) = 2 /\
  errors (res_pdf (test_pdf_catalogs true (Some [Samples.separated_pdf]) init)) = [].
Proof. repeat split. Qed.

(** ** Field aliases *)

Module AliasFacts.

Import Aliases.

(** [measure_csv_extraction] resolves the name as the alias table says:
    the first alias with a non-empty value wins, and the result is empty
    when there is none. *)
Lemma measure_csv_name_resolves (row : dict pyval) :
  match spec_resolve (name_aliases CSV) row with
  | Some v => Measure.csv_name row = v
  | None => truthy (Measure.csv_name row) = false
  end.
Proof.
  unfold Measure.csv_name, row_get, get_default, py_or.
  cbn [name_aliases spec_resolve].
  destruct (dict_get row (PStr "Product Name")) as [a|];
    [destruct (truthy a) eqn:Ea|]; cbn [truthy]; try reflexivity;
  rewrite ?Ea;
  (destruct (dict_get row (PStr "Product")) as [b|];
    [destruct (truthy b) eqn:Eb|]; cbn [truthy]; try reflexivity);
  rewrite ?Eb;
  (destruct (dict_get row (PStr "Service")) as [c|];
    [destruct (truthy c) eqn:Ec|]; cbn [truthy]; try reflexivity; try assumption).
Qed.

Lemma measure_csv_vendor_resolves (row : dict pyval) :
  match spec_resolve (vendor_aliases CSV) row with
  | Some v => Measure.csv_vendor row = v
  | None => truthy (Measure.csv_vendor row) = false
  end.
Proof.
  unfold Measure.csv_vendor, row_get, get_default, py_or.
  cbn [vendor_aliases spec_resolve].
  destruct (dict_get row (PStr "Vendor")) as [a|];
    [destruct (truthy a) eqn:Ea|]; cbn [truthy]; try reflexivity;
  rewrite ?Ea;
  (destruct (dict_get row (PStr "Provider")) as [b|];
    [destruct (truthy b) eqn:Eb|]; cbn [truthy]; try reflexivity; try assumption).
Qed.

(** [test_csv_catalogs] resolves the vendor the same way, with ['N/A'] when
    no alias has a value. *)
Lemma tester_csv_vendor_resolves (row : dict pyval) :
  match spec_resolve (vendor_aliases CSV) row with
  | Some v => Tester.csv_vendor row = v
  | None => Tester.csv_vendor row = PStr "N/A"
  end.
Proof.
  unfold Tester.csv_vendor, row_get, get_default, py_or.
  cbn [vendor_aliases spec_resolve].
  destruct (dict_get row (PStr "Vendor")) as [a|];
    [destruct (truthy a) eqn:Ea|]; cbn [truthy]; try reflexivity;
  rewrite ?Ea;
  (destruct (dict_get row (PStr "Provider")) as [b|];
    [destruct (truthy b) eqn:Eb|]; cbn [truthy]; try reflexivity);
  rewrite ?Eb; reflexivity.
Qed.

(** A JSON record has one alias per field: a non-empty [name] wins. *)
Lemma json_name_resolves (fname : string) (d : dict pyval) :
  match spec_resolve (name_aliases JSON) d with
  | Some v =>
      p_name (json_product fname d) = v /\
      Measure.json_fields (PDict d) =
        Ok (v, get_default d (PStr "vendor") (PStr ""),
            get_default d (PStr "category") (PStr ""))
  | None => True
  end.
Proof.
  cbn [name_aliases spec_resolve]. unfold json_product, Measure.json_fields.
  cbn [py_get p_name]. unfold get_default.
  destruct (dict_get d (PStr "name")) as [a|]; [|exact I].
  destruct (truthy a); [|exact I]. split; reflexivity.
Qed.

(** The name of [test_csv_catalogs] goes through [Product Name], [Product]
    and [id]: the alias [Service] is not among them. *)
Lemma tester_csv_name_resolves (row : dict pyval) :
  match spec_resolve ["Product Name"; "Product"; "id"] row with
  | Some v => csv_product_id row = v
  | None => truthy (csv_product_id row) = false \/ csv_product_id row = PStr "unknown"
  end.
Proof.
  unfold csv_product_id, row_get, get_default, py_or.
  cbn [spec_resolve].
  destruct (dict_get row (PStr "Product Name")) as [a|];
    [destruct (truthy a) eqn:Ea|]; cbn [truthy]; try reflexivity;
  rewrite ?Ea;
  (destruct (dict_get row (PStr "Product")) as [b|];
    [destruct (truthy b) eqn:Eb|]; cbn [truthy]; try reflexivity);
  rewrite ?Eb;
  (destruct (dict_get row (PStr "id")) as [c|];
    [destruct (truthy c) eqn:Ec|]; cbn [truthy]; try reflexivity; auto).
Qed.

End AliasFacts.

(** C6 at a row of the cloud services catalog: the name arrives under
    [Service] and the vendor under [Provider].  The alias table and
    [measure_csv_extraction] resolve the name to "EC2 Instance";
    [test_csv_catalogs] resolves the vendor through [Provider] but does not
    try [Service], and names the product ['unknown']. *)
Lemma service_alias_is_not_tried :
  nth_error (DictReader Fixtures.data2) 0 = Some Samples.ec2_row /\
  Aliases.spec_resolve (Aliases.name_aliases Aliases.CSV) Samples.ec2_row =
    Some (PStr "EC2 Instance") /\
  Measure.csv_name Samples.ec2_row = PStr "EC2 Instance" /\
  p_name (csv_product "cloud_services.csv" Samples.ec2_row) = PStr "unknown" /\
  p_vendor (csv_product "cloud_services.csv" Samples.ec2_row) = PStr "AWS" /\
  map p_name
    (products (res_csv (test_csv_catalogs (Some [Samples.cloud_services_csv]) init))) =
    repeat (PStr "unknown") 7.
Proof. repeat split. Qed.

(** ** The cache manager *)

Module CacheFacts.

Import Cache.

Section Facts.

Context {R W : Type}.

Lemma find_after_write (c : gmap string (CacheEntry R)) (d : gmap string (CacheEntry R))
    (n : nat) (fp : string) (r : R) (written now : Z) :
  (now < written + TTL)%Z ->
  find R now (mkCache R (<[fp := mkEntry R fp r written (written + TTL)]> c) d n) fp =
  Some (mkEntry R fp r written (written + TTL)).
Proof.
  intros Hlive. unfold find, live_in. cbn [memory].
  rewrite lookup_insert_eq. unfold live. cbn [expires_at].
  apply Z.ltb_lt in Hlive. now rewrite Hlive.
Qed.

(** A miss runs [build_fn] once and reports [was_hit = false]. *)
Lemma get_or_build_miss (fp : string) (build_fn : W -> option R * W)
    (now : Z) (c : cache R) (w w1 : W) (r : R) :
  find R now c fp = None ->
  build_fn w = (Some r, w1) ->
  get_or_build R W fp build_fn now (c, w) =
  (inr (r, false),
   (mkCache R (<[fp := mkEntry R fp r now (now + TTL)]> (memory R c))
              (<[fp := mkEntry R fp r now (now + TTL)]> (durable R c))
              (S (executions R c)), w1)).
Proof. intros Hfind Hbuild. unfold get_or_build. now rewrite Hfind, Hbuild. Qed.

(** A hit returns the stored result and leaves the cache and the world as
    they are: [build_fn] is not run. *)
Lemma get_or_build_hit (fp : string) (build_fn : W -> option R * W)
    (now : Z) (c : cache R) (w : W) (e : CacheEntry R) :
  find R now c fp = Some e ->
  get_or_build R W fp build_fn now (c, w) = (inr (result R e, true), (c, w)).
Proof. intros Hfind. unfold get_or_build. now rewrite Hfind. Qed.

(** A failed build is not cached: the next read misses, whatever the time. *)
Lemma failed_build_leaves_no_entry (fp : string) (build_fn : W -> option R * W)
    (now now' : Z) (c : cache R) (w w1 : W) :
  find R now c fp = None ->
  build_fn w = (None, w1) ->
  find R now' (fst (snd (get_or_build R W fp build_fn now (c, w)))) fp = None.
Proof.
  intros Hfind Hbuild. unfold get_or_build. rewrite Hfind, Hbuild.
  cbn [snd fst]. unfold find, live_in. cbn [memory durable].
  now rewrite !lookup_delete_eq.
Qed.

(** An entry is dead from its 24th hour on: the read misses and the result
    is built again. *)
Lemma expired_entry_misses (fp : string) (r : R) (written now : Z)
    (m d : gmap string (CacheEntry R)) (n : nat) :
  (written + TTL <= now)%Z ->
  m !! fp = Some (mkEntry R fp r written (written + TTL)) ->
  d !! fp = Some (mkEntry R fp r written (written + TTL)) ->
  find R now (mkCache R m d n) fp = None.
Proof.
  intros Hdead Hm Hd. unfold find, live_in. cbn [memory durable].
  rewrite Hm, Hd. unfold live. cbn [expires_at].
  apply Z.ltb_ge in Hdead. now rewrite Hdead.
Qed.

End Facts.

End CacheFacts.

(** C5: two calls of [get_or_build] with the same fingerprint, the first on
    a miss and the second before the entry expires, return the same result,
    with [was_hit = false] then [was_hit = true]; the second call runs no
    build: the execution count, the cache and the world of [build_fn] are
    what the first call left. *)
Theorem get_or_build_twice_is_idempotent
    {R W : Type} (fp : string) (build_fn : W -> option R * W)
    (now1 now2 : Z) (c : Cache.cache R) (w w1 : W) (r : R) :
  Cache.find R now1 c fp = None ->
  build_fn w = (Some r, w1) ->
  (now2 < now1 + Cache.TTL)%Z ->
  exists c1 : Cache.cache R,
    Cache.get_or_build R W fp build_fn now1 (c, w) = (inr (r, false), (c1, w1)) /\
    Cache.executions R c1 = S (Cache.executions R c) /\
    Cache.get_or_build R W fp build_fn now2 (c1, w1) = (inr (r, true), (c1, w1)).
Proof.
  intros Hmiss Hbuild Hlive.
  eexists. split; [|split].
  - apply (CacheFacts.get_or_build_miss fp build_fn now1 c w w1 r Hmiss Hbuild).
  - reflexivity.
  - apply (CacheFacts.get_or_build_hit fp build_fn now2 _ w1
             (Cache.mkEntry R fp r now1 (now1 + Cache.TTL))).
    now apply CacheFacts.find_after_write.
Qed.

Lemma get_or_build_twice_witness :
  exists c1 : Cache.cache (list string),
    Cache.get_or_build (list string) nat "sha256:9f2c"
      (fun runs => (Some ["Mac Studio"], S runs)) 0 (Cache.empty (list string), 0) =
      (inr (["Mac Studio"], false), (c1, 1)) /\
    Cache.executions (list string) c1 = 1 /\
    Cache.get_or_build (list string) nat "sha256:9f2c"
      (fun runs => (Some ["Mac Studio"], S runs)) 3600 (c1, 1) =
      (inr (["Mac Studio"], true), (c1, 1)).
Proof.
  apply (get_or_build_twice_is_idempotent "sha256:9f2c"
           (fun runs => (Some ["Mac Studio"], S runs)) 0 3600
           (Cache.empty (list string)) 0 1 ["Mac Studio"]).
  - reflexivity.
  - reflexivity.
  - reflexivity.
Defined.

(** ** Price parsing *)

Module PriceFacts.

Import Price.

(** A text without digits is kept as it is, under the [Unpriced] tag. *)
Lemma sentinel_is_verbatim (s : string) :
  s <> "" -> has_digit s = false -> parse_price s = Some (Unpriced s).
Proof.
  intros Hs Hd. unfold parse_price. rewrite Hd.
  destruct s; [contradiction | reflexivity].
Qed.

(** The parser never turns a text without digits into an amount. *)
Lemma sentinel_is_not_a_number (s : string) (a : decimal) (cur : option currency) :
  has_digit s = false -> parse_price s <> Some (Amount a cur).
Proof.
  intros Hd. unfold parse_price. rewrite Hd. destruct s; discriminate.
Qed.

(** A character the parser reads as a digit is one of the ten digits. *)
Lemma digit_of_digits (c : ascii) (d : N) : digit_of c = Some d -> In c digits.
Proof.
  destruct c as [[] [] [] [] [] [] [] []]; cbn; intros H;
    first [discriminate H | tauto].
Qed.

(** The parser finds no digit in a non-numeric text. *)
Lemma non_numeric_has_no_digit (s : string) :
  non_numeric s -> has_digit s = false.
Proof.
  unfold non_numeric. induction s as [|c s IH]; cbn [list_ascii_of_string has_digit];
    intros H; [reflexivity|].
  inversion H as [|c' l Hc Hl]; subst.
  destruct (digit_of c) as [d|] eqn:E; [|now apply IH].
  destruct Hc. exact (digit_of_digits c d E).
Qed.

(** The price column of the cloud services table of [generate_pdfs]:
    ranges stay ranges, sentinels stay sentinels. *)
Lemma cloud_services_prices :
  map parse_price (Fixtures.price_column Fixtures.data2) =
    [ Some (PriceRange (whole 10) (whole 50) (Some USD));
      Some (PriceRange (whole 15) (whole 100) (Some USD));
      Some (PriceRange (whole 13) (whole 99) (Some USD));
      Some (Unpriced "Pay-as-you-go");
      Some (PriceRange (whole 15) (whole 200) (Some USD));
      Some (Unpriced "Pay-as-you-go");
      Some (Unpriced "Pay-as-you-go") ].
Proof. reflexivity. Qed.

Lemma plain_amounts :
  map parse_price (Fixtures.price_column Fixtures.data) =
  map (fun n => Some (Amount (whole n) (Some USD)))
    [2499; 1099; 249; 399; 1199; 1999; 1499]%N.
Proof. reflexivity. Qed.

End PriceFacts.

(** C9: the price ["$15-100"] parses to a range with minimum 15, maximum
    100 (mantissa 15 and 100, no decimal place) and the one currency USD, not
    to a single amount, and a non-numeric sentinel (a non-empty text with no
    decimal digit among its characters, such as ["Pay-as-you-go"] or
    ["Custom pricing"]) is kept verbatim under the [Unpriced] tag: it is
    neither an amount nor [None]. *)
Theorem price_range_and_sentinels (sentinel : string) :
  sentinel <> "" ->
  Price.non_numeric sentinel ->
  Price.parse_price "$15-100" =
    Some (Price.PriceRange (Price.mkDecimal 15 0) (Price.mkDecimal 100 0)
            (Some Price.USD)) /\
  Price.parse_price sentinel = Some (Price.Unpriced sentinel).
Proof.
  intros Hs Hd. split; [reflexivity|].
  apply PriceFacts.sentinel_is_verbatim; [exact Hs|].
  now apply PriceFacts.non_numeric_has_no_digit.
Qed.

Lemma price_range_and_sentinels_witness :
  Price.parse_price "$15-100" =
    Some (Price.PriceRange (Price.mkDecimal 15 0) (Price.mkDecimal 100 0)
            (Some Price.USD)) /\
  Price.parse_price "Pay-as-you-go" = Some (Price.Unpriced "Pay-as-you-go") /\
  Price.parse_price "Custom pricing" = Some (Price.Unpriced "Custom pricing").
Proof.
  split; [|split].
  - apply (price_range_and_sentinels "Pay-as-you-go"); [discriminate|].
    repeat constructor; cbn; intuition discriminate.
  - apply (price_range_and_sentinels "Pay-as-you-go"); [discriminate|].
    repeat constructor; cbn; intuition discriminate.
  - apply (price_range_and_sentinels "Custom pricing"); [discriminate|].
    repeat constructor; cbn; intuition discriminate.
Defined.

(** * Further properties of the scripts *)

(** ** What a file adds to its bucket *)

Module GrowthFacts.

Import Observe PyFacts.

Lemma grows_refl (b : bucket) : grows b b no_growth.
Proof. unfold grows. cbn. rewrite !app_nil_r, Nat.add_0_r. repeat split. Qed.

Lemma grows_trans (b1 b2 b3 : bucket) (g1 g2 : growth) :
  grows b1 b2 g1 -> grows b2 b3 g2 -> grows b1 b3 (growth_app g1 g2).
Proof.
  intros (Hp1 & Hc1 & He1) (Hp2 & Hc2 & He2). unfold grows, growth_app. cbn.
  rewrite Hp2, Hp1, Hc2, Hc1, He2, He1, !app_assoc. repeat split. lia.
Qed.

Lemma grows_count (b : bucket) (n : nat) :
  grows b (add_count n b) (mkGrowth [] n []).
Proof. unfold grows. cbn. rewrite !app_nil_r. repeat split. Qed.

Lemma grows_product (b : bucket) (p : product) :
  grows b (add_product p b) (mkGrowth [p] 0 []).
Proof. unfold grows. cbn. rewrite app_nil_r, Nat.add_0_r. repeat split. Qed.

Lemma grows_error (b : bucket) (e : error_entry) :
  grows b (add_error e b) (mkGrowth [] 0 [e]).
Proof. unfold grows. cbn. rewrite app_nil_r, Nat.add_0_r. repeat split. Qed.

(** [len] and [for] agree on the number of elements. *)
Lemma py_len_iter (v : pyval) (n : nat) :
  py_len v = Ok n -> exists l, py_iter v = Ok l /\ List.length l = n.
Proof.
  destruct v; cbn; try discriminate; intros [= <-]; eexists; split;
    try reflexivity.
  - induction s; cbn; congruence.
  - apply length_map.
Qed.

(** *** JSON *)

(** The product loop appends JSON products of the file, at most one per
    element, and touches no count and no error list. *)
Lemma json_products_loop_grows (fname : string) (ps : list pyval) :
  forall st, exists new,
    let st' := fst (json_products_loop fname ps st) in
    grows (res_json st) (res_json st') (mkGrowth new 0 []) /\
    List.length new <= List.length ps /\
    Forall (fun p => p_format p = "JSON" /\ p_source p = fname) new /\
    res_csv st' = res_csv st /\ res_pdf st' = res_pdf st.
Proof.
  induction ps as [|v ps IH]; intros st; cbn [json_products_loop].
  - exists []. cbn [fst]. split; [apply grows_refl|]. repeat split; auto.
  - unfold json_product_step.
    destruct v; try (exists []; cbn [fst]; split; [apply grows_refl|];
                     repeat split; auto; cbn; lia).
    destruct (_add_dedup (json_product_id l) fname
                (dedup_map (on_json (add_product (json_product fname l)) st)))
      as [m|e].
    + destruct (IH (set_dedup m (on_json (add_product (json_product fname l)) st)))
        as (new & Hg & Hlen & Hall & Hc & Hp).
      exists (json_product fname l :: new). cbv zeta in *.
      split; [|repeat split].
      * pose proof (grows_trans _ _ _ _ _ (grows_product (res_json st) (json_product fname l)) Hg) as G.
        exact G.
      * cbn. lia.
      * constructor; [split; reflexivity | assumption].
      * exact Hc.
      * exact Hp.
    + exists [json_product fname l]. cbn [fst]. split; [apply grows_product|].
      repeat split; auto; cbn; try lia.
Qed.

Lemma json_file_body_grows (fname : string) (data : pyval) (st : state) :
  exists new n,
    let st' := fst (json_file_body fname data st) in
    grows (res_json st) (res_json st') (mkGrowth new n []) /\
    List.length new <= n /\
    Forall (fun p => p_format p = "JSON" /\ p_source p = fname) new /\
    res_csv st' = res_csv st /\ res_pdf st' = res_pdf st.
Proof.
  assert (Hnone : exists new n,
    grows (res_json st) (res_json st) (mkGrowth new n []) /\
    List.length new <= n /\
    Forall (fun p => p_format p = "JSON" /\ p_source p = fname) new /\
    res_csv st = res_csv st /\ res_pdf st = res_pdf st).
  { exists [], 0. split; [apply grows_refl|]. repeat split; auto. }
  unfold json_file_body.
  destruct (py_get data "catalog_name" (PStr fname)); [|exact Hnone].
  destruct (py_get data "products" (PList [])) as [prods|]; [|exact Hnone].
  destruct (py_len prods) as [n|] eqn:Hlen; [|exact Hnone].
  destruct (py_len_iter _ _ Hlen) as (l & -> & Hl).
  destruct (json_products_loop_grows fname l (on_json (add_count n) st))
    as (new & Hg & Hle & Hall & Hc & Hp).
  exists new, n. cbv zeta in *. split; [|repeat split; try assumption; lia].
  pose proof (grows_trans _ _ _ _ _ (grows_count (res_json st) n) Hg) as G.
  unfold growth_app in G. cbn in G. rewrite Nat.add_0_r in G. exact G.
Qed.

(** One JSON file, whatever it holds: the products it appends are at most
    as many as the count it adds, it leaves at most one error entry, under
    its own path, and the other buckets are not touched. *)
Lemma json_file_step_grows (st : state) (f : json_file) :
  exists g,
    let st' := json_file_step st f in
    grows (res_json st) (res_json st') g /\
    List.length (g_new g) <= g_count g /\
    List.length (g_errors g) <= 1 /\
    Forall (fun e => e_file e = jf_path f) (g_errors g) /\
    Forall (fun p => p_format p = "JSON" /\ p_source p = jf_name f) (g_new g) /\
    res_csv st' = res_csv st /\ res_pdf st' = res_pdf st.
Proof.
  unfold json_file_step. destruct (jf_load f) as [data|e].
  - destruct (json_file_body_grows (jf_name f) data st)
      as (new & n & Hg & Hle & Hall & Hc & Hp).
    destruct (json_file_body (jf_name f) data st) as [st1 [e|]];
      cbn [fst] in *.
    + exists (mkGrowth new n [mkError (jf_path f) e]). cbn.
      split; [|repeat split; auto].
      pose proof (grows_trans _ _ _ _ _ Hg
                    (grows_error (res_json st1) (mkError (jf_path f) e))) as G.
      unfold growth_app in G. cbn in G.
      rewrite app_nil_r, Nat.add_0_r in G. exact G.
    + exists (mkGrowth new n []). cbn. split; [exact Hg|]. repeat split; auto.
  - exists (mkGrowth [] 0 [mkError (jf_path f) e]). cbn.
    split; [apply grows_error|]. repeat split; auto.
Qed.

Lemma fold_json_grows (files : list json_file) :
  forall st, exists g,
    let st' := fold_left json_file_step files st in
    grows (res_json st) (res_json st') g /\
    List.length (g_new g) <= g_count g /\
    List.length (g_errors g) <= List.length files /\
    Forall (fun e => In (e_file e) (map jf_path files)) (g_errors g) /\
    Forall (fun p => p_format p = "JSON" /\ In (p_source p) (map jf_name files))
      (g_new g) /\
    res_csv st' = res_csv st /\ res_pdf st' = res_pdf st.
Proof.
  induction files as [|f files IH]; intros st; cbn [fold_left].
  - exists no_growth. cbn. split; [apply grows_refl|]. repeat split; auto.
  - destruct (json_file_step_grows st f) as (g1 & G1 & L1 & E1 & F1 & P1 & C1 & D1).
    destruct (IH (json_file_step st f)) as (g2 & G2 & L2 & E2 & F2 & P2 & C2 & D2).
    cbv zeta in *. exists (growth_app g1 g2).
    split; [exact (grows_trans _ _ _ _ _ G1 G2)|].
    unfold growth_app. cbn [g_new g_count g_errors map List.length].
    rewrite !length_app. repeat split.
    + lia.
    + lia.
    + apply Forall_app. split.
      * eapply List.Forall_impl; [|exact F1]. cbn. intros e ->. now left.
      * eapply List.Forall_impl; [|exact F2]. cbn. intros e H. now right.
    + apply Forall_app. split.
      * eapply List.Forall_impl; [|exact P1]. cbn. intros p [H1 ->]. split; auto.
      * eapply List.Forall_impl; [|exact P2]. cbn. intros p [H1 H2]. split; auto.
    + congruence.
    + congruence.
Qed.

(** *** CSV *)

Lemma csv_file_step_grows (st : state) (f : csv_file) :
  exists g,
    let st' := csv_file_step st f in
    grows (res_csv st) (res_csv st') g /\
    List.length (g_new g) = g_count g /\
    List.length (g_errors g) = (if csv_unreadable f then 1 else 0) /\
    Forall (fun e => e_file e = cf_path f) (g_errors g) /\
    Forall (csv_shape (cf_name f)) (g_new g) /\
    res_json st' = res_json st /\ res_pdf st' = res_pdf st.
Proof.
  unfold csv_unreadable. destruct (cf_read f) as [lines|e] eqn:Hread.
  - destruct (CsvFacts.csv_file_step_rows st f lines Hread) as (Hc & Hp & He & Hj & Hd).
    exists (mkGrowth (map (csv_product (cf_name f)) (DictReader lines))
                     (List.length (DictReader lines)) []).
    cbn. split; [|repeat split; auto].
    + unfold grows. cbn. rewrite app_nil_r. repeat split; assumption.
    + apply length_map.
    + apply Forall_map. pose proof (CsvFacts.DictReader_cells lines) as Hcells.
      eapply List.Forall_impl; [|exact Hcells]. cbn. intros row Hrow.
      repeat split; [now apply CsvFacts.csv_product_id_hashable|].
      cbn. unfold Tester.csv_vendor, py_or.
      destruct (truthy (if truthy (row_get row "Vendor") then row_get row "Vendor"
                        else row_get row "Provider")) eqn:E; [exact E | reflexivity].
  - unfold csv_file_step. rewrite Hread.
    exists (mkGrowth [] 0 [mkError (cf_path f) e]). cbn.
    split; [apply grows_error|]. repeat split; auto.
Qed.

Lemma fold_csv_grows (files : list csv_file) :
  forall st, exists g,
    let st' := fold_left csv_file_step files st in
    grows (res_csv st) (res_csv st') g /\
    List.length (g_new g) = g_count g /\
    List.length (g_errors g) = List.length (List.filter csv_unreadable files) /\
    Forall (fun e => In (e_file e) (map cf_path files)) (g_errors g) /\
    Forall (fun p => exists fname, In fname (map cf_name files) /\ csv_shape fname p)
      (g_new g) /\
    res_json st' = res_json st /\ res_pdf st' = res_pdf st.
Proof.
  induction files as [|f files IH]; intros st; cbn [fold_left].
  - exists no_growth. cbn. split; [apply grows_refl|]. repeat split; auto.
  - destruct (csv_file_step_grows st f) as (g1 & G1 & L1 & E1 & F1 & P1 & C1 & D1).
    destruct (IH (csv_file_step st f)) as (g2 & G2 & L2 & E2 & F2 & P2 & C2 & D2).
    cbv zeta in *. exists (growth_app g1 g2).
    split; [exact (grows_trans _ _ _ _ _ G1 G2)|].
    unfold growth_app. cbn [g_new g_count g_errors map List.length List.filter].
    rewrite !length_app. repeat split.
    + lia.
    + rewrite E1, E2. destruct (csv_unreadable f); reflexivity.
    + apply Forall_app. split.
      * eapply List.Forall_impl; [|exact F1]. cbn. intros e ->. now left.
      * eapply List.Forall_impl; [|exact F2]. cbn. intros e H. now right.
    + apply Forall_app. split.
      * eapply List.Forall_impl; [|exact P1]. cbn. intros p H.
        exists (cf_name f). split; [now left | exact H].
      * eapply List.Forall_impl; [|exact P2]. cbn. intros p (fn & H1 & H2).
        exists fn. split; [now right | exact H2].
    + congruence.
    + congruence.
Qed.

(** *** [str.strip] *)

Lemma rstrip_head (c : ascii) (s : string) :
  rstrip (String c s) = EmptyString \/ exists r, rstrip (String c s) = String c r.
Proof.
  cbn [rstrip]. destruct (rstrip s); [|eauto].
  destruct (is_space c); eauto.
Qed.

Lemma lstrip_head (s : string) :
  match lstrip s with
  | String c _ => is_space c = false
  | EmptyString => True
  end.
Proof.
  induction s as [|c s IH]; cbn [lstrip]; [exact I|].
  destruct (is_space c) eqn:E; [exact IH | exact E].
Qed.

Lemma rstrip_idem (s : string) : rstrip (rstrip s) = rstrip s.
Proof.
  induction s as [|c s IH]; [reflexivity|]. cbn [rstrip].
  destruct (rstrip s) as [|c' r] eqn:E.
  - destruct (is_space c) eqn:Ec; [reflexivity|]. cbn [rstrip]. now rewrite Ec.
  - change (rstrip (String c (String c' r))) with
      (match rstrip (String c' r) with
       | EmptyString => if is_space c then EmptyString else String c EmptyString
       | r0 => String c r0
       end).
    now rewrite IH.
Qed.

(** Stripping twice is stripping once. *)
Lemma strip_idem (s : string) : stripped (strip s).
Proof.
  unfold stripped, strip.
  assert (H : lstrip (rstrip (lstrip s)) = rstrip (lstrip s)).
  { pose proof (lstrip_head s) as Hh. destruct (lstrip s) as [|c t]; [reflexivity|].
    destruct (rstrip_head c t) as [-> | [r ->]]; [reflexivity|].
    cbn [lstrip]. now rewrite Hh. }
  rewrite H. apply rstrip_idem.
Qed.

(** *** PDF *)

Lemma pdf_row_step_grows (fname : string) (row : list cell) (st : state) (n : nat) :
  exists new,
    let out := pdf_row_step fname row (st, n) in
    grows (res_pdf st) (res_pdf (fst (fst out))) (mkGrowth new 0 []) /\
    snd (fst out) = n + List.length new /\
    Forall (pdf_shape fname) new /\
    res_json (fst (fst out)) = res_json st /\
    res_csv (fst (fst out)) = res_csv st.
Proof.
  assert (Hnone : exists new,
    grows (res_pdf st) (res_pdf st) (mkGrowth new 0 []) /\
    n = n + List.length new /\
    Forall (pdf_shape fname) new /\
    res_json st = res_json st /\ res_csv st = res_csv st).
  { exists []. split; [apply grows_refl|]. cbn. repeat split; auto. }
  unfold pdf_row_step.
  destruct row as [|c0 rest]; [exact Hnone|].
  destruct (cell_truthy c0); [|exact Hnone].
  destruct c0 as [s|]; cbn [cell_strip]; [|exact Hnone].
  destruct (pdf_vendor rest) as [vendor|]; [|exact Hnone].
  rewrite JsonFacts.add_dedup_hashable by reflexivity.
  exists [pdf_product fname (strip s) vendor]. cbn [fst snd].
  split; [apply grows_product|]. cbn. repeat split; try lia.
  constructor; [|constructor]. repeat split.
  exists (strip s). split; [reflexivity | apply strip_idem].
Qed.

Lemma pdf_rows_loop_grows (fname : string) (rows : list (list cell)) :
  forall st n, exists new,
    let out := pdf_rows_loop fname rows (st, n) in
    grows (res_pdf st) (res_pdf (fst (fst out))) (mkGrowth new 0 []) /\
    snd (fst out) = n + List.length new /\
    Forall (pdf_shape fname) new /\
    res_json (fst (fst out)) = res_json st /\
    res_csv (fst (fst out)) = res_csv st.
Proof.
  induction rows as [|r rows IH]; intros st n; cbn [pdf_rows_loop].
  - exists []. cbn. split; [apply grows_refl|]. repeat split; auto.
  - destruct (pdf_row_step_grows fname r st n) as (new1 & G1 & N1 & S1 & J1 & C1).
    destruct (pdf_row_step fname r (st, n)) as [[st1 n1] [e|]]; cbn [fst snd] in *.
    + exists new1. cbv zeta in *. split; [exact G1|]. repeat split; assumption.
    + destruct (IH st1 n1) as (new2 & G2 & N2 & S2 & J2 & C2).
      cbv zeta in *. exists (new1 ++ new2).
      split; [exact (grows_trans _ _ _ _ _ G1 G2)|].
      rewrite length_app. repeat split.
      * lia.
      * now apply Forall_app.
      * congruence.
      * congruence.
Qed.

Lemma pdf_tables_loop_grows (fname : string) (ts : list table) :
  forall st n, exists new,
    let out := pdf_tables_loop fname ts (st, n) in
    grows (res_pdf st) (res_pdf (fst (fst out))) (mkGrowth new 0 []) /\
    snd (fst out) = n + List.length new /\
    Forall (pdf_shape fname) new /\
    res_json (fst (fst out)) = res_json st /\
    res_csv (fst (fst out)) = res_csv st.
Proof.
  induction ts as [|t ts IH]; intros st n; cbn [pdf_tables_loop].
  - exists []. cbn. split; [apply grows_refl|]. repeat split; auto.
  - assert (Hstep : exists new,
      let out := pdf_table_step fname t (st, n) in
      grows (res_pdf st) (res_pdf (fst (fst out))) (mkGrowth new 0 []) /\
      snd (fst out) = n + List.length new /\
      Forall (pdf_shape fname) new /\
      res_json (fst (fst out)) = res_json st /\
      res_csv (fst (fst out)) = res_csv st).
    { unfold pdf_table_step. destruct t as [|h [|r rows]].
      - exists []. cbn. split; [apply grows_refl|]. repeat split; auto.
      - exists []. cbn. split; [apply grows_refl|]. repeat split; auto.
      - apply pdf_rows_loop_grows. }
    destruct Hstep as (new1 & G1 & N1 & S1 & J1 & C1).
    destruct (pdf_table_step fname t (st, n)) as [[st1 n1] [e|]]; cbn [fst snd] in *.
    + exists new1. cbv zeta in *. split; [exact G1|]. repeat split; assumption.
    + destruct (IH st1 n1) as (new2 & G2 & N2 & S2 & J2 & C2).
      cbv zeta in *. exists (new1 ++ new2).
      split; [exact (grows_trans _ _ _ _ _ G1 G2)|].
      rewrite length_app. repeat split.
      * lia.
      * now apply Forall_app.
      * congruence.
      * congruence.
Qed.

(** One PDF file, whatever it holds: the count it adds is at most the
    number of products it appends (it is [0] when the file is abandoned),
    and it leaves at most one error entry, under its own path. *)
Lemma pdf_file_step_grows (st : state) (f : pdf_file) :
  exists g,
    let st' := pdf_file_step st f in
    grows (res_pdf st) (res_pdf st') g /\
    g_count g <= List.length (g_new g) /\
    (g_errors g = [] -> g_count g = List.length (g_new g)) /\
    List.length (g_errors g) <= 1 /\
    Forall (fun e => e_file e = pf_path f) (g_errors g) /\
    Forall (pdf_shape (pf_name f)) (g_new g) /\
    res_json st' = res_json st /\ res_csv st' = res_csv st.
Proof.
  unfold pdf_file_step. destruct (pf_open f) as [pages|e].
  - unfold pdf_file_body.
    destruct (pdf_tables_loop_grows (pf_name f) (collect_tables pages) st 0)
      as (new & G & N & S & J & C).
    destruct (pdf_tables_loop (pf_name f) (collect_tables pages) (st, 0))
      as [[st1 n1] [e|]]; cbn [fst snd] in *.
    + exists (mkGrowth new 0 [mkError (pf_path f) e]). cbn.
      split; [|repeat split; auto; try lia; discriminate].
      pose proof (grows_trans _ _ _ _ _ G
                    (grows_error (res_pdf st1) (mkError (pf_path f) e))) as G'.
      unfold growth_app in G'. cbn in G'. rewrite app_nil_r in G'. exact G'.
    + exists (mkGrowth new n1 []). cbn.
      split; [|repeat split; auto; lia].
      pose proof (grows_trans _ _ _ _ _ G (grows_count (res_pdf st1) n1)) as G'.
      unfold growth_app in G'. cbn in G'. rewrite app_nil_r in G'. exact G'.
  - exists (mkGrowth [] 0 [mkError (pf_path f) e]). cbn.
    split; [apply grows_error|]. repeat split; auto.
Qed.

Lemma fold_pdf_grows (files : list pdf_file) :
  forall st, exists g,
    let st' := fold_left pdf_file_step files st in
    grows (res_pdf st) (res_pdf st') g /\
    g_count g <= List.length (g_new g) /\
    (g_errors g = [] -> g_count g = List.length (g_new g)) /\
    List.length (g_errors g) <= List.length files /\
    Forall (fun e => In (e_file e) (map pf_path files)) (g_errors g) /\
    Forall (fun p => exists fname, In fname (map pf_name files) /\ pdf_shape fname p)
      (g_new g) /\
    res_json st' = res_json st /\ res_csv st' = res_csv st.
Proof.
  induction files as [|f files IH]; intros st; cbn [fold_left].
  - exists no_growth. cbn. split; [apply grows_refl|]. repeat split; auto.
  - destruct (pdf_file_step_grows st f) as (g1 & G1 & L1 & Q1 & E1 & F1 & P1 & C1 & D1).
    destruct (IH (pdf_file_step st f)) as (g2 & G2 & L2 & Q2 & E2 & F2 & P2 & C2 & D2).
    cbv zeta in *. exists (growth_app g1 g2).
    split; [exact (grows_trans _ _ _ _ _ G1 G2)|].
    unfold growth_app. cbn [g_new g_count g_errors map List.length].
    rewrite !length_app. repeat split.
    + lia.
    + intros H. apply app_eq_nil in H. destruct H as [H1 H2].
      rewrite (Q1 H1), (Q2 H2). reflexivity.
    + lia.
    + apply Forall_app. split.
      * eapply List.Forall_impl; [|exact F1]. cbn. intros e ->. now left.
      * eapply List.Forall_impl; [|exact F2]. cbn. intros e H. now right.
    + apply Forall_app. split.
      * eapply List.Forall_impl; [|exact P1]. cbn. intros p H.
        exists (pf_name f). split; [now left | exact H].
      * eapply List.Forall_impl; [|exact P2]. cbn. intros p (fn & H1 & H2).
        exists fn. split; [now right | exact H2].
    + congruence.
    + congruence.
Qed.

Lemma test_csv_catalogs_fold (csv_dir : option (list csv_file)) (st : state) :
  test_csv_catalogs csv_dir st = fold_left csv_file_step (files_read csv_dir) st.
Proof. now destruct csv_dir. Qed.

Lemma test_pdf_catalogs_fold (have : bool) (pdf_dir : option (list pdf_file))
    (st : state) :
  test_pdf_catalogs have pdf_dir st =
  fold_left pdf_file_step (pdf_files_read have pdf_dir) st.
Proof. destruct pdf_dir, have; reflexivity. Qed.

End GrowthFacts.

(** ** The error entries of an ingestion *)

Module ErrorFacts.

Import Observe.

(** Ingestions whose step leaves at most one error entry per file, under the
    file's path: over any files, the entries added name a sub-list of the
    files, in order. *)
Section OnePerFile.

Variable A : Type.
Variable step : state -> A -> state.
Variable path : A -> string.
Variable sel : state -> bucket.

Hypothesis step_errors : forall st f, exists es,
  errors (sel (step st f)) = errors (sel st) ++ es /\
  List.length es <= 1 /\
  Forall (fun e => e_file e = path f) es.

Lemma fold_errors_sublist (files : list A) :
  forall st, exists es,
    errors (sel (fold_left step files st)) = errors (sel st) ++ es /\
    map e_file es `sublist_of` map path files.
Proof.
  induction files as [|f files IH]; intros st; cbn [fold_left map].
  - exists []. split; [now rewrite app_nil_r | constructor].
  - destruct (step_errors st f) as (es1 & E1 & L1 & F1).
    destruct (IH (step st f)) as (es2 & E2 & S2).
    exists (es1 ++ es2). split; [now rewrite E2, E1, app_assoc|].
    rewrite map_app. destruct es1 as [|e1 [|e1' es1]]; cbn [map app].
    + now apply sublist_cons.
    + inversion F1 as [|x l Hx _]; subst. rewrite Hx. now apply sublist_skip.
    + cbn in L1. lia.
Qed.

End OnePerFile.

Lemma json_errors_sublist (files : list json_file) (st : state) :
  exists es,
    errors (res_json (fold_left json_file_step files st)) =
      errors (res_json st) ++ es /\
    map e_file es `sublist_of` map jf_path files.
Proof.
  apply fold_errors_sublist. clear. intros st f.
  destruct (GrowthFacts.json_file_step_grows st f)
    as (g & (_ & _ & He) & _ & Hl & Hf & _).
  exists (g_errors g). repeat split; assumption.
Qed.

Lemma csv_errors_sublist (files : list csv_file) (st : state) :
  exists es,
    errors (res_csv (fold_left csv_file_step files st)) =
      errors (res_csv st) ++ es /\
    map e_file es `sublist_of` map cf_path files.
Proof.
  apply fold_errors_sublist. clear. intros st f.
  destruct (GrowthFacts.csv_file_step_grows st f)
    as (g & (_ & _ & He) & _ & Hl & Hf & _).
  exists (g_errors g). repeat split; try assumption.
  rewrite Hl. destruct (csv_unreadable f); lia.
Qed.

Lemma pdf_errors_sublist (files : list pdf_file) (st : state) :
  exists es,
    errors (res_pdf (fold_left pdf_file_step files st)) =
      errors (res_pdf st) ++ es /\
    map e_file es `sublist_of` map pf_path files.
Proof.
  apply fold_errors_sublist. clear. intros st f.
  destruct (GrowthFacts.pdf_file_step_grows st f)
    as (g & (_ & _ & He) & _ & _ & Hl & Hf & _).
  exists (g_errors g). repeat split; assumption.
Qed.

End ErrorFacts.

(** ** Relations the dedup map keeps with the products *)

Module RunInvariant.

Import Observe PyFacts.

Section Generic.

(** A relation that holds of the empty map and no product, and that
    [_add_dedup] keeps when a product is appended, whether it returns or
    raises. *)
Variable P : dict (list string) -> list product -> Prop.

Hypothesis P_init : P [] [].

Hypothesis P_step :
  forall m ps p,
    P m ps ->
    match _add_dedup (p_id p) (p_source p) m with
    | Ok m' => P m' (ps ++ [p])
    | Raise _ => P m (ps ++ [p])
    end.

Lemma inv_step (st st1 : state) (p : product) :
  map_inv P st ->
  ingested st1 = ingested st ++ [p] ->
  dedup_map st1 = dedup_map st ->
  match _add_dedup (p_id p) (p_source p) (dedup_map st1) with
  | Ok m => map_inv P (set_dedup m st1)
  | Raise _ => map_inv P st1
  end.
Proof.
  unfold map_inv. intros H Hing Hmap. pose proof (P_step _ _ p H) as S.
  rewrite Hmap.
  destruct (_add_dedup (p_id p) (p_source p) (dedup_map st)) as [m|e].
  - change (ingested (set_dedup m st1)) with (ingested st1).
    cbn [set_dedup dedup_map]. now rewrite Hing.
  - now rewrite Hing.
Qed.

Lemma inv_json_bucket (f : bucket -> bucket) (st : state) :
  (forall b, products (f b) = products b) ->
  map_inv P st -> map_inv P (on_json f st).
Proof. unfold map_inv, ingested. cbn. intros ->. auto. Qed.

Lemma inv_csv_bucket (f : bucket -> bucket) (st : state) :
  (forall b, products (f b) = products b) ->
  map_inv P st -> map_inv P (on_csv f st).
Proof. unfold map_inv, ingested. cbn. intros ->. auto. Qed.

Lemma inv_pdf_bucket (f : bucket -> bucket) (st : state) :
  (forall b, products (f b) = products b) ->
  map_inv P st -> map_inv P (on_pdf f st).
Proof. unfold map_inv, ingested. cbn. intros ->. auto. Qed.

Lemma json_loop_inv (fname : string) (ps : list pyval) :
  forall st, map_inv P st /\ json_phase st ->
  map_inv P (fst (json_products_loop fname ps st)) /\
  json_phase (fst (json_products_loop fname ps st)).
Proof.
  induction ps as [|v ps IH]; intros st Hst; cbn [json_products_loop]; [exact Hst|].
  assert (H1 : map_inv P (fst (json_product_step fname v st)) /\
               json_phase (fst (json_product_step fname v st))).
  { destruct Hst as [Hc [Hcsv Hpdf]]. unfold json_product_step.
    destruct v; try (split; [assumption | split; assumption]).
    pose proof (inv_step st (on_json (add_product (json_product fname l)) st)
                  (json_product fname l) Hc) as H.
    cbn [p_id p_source json_product] in H.
    assert (Hing : ingested (on_json (add_product (json_product fname l)) st) =
                   ingested st ++ [json_product fname l]).
    { unfold ingested. cbn. rewrite Hcsv, Hpdf. now rewrite !app_nil_r. }
    specialize (H Hing eq_refl).
    destruct (_add_dedup (json_product_id l) fname
                (dedup_map (on_json (add_product (json_product fname l)) st)));
      cbn [fst]; (split; [exact H | split; assumption]). }
  destruct (json_product_step fname v st) as [st1 [e|]]; cbn [fst] in *.
  - exact H1.
  - now apply IH.
Qed.

Lemma json_step_inv (st : state) (f : json_file) :
  map_inv P st /\ json_phase st ->
  map_inv P (json_file_step st f) /\ json_phase (json_file_step st f).
Proof.
  intros Hst.
  assert (Hb : forall g s, (forall b, products (g b) = products b) ->
             map_inv P s /\ json_phase s ->
             map_inv P (on_json g s) /\ json_phase (on_json g s)).
  { intros g s Hg [H1 H2]. split; [now apply inv_json_bucket | exact H2]. }
  unfold json_file_step. destruct (jf_load f) as [data|e].
  - assert (H : map_inv P (fst (json_file_body (jf_name f) data st)) /\
                json_phase (fst (json_file_body (jf_name f) data st))).
    { unfold json_file_body.
      destruct (py_get data "catalog_name" (PStr (jf_name f))); [|exact Hst].
      destruct (py_get data "products" (PList [])) as [prods|]; [|exact Hst].
      destruct (py_len prods) as [n|]; [|exact Hst].
      assert (H1 := Hb (add_count n) st (fun b => eq_refl) Hst).
      destruct (py_iter prods); [|exact H1].
      now apply json_loop_inv. }
    destruct (json_file_body (jf_name f) data st) as [st1 [e|]]; cbn [fst] in H.
    + apply Hb; [reflexivity | exact H].
    + exact H.
  - apply Hb; [reflexivity | exact Hst].
Qed.

Lemma csv_loop_inv (fname : string) (rows : list (dict pyval)) :
  forall st, map_inv P st /\ csv_phase st ->
  map_inv P (fst (csv_rows_loop fname rows st)) /\
  csv_phase (fst (csv_rows_loop fname rows st)).
Proof.
  induction rows as [|r rows IH]; intros st Hst; cbn [csv_rows_loop]; [exact Hst|].
  assert (H1 : map_inv P (fst (csv_row_step fname r st)) /\
               csv_phase (fst (csv_row_step fname r st))).
  { destruct Hst as [Hc Hpdf]. unfold csv_row_step.
    pose proof (inv_step st (on_csv (add_product (csv_product fname r)) st)
                  (csv_product fname r) Hc) as H.
    cbn [p_id p_source csv_product] in H.
    assert (Hing : ingested (on_csv (add_product (csv_product fname r)) st) =
                   ingested st ++ [csv_product fname r]).
    { unfold ingested, csv_phase in *. cbn. rewrite Hpdf.
      now rewrite !app_nil_r, app_assoc. }
    specialize (H Hing eq_refl).
    destruct (_add_dedup (csv_product_id r) fname
                (dedup_map (on_csv (add_product (csv_product fname r)) st)));
      cbn [fst]; (split; [exact H | assumption]). }
  destruct (csv_row_step fname r st) as [st1 [e|]]; cbn [fst] in *.
  - exact H1.
  - now apply IH.
Qed.

Lemma csv_step_inv (st : state) (f : csv_file) :
  map_inv P st /\ csv_phase st ->
  map_inv P (csv_file_step st f) /\ csv_phase (csv_file_step st f).
Proof.
  intros Hst.
  assert (Hb : forall g s, (forall b, products (g b) = products b) ->
             map_inv P s /\ csv_phase s ->
             map_inv P (on_csv g s) /\ csv_phase (on_csv g s)).
  { intros g s Hg [H1 H2]. split; [now apply inv_csv_bucket | exact H2]. }
  unfold csv_file_step. destruct (cf_read f) as [lines|e].
  - unfold csv_file_body.
    assert (H1 := Hb (add_count (List.length (DictReader lines))) st
                     (fun b => eq_refl) Hst).
    pose proof (csv_loop_inv (cf_name f) (DictReader lines) _ H1) as H.
    destruct (csv_rows_loop (cf_name f) (DictReader lines)
                (on_csv (add_count (List.length (DictReader lines))) st))
      as [st1 [e|]]; cbn [fst] in H.
    + apply Hb; [reflexivity | exact H].
    + exact H.
  - apply Hb; [reflexivity | exact Hst].
Qed.

Lemma pdf_tables_inv (fname : string) (ts : list table) :
  forall acc, map_inv P (fst acc) ->
  map_inv P (fst (fst (pdf_tables_loop fname ts acc))).
Proof.
  assert (Hrow : forall row acc, map_inv P (fst acc) ->
                 map_inv P (fst (fst (pdf_row_step fname row acc)))).
  { intros row [st n] Hc. cbn [fst] in Hc. unfold pdf_row_step.
    destruct row as [|c0 rest]; [assumption|].
    destruct (cell_truthy c0); [|assumption].
    destruct (cell_strip c0) as [product_id|]; [|assumption].
    destruct (pdf_vendor rest) as [vendor|]; [|assumption].
    pose proof (inv_step st
                  (on_pdf (add_product (pdf_product fname product_id vendor)) st)
                  (pdf_product fname product_id vendor) Hc) as H.
    cbn [p_id p_source pdf_product] in H.
    assert (Hing : ingested (on_pdf (add_product (pdf_product fname product_id vendor)) st) =
                   ingested st ++ [pdf_product fname product_id vendor]).
    { unfold ingested. cbn. now rewrite !app_assoc. }
    specialize (H Hing eq_refl).
    destruct (_add_dedup (PStr product_id) fname
                (dedup_map (on_pdf (add_product (pdf_product fname product_id vendor)) st)));
      cbn [fst]; exact H. }
  assert (Hrows : forall rows acc, map_inv P (fst acc) ->
                  map_inv P (fst (fst (pdf_rows_loop fname rows acc)))).
  { induction rows as [|r rows IH]; intros acc Hacc; cbn [pdf_rows_loop fst];
      [assumption|].
    pose proof (Hrow r acc Hacc) as H.
    destruct (pdf_row_step fname r acc) as [acc1 [e|]]; cbn [fst] in *; auto. }
  induction ts as [|t ts IH]; intros acc Hacc; cbn [pdf_tables_loop fst];
    [assumption|].
  assert (H : map_inv P (fst (fst (pdf_table_step fname t acc)))).
  { unfold pdf_table_step. destruct t as [|h [|r rows]]; auto. }
  destruct (pdf_table_step fname t acc) as [acc1 [e|]]; cbn [fst] in *; auto.
Qed.

Lemma pdf_step_inv (st : state) (f : pdf_file) :
  map_inv P st -> map_inv P (pdf_file_step st f).
Proof.
  intros Hst. unfold pdf_file_step. destruct (pf_open f) as [pages|e].
  - unfold pdf_file_body.
    pose proof (pdf_tables_inv (pf_name f) (collect_tables pages) (st, 0) Hst) as H.
    destruct (pdf_tables_loop (pf_name f) (collect_tables pages) (st, 0))
      as [[st1 n] [e|]]; cbn [fst] in H;
      (apply inv_pdf_bucket; [reflexivity | assumption]).
  - apply inv_pdf_bucket; [reflexivity | assumption].
Qed.

(** The relation holds after a run. *)
Lemma run_inv (json_files : list json_file) (csv_dir : option (list csv_file))
    (have : bool) (pdf_dir : option (list pdf_file)) :
  map_inv P (run json_files csv_dir have pdf_dir).
Proof.
  unfold run.
  assert (Hj : map_inv P (test_json_catalogs json_files init) /\
               json_phase (test_json_catalogs json_files init)).
  { unfold test_json_catalogs.
    apply (ListFacts.fold_left_inv (fun s => map_inv P s /\ json_phase s)).
    - intros s a. apply json_step_inv.
    - split; [exact P_init | split; reflexivity]. }
  assert (Hc : map_inv P (test_csv_catalogs csv_dir (test_json_catalogs json_files init)) /\
               csv_phase (test_csv_catalogs csv_dir (test_json_catalogs json_files init))).
  { destruct Hj as [H1 [_ H2]].
    destruct csv_dir as [files|]; cbn [test_csv_catalogs]; [|split; assumption].
    apply (ListFacts.fold_left_inv (fun s => map_inv P s /\ csv_phase s)).
    - intros s a. apply csv_step_inv.
    - split; assumption. }
  destruct Hc as [Hc _].
  destruct pdf_dir as [files|]; cbn [test_pdf_catalogs]; [|assumption].
  destruct have; [|assumption].
  apply (ListFacts.fold_left_inv (map_inv P)); [|assumption].
  intros s a. apply pdf_step_inv.
Qed.

End Generic.

End RunInvariant.

Module DedupMore.

Import Observe PyFacts.

Lemma total_sources_cons (k : pyval) (v : list string) (m : dict (list string)) :
  total_sources ((k, v) :: m) = List.length v + total_sources m.
Proof. reflexivity. Qed.

Lemma total_sources_add (m : dict (list string)) (k : pyval) (src : string) :
  total_sources (dict_set m k (get_default m k [] ++ [src])) = S (total_sources m).
Proof.
  unfold get_default.
  induction m as [|[k0 v0] m IH]; cbn [dict_set dict_get]; [reflexivity|].
  destruct (key_eqb k0 k).
  - rewrite !total_sources_cons, length_app. cbn. lia.
  - rewrite !total_sources_cons, IH. lia.
Qed.

Lemma dict_set_sound (m : dict (list string)) (k : pyval) (v : list string) :
  hashable k = true -> v <> [] -> entries_sound m -> entries_sound (dict_set m k v).
Proof.
  intros Hk Hv. unfold entries_sound.
  induction m as [|[k0 v0] m IH]; cbn [dict_set]; intros Hm.
  - constructor; [split; assumption | constructor].
  - inversion Hm as [|? ? [H1 H2] Hrest]; subst. cbn [fst snd] in *.
    destruct (key_eqb k0 k); constructor; auto.
Qed.

Lemma sources_counted_step (m : dict (list string)) (ps : list product) (p : product) :
  sources_counted m ps ->
  match _add_dedup (p_id p) (p_source p) m with
  | Ok m' => sources_counted m' (ps ++ [p])
  | Raise _ => sources_counted m (ps ++ [p])
  end.
Proof.
  intros [Hs Ht]. unfold sources_counted, with_hashable_id in *.
  rewrite List.filter_app, length_app. cbn [List.filter].
  destruct (hashable (p_id p)) eqn:Hh.
  - rewrite (JsonFacts.add_dedup_hashable _ _ _ Hh). split.
    + apply dict_set_sound; [assumption | | assumption].
      destruct (get_default m (p_id p) []); discriminate.
    + rewrite total_sources_add, Ht. cbn. lia.
  - rewrite (JsonFacts.add_dedup_unhashable _ _ _ Hh). split; [assumption|].
    cbn. lia.
Qed.

Lemma sound_length (m : dict (list string)) :
  entries_sound m -> List.length m <= total_sources m.
Proof.
  unfold entries_sound. induction 1 as [|[k v] m [_ Hv] _ IH]; [cbn; lia|].
  rewrite total_sources_cons. cbn [List.length snd] in *.
  destruct v; [contradiction | cbn; lia].
Qed.




(** After a run every product with a hashable id has its source in the map. *)
Lemma run_sources_counted (json_files : list json_file)
    (csv_dir : option (list csv_file)) (have : bool)
    (pdf_dir : option (list pdf_file)) :
  map_inv sources_counted (run json_files csv_dir have pdf_dir).
Proof.
  apply RunInvariant.run_inv.
  - split; [constructor | reflexivity].
  - apply sources_counted_step.
Qed.

End DedupMore.

(** ** The two scripts on one file *)

Module AgreeFacts.

Import Observe PyFacts.

(** Where [measure_json_extraction] stops on a product, the tester's loop
    stops too, on that product or on one before it. *)
Lemma fields_raise_loop_raises (fname : string) (ps : list pyval) (e : exn) :
  Measure.json_fields_loop ps = Raise e ->
  forall st, snd (json_products_loop fname ps st) <> None.
Proof.
  induction ps as [|p ps IH]; cbn [Measure.json_fields_loop json_products_loop];
    [discriminate|].
  intros H st. unfold json_product_step.
  destruct p; cbn [snd]; try discriminate.
  destruct (_add_dedup (json_product_id l) fname
              (dedup_map (on_json (add_product (json_product fname l)) st)));
    cbn [snd]; [|discriminate].
  apply IH. cbn in H. exact H.
Qed.

Lemma measure_csv_is_length (lines : list (list string)) :
  Measure.measure_csv lines = List.length (DictReader lines).
Proof.
  unfold Measure.measure_csv.
  assert (H : forall (l : list (dict pyval)) n,
            fold_left (fun product_count _ => product_count + 1) l n =
            n + List.length l).
  { induction l as [|r l IH]; intros n; cbn [fold_left List.length]; [lia|].
    rewrite IH. lia. }
  apply H.
Qed.

(** The products the tester counts for a file are never more than the rows
    [measure_pdf_extraction] counts. *)
Lemma pdf_rows_loop_bound (fname : string) (rows : list (list cell)) :
  forall st n,
  snd (fst (pdf_rows_loop fname rows (st, n))) <=
  n + List.length (List.filter has_first_cell rows).
Proof.
  induction rows as [|r rows IH]; intros st n; cbn [pdf_rows_loop List.filter].
  - cbn. lia.
  - destruct (has_first_cell r) eqn:Hr.
    + assert (H : snd (fst (pdf_row_step fname r (st, n))) <= S n).
      { unfold pdf_row_step. destruct r as [|c0 rest]; [cbn; lia|].
        destruct (cell_truthy c0); [|cbn; lia].
        destruct (cell_strip c0); [|cbn; lia].
        destruct (pdf_vendor rest); [|cbn; lia].
        destruct (_add_dedup _ _ _); cbn; lia. }
      destruct (pdf_row_step fname r (st, n)) as [[st1 n1] [e|]];
        cbn [fst snd List.length] in *; [lia|].
      specialize (IH st1 n1). lia.
    + rewrite (PdfFacts.pdf_row_step_separator fname r (st, n) Hr). apply IH.
Qed.

Lemma pdf_tables_loop_bound (fname : string) (ts : list table) :
  forall st n,
  snd (fst (pdf_tables_loop fname ts (st, n))) <=
  n + List.length (flat_map kept_rows ts).
Proof.
  induction ts as [|t ts IH]; intros st n; cbn [pdf_tables_loop flat_map].
  - cbn. lia.
  - assert (H : snd (fst (pdf_table_step fname t (st, n))) <=
                n + List.length (kept_rows t)).
    { unfold pdf_table_step, kept_rows, data_rows.
      destruct t as [|h [|r rows]]; try (cbn; lia). apply pdf_rows_loop_bound. }
    rewrite length_app.
    destruct (pdf_table_step fname t (st, n)) as [[st1 n1] [e|]];
      cbn [fst snd] in *; [lia|].
    specialize (IH st1 n1). lia.
Qed.

Lemma add_count_0_pdf (st : state) : on_pdf (add_count 0) st = st.
Proof.
  destruct st as [j c [n ps es] m]. unfold on_pdf, add_count. cbn.
  now rewrite Nat.add_0_r.
Qed.

Lemma pdf_tables_loop_no_rows (fname : string) (ts : list table) :
  Forall (fun t => List.length t <= 1) ts ->
  forall acc, pdf_tables_loop fname ts acc = (acc, None).
Proof.
  induction 1 as [|t ts Ht _ IH]; intros acc; cbn [pdf_tables_loop]; [reflexivity|].
  assert (H : pdf_table_step fname t acc = (acc, None)).
  { unfold pdf_table_step. destruct t as [|h [|r rows]]; try reflexivity.
    cbn in Ht. lia. }
  rewrite H. apply IH.
Qed.

Lemma kept_rows_no_rows (ts : list table) :
  Forall (fun t => List.length t <= 1) ts -> flat_map kept_rows ts = [].
Proof.
  induction 1 as [|t ts Ht _ IH]; cbn [flat_map]; [reflexivity|].
  rewrite IH, app_nil_r. unfold kept_rows, data_rows.
  destruct t as [|h [|r rows]]; try reflexivity. cbn in Ht. lia.
Qed.

End AgreeFacts.

(** ** The migration runner *)

Module MigrationFacts.

Import Migration Observe.

Lemma split_on_cons (sep : ascii) (s : string) :
  exists piece pieces, split_on sep s = piece :: pieces.
Proof.
  induction s as [|c s IH]; cbn [split_on]; [eauto|].
  destruct (Ascii.eqb c sep); [eauto|].
  destruct IH as (p & ps & ->). eauto.
Qed.

(** Splitting a text with a separator in the middle: the pieces of the
    left part, then the pieces of the right part. *)
Lemma split_on_app (sep : ascii) (a b : string) :
  split_on sep (a ++ String sep b) = split_on sep a ++ split_on sep b.
Proof.
  induction a as [|c a IH].
  - change ("" ++ String sep b)%string with (String sep b). cbn [split_on].
    now rewrite Ascii.eqb_refl.
  - change (String c a ++ String sep b)%string with (String c (a ++ String sep b)).
    cbn [split_on]. destruct (Ascii.eqb c sep); [now rewrite IH|].
    rewrite IH. destruct (split_on_cons sep a) as (p & ps & ->). reflexivity.
Qed.

Lemma split_on_no_sep (sep : ascii) (s : string) :
  Forall (fun piece => has_char sep piece = false) (split_on sep s).
Proof.
  induction s as [|c s IH]; cbn [split_on].
  - constructor; [reflexivity | constructor].
  - destruct (Ascii.eqb c sep) eqn:E.
    + constructor; [reflexivity | exact IH].
    + destruct (split_on_cons sep s) as (p & ps & Hs). rewrite Hs in *.
      inversion IH as [|? ? Hp Hps]; subst.
      constructor; [|exact Hps]. cbn [has_char]. now rewrite E, Hp.
Qed.

Lemma split_on_whole (sep : ascii) (s : string) :
  has_char sep s = false -> split_on sep s = [s].
Proof.
  induction s as [|c s IH]; cbn [has_char split_on]; [reflexivity|].
  intros H. apply orb_false_iff in H. destruct H as [-> H].
  now rewrite (IH H).
Qed.

Lemma lstrip_has_char (c : ascii) (s : string) :
  has_char c (lstrip s) = true -> has_char c s = true.
Proof.
  induction s as [|c' s IH]; cbn [lstrip]; [auto|].
  destruct (is_space c'); [|auto].
  intros H. cbn [has_char]. rewrite (IH H). apply orb_true_r.
Qed.

Lemma rstrip_has_char (c : ascii) (s : string) :
  has_char c (rstrip s) = true -> has_char c s = true.
Proof.
  induction s as [|c' s IH]; cbn [rstrip]; [auto|].
  destruct (rstrip s) as [|c'' r] eqn:E.
  - destruct (is_space c'); cbn [has_char]; [discriminate|].
    rewrite orb_false_r. intros ->. reflexivity.
  - cbn [has_char] in *. intros H. apply orb_true_iff in H.
    destruct H as [-> | H]; [reflexivity|]. rewrite (IH H). apply orb_true_r.
Qed.

(** Stripping adds no character. *)
Lemma strip_has_char (c : ascii) (s : string) :
  has_char c s = false -> has_char c (strip s) = false.
Proof.
  intros H. destruct (has_char c (strip s)) eqn:E; [|reflexivity].
  unfold strip in E. apply rstrip_has_char, lstrip_has_char in E. congruence.
Qed.

Lemma rstrip_keeps_head (c : ascii) (s : string) :
  is_space c = false -> exists r, rstrip (String c s) = String c r.
Proof.
  intros Hc. cbn [rstrip]. destruct (rstrip s); [|eauto].
  rewrite Hc. eauto.
Qed.

(** A chunk that begins with a comment mark is no statement, whatever
    follows the mark. *)
Lemma comment_is_no_statement (x : string) : is_statement ("--" ++ x) = false.
Proof.
  unfold is_statement, strip.
  change ("--" ++ x)%string with (String "-" (String "-" x)).
  change (lstrip (String "-" (String "-" x))) with (String "-" (String "-" x)).
  destruct (rstrip_keeps_head "-" x eq_refl) as [r Hr].
  change (rstrip (String "-" (String "-" x))) with
    (match rstrip (String "-" x) with
     | EmptyString => String "-" EmptyString
     | r0 => String "-" r0
     end).
  rewrite Hr. destruct r; reflexivity.
Qed.

Lemma statements_app (a b : string) :
  statements (a ++ String ";" b) = statements a ++ statements b.
Proof.
  unfold statements. now rewrite split_on_app, List.filter_app, map_app.
Qed.

Lemma execute_counts (post : nat -> string -> response) (sts : list string) :
  forall i s f,
    execute post i sts (s, f) =
    (s + List.length (List.filter accepted (responses post i sts)),
     f + List.length (List.filter (fun r => negb (accepted r)) (responses post i sts))).
Proof.
  induction sts as [|st sts IH]; intros i s f; cbn [execute responses List.filter].
  - cbn. now rewrite !Nat.add_0_r.
  - unfold tally. destruct (post i st) as [code|msg]; cbn [accepted negb].
    + destruct ((code =? 200) || (code =? 201)); cbn [negb List.length].
      * rewrite IH. f_equal; lia.
      * destruct (code =? 404); rewrite IH; f_equal; lia.
    + cbn [List.length]. rewrite IH. f_equal; lia.
Qed.

Lemma responses_length (post : nat -> string -> response) (sts : list string) :
  forall i, List.length (responses post i sts) = List.length sts.
Proof. induction sts; intros i; cbn; auto. Qed.

Lemma filter_partition_length {A : Type} (f : A -> bool) (l : list A) :
  List.length (List.filter f l) + List.length (List.filter (fun x => negb (f x)) l) =
  List.length l.
Proof.
  induction l as [|x l IH]; cbn [List.filter]; [reflexivity|].
  destruct (f x); cbn [negb List.length]; lia.
Qed.

End MigrationFacts.

(** ** The simulated ingestion step *)

Module SimulationFacts.

Import Simulation.

Lemma recorded_snoc (s : sim) (x : string * string * nat) :
  list_sum (map (fun x => snd x) (extractions s ++ [x])) = recorded s + snd x.
Proof.
  unfold recorded. rewrite map_app, list_sum_app. cbn. lia.
Qed.

(** The total never goes down. *)
Lemma sim_step_total (s : sim) (c : uploaded) :
  total_products s <= total_products (sim_step s c).
Proof.
  unfold sim_step. destruct (extract c (product_count s)) as [[n|] [e|]];
    cbn; try lia.
  destruct (u_instant c); cbn; lia.
Qed.

Lemma fold_total (cs : list uploaded) :
  forall s, total_products s <= total_products (fold_left sim_step cs s).
Proof.
  induction cs as [|c cs IH]; intros s; cbn [fold_left]; [lia|].
  pose proof (sim_step_total s c). specialize (IH (sim_step s c)). lia.
Qed.

(** A PDF that cannot be opened adds one product. *)
Lemma damaged_pdf_adds_one (s : sim) (c : uploaded) (e : exn) :
  u_format c = "pdf" -> u_pages c = Raise e ->
  total_products (sim_step s c) = total_products s + 1.
Proof.
  intros Hf Hp. unfold sim_step, extract. rewrite Hf, Hp. cbn.
  destruct (u_instant c); reflexivity.
Qed.

Lemma sim_step_recorded (s : sim) (c : uploaded) :
  recorded s <= total_products s ->
  recorded (sim_step s c) <= total_products (sim_step s c).
Proof.
  intros H. unfold sim_step.
  destruct (extract c (product_count s)) as [[n|] [e|]]; try exact H.
  destruct (u_instant c).
  - unfold recorded in *. cbn [extractions total_products] in *. lia.
  - unfold recorded at 1. cbn [extractions total_products].
    rewrite recorded_snoc. cbn [snd]. lia.
Qed.

(** A step that leaves the status at success has recorded its catalog. *)
Lemma sim_step_success (s : sim) (c : uploaded) :
  partial_failure (sim_step s c) = false ->
  partial_failure s = false /\
  recorded (sim_step s c) + total_products s =
    total_products (sim_step s c) + recorded s /\
  List.length (extractions (sim_step s c)) = S (List.length (extractions s)).
Proof.
  unfold sim_step.
  destruct (extract c (product_count s)) as [[n|] [e|]]; cbn; try discriminate.
  destruct (u_instant c); cbn; [discriminate|].
  intros H. split; [exact H|]. split.
  - unfold recorded at 1. cbn [extractions]. rewrite recorded_snoc.
    fold (recorded s). cbn [snd]. lia.
  - rewrite length_app. cbn [List.length]. lia.
Qed.

Lemma fold_recorded (cs : list uploaded) :
  forall s, recorded s <= total_products s ->
  recorded (fold_left sim_step cs s) <= total_products (fold_left sim_step cs s).
Proof.
  induction cs as [|c cs IH]; intros s H; cbn [fold_left]; [exact H|].
  apply IH. now apply sim_step_recorded.
Qed.

Lemma fold_success (cs : list uploaded) :
  forall s, partial_failure (fold_left sim_step cs s) = false ->
  partial_failure s = false /\
  recorded (fold_left sim_step cs s) + total_products s =
    total_products (fold_left sim_step cs s) + recorded s /\
  List.length (extractions (fold_left sim_step cs s)) =
    List.length (extractions s) + List.length cs.
Proof.
  induction cs as [|c cs IH]; intros s H; cbn [fold_left] in *.
  - split; [exact H|]. split; [lia | cbn [List.length]; lia].
  - destruct (IH _ H) as (H1 & H2 & H3).
    destruct (sim_step_success s c H1) as (G1 & G2 & G3).
    split; [exact G1|]. split; [lia|]. rewrite H3, G3. cbn. lia.
Qed.

End SimulationFacts.

(** * The ingestion tester, beyond the scenarios above *)

Import Observe.

(** X1: after a run the dedup map has one binding per key, and the entry
    of a key lists the sources of exactly the ingested products with that
    id, in ingestion order: JSON first, then CSV, then PDF. *)
Theorem dedup_map_lists_sources_of_each_id
    (json_files : list json_file) (csv_dir : option (list csv_file))
    (have_pdfplumber : bool) (pdf_dir : option (list pdf_file)) (k : pyval) :
  let st := run json_files csv_dir have_pdfplumber pdf_dir in
  keys_distinct (dedup_map st) /\
  dict_get (dedup_map st) k = entry_of k (ingested st).
Proof.
  intros st.
  destruct (PdfFacts.run_consistent json_files csv_dir have_pdfplumber pdf_dir)
    as [Hd Hc].
  split; [exact Hd | apply Hc].
Qed.

(** X2: every ingested product with a hashable id is recorded exactly once
    in the dedup map: the sources of all the entries together are as many as
    these products.  No entry is empty and no key is unhashable, so the
    number of unique products the report prints never exceeds the number of
    products ingested. *)
Theorem every_product_is_recorded_once
    (json_files : list json_file) (csv_dir : option (list csv_file))
    (have_pdfplumber : bool) (pdf_dir : option (list pdf_file)) :
  let st := run json_files csv_dir have_pdfplumber pdf_dir in
  entries_sound (dedup_map st) /\
  total_sources (dedup_map st) = List.length (with_hashable_id (ingested st)) /\
  Report.unique_products st <= List.length (ingested st).
Proof.
  intros st.
  destruct (DedupMore.run_sources_counted json_files csv_dir have_pdfplumber pdf_dir)
    as [Hs Ht]. fold st in Hs, Ht. repeat split; try assumption.
  unfold Report.unique_products.
  pose proof (DedupMore.sound_length _ Hs) as Hl.
  pose proof (List.filter_length_le (fun p => hashable (p_id p)) (ingested st)) as Hf.
  unfold with_hashable_id in Ht. lia.
Qed.


(** X4: over any list of JSON files, the count of the JSON bucket grows by
    at least the number of products appended: the count of a file is added
    in full before its products are read, so a file abandoned on the way
    stays counted in full. *)
Theorem json_count_covers_products (json_files : list json_file) (st : state) :
  let st' := test_json_catalogs json_files st in
  List.length (products (res_json st')) + count (res_json st) <=
  count (res_json st') + List.length (products (res_json st)).
Proof.
  intros st'. subst st'. unfold test_json_catalogs.
  destruct (GrowthFacts.fold_json_grows (firstn 10 json_files) st)
    as (g & (Hp & Hc & _) & Hle & _).
  cbv zeta in *. rewrite Hp, Hc, length_app. lia.
Qed.

(** X5: over any list of CSV files, readable or not, the count of the CSV
    bucket grows by exactly the number of products appended, and the error
    list by one entry for each file that cannot be read: a file that can be
    read never fails. *)
Theorem csv_count_is_products (csv_dir : option (list csv_file)) (st : state) :
  let st' := test_csv_catalogs csv_dir st in
  count (res_csv st') + List.length (products (res_csv st)) =
    count (res_csv st) + List.length (products (res_csv st')) /\
  List.length (errors (res_csv st')) =
    List.length (errors (res_csv st)) +
    List.length (List.filter csv_unreadable (files_read csv_dir)).
Proof.
  intros st'. subst st'. rewrite GrowthFacts.test_csv_catalogs_fold.
  destruct (GrowthFacts.fold_csv_grows (files_read csv_dir) st)
    as (g & (Hp & Hc & He) & Hlen & Herr & _).
  cbv zeta in *. rewrite Hp, Hc, He, !length_app. lia.
Qed.

(** X6: over any list of PDF files, the count of the PDF bucket grows by
    at most the number of products appended, and by exactly that number when
    no error is recorded: the products of a file abandoned on an exception
    stay in the list, and its count is never added. *)
Theorem pdf_count_never_exceeds_products
    (have_pdfplumber : bool) (pdf_dir : option (list pdf_file)) (st : state) :
  let st' := test_pdf_catalogs have_pdfplumber pdf_dir st in
  count (res_pdf st') + List.length (products (res_pdf st)) <=
    count (res_pdf st) + List.length (products (res_pdf st')) /\
  (errors (res_pdf st') = errors (res_pdf st) ->
   count (res_pdf st') + List.length (products (res_pdf st)) =
     count (res_pdf st) + List.length (products (res_pdf st'))).
Proof.
  intros st'. subst st'. rewrite GrowthFacts.test_pdf_catalogs_fold.
  destruct (GrowthFacts.fold_pdf_grows (pdf_files_read have_pdfplumber pdf_dir) st)
    as (g & (Hp & Hc & He) & Hle & Heq & _).
  cbv zeta in *. rewrite Hp, Hc, He, !length_app. split; [lia|].
  intros H. assert (Hnil : g_errors g = []).
  { apply (app_inv_head (errors (res_pdf st))). now rewrite app_nil_r. }
  rewrite (Heq Hnil). lia.
Qed.

Lemma pdf_count_witness :
  count (res_pdf (test_pdf_catalogs true (Some [Samples.gap_pdf]) init)) + 0 <=
    0 + List.length
          (products (res_pdf (test_pdf_catalogs true (Some [Samples.gap_pdf]) init))) /\
  count (res_pdf (test_pdf_catalogs true (Some [Samples.separated_pdf]) init)) + 0 =
    0 + List.length
          (products
             (res_pdf (test_pdf_catalogs true (Some [Samples.separated_pdf]) init))).
Proof.
  split.
  - apply (pdf_count_never_exceeds_products true (Some [Samples.gap_pdf]) init).
  - apply (pdf_count_never_exceeds_products true (Some [Samples.separated_pdf]) init).
    reflexivity.
Defined.

(** X7: after a run the files named by the error entries of a bucket are,
    in order, a sub-list of the files read for it ([str(path)]): every entry
    names a file that was read, there are no more entries than files, and no
    file has more entries than it has occurrences among the files read (one,
    as a directory listing names a file once).  Only the first ten JSON files
    can appear. *)
Theorem errors_name_the_files_read
    (json_files : list json_file) (csv_dir : option (list csv_file))
    (have_pdfplumber : bool) (pdf_dir : option (list pdf_file)) :
  let st := run json_files csv_dir have_pdfplumber pdf_dir in
  map e_file (errors (res_json st))
    `sublist_of` map jf_path (firstn 10 json_files) /\
  map e_file (errors (res_csv st))
    `sublist_of` map cf_path (files_read csv_dir) /\
  map e_file (errors (res_pdf st))
    `sublist_of` map pf_path (pdf_files_read have_pdfplumber pdf_dir).
Proof.
  intros st. subst st. unfold run.
  rewrite GrowthFacts.test_pdf_catalogs_fold, GrowthFacts.test_csv_catalogs_fold.
  unfold test_json_catalogs.
  set (sj := fold_left json_file_step (firstn 10 json_files) init).
  set (sc := fold_left csv_file_step (files_read csv_dir) sj).
  destruct (GrowthFacts.fold_csv_grows (files_read csv_dir) sj)
    as (gc & _ & _ & _ & _ & _ & Hcj & Hcp).
  destruct (GrowthFacts.fold_pdf_grows (pdf_files_read have_pdfplumber pdf_dir) sc)
    as (gp & _ & _ & _ & _ & _ & _ & Hpj & Hpc).
  destruct (GrowthFacts.fold_json_grows (firstn 10 json_files) init)
    as (gj & _ & _ & _ & _ & _ & Hjc & Hjp).
  cbv zeta in *. fold sj in Hjc, Hjp. fold sc in Hcj, Hcp, Hpj, Hpc.
  destruct (ErrorFacts.json_errors_sublist (firstn 10 json_files) init)
    as (ej & Hej & Sj).
  destruct (ErrorFacts.csv_errors_sublist (files_read csv_dir) sj)
    as (ec & Hec & Sc).
  destruct (ErrorFacts.pdf_errors_sublist
              (pdf_files_read have_pdfplumber pdf_dir) sc) as (ep & Hep & Sp).
  fold sj in Hej. fold sc in Hec.
  rewrite Hpj, Hcj, Hej, Hpc, Hec, Hjc, Hep, Hcp, Hjp.
  cbn [errors res_json res_csv res_pdf init empty_bucket app].
  split; [exact Sj | split; [exact Sc | exact Sp]].
Qed.

(** X8: after a run every product sits in the bucket of its format and
    carries the name of one of the files read.  A CSV product has its id for
    a name, a hashable id and a vendor that is never empty; a PDF product has
    its id for a name, and the id is a string without white space at either
    end. *)
Theorem products_carry_format_and_source
    (json_files : list json_file) (csv_dir : option (list csv_file))
    (have_pdfplumber : bool) (pdf_dir : option (list pdf_file)) :
  let st := run json_files csv_dir have_pdfplumber pdf_dir in
  let csv_files := files_read csv_dir in
  let pdf_files := pdf_files_read have_pdfplumber pdf_dir in
  Forall (fun p => p_format p = "JSON" /\
                   In (p_source p) (map jf_name (firstn 10 json_files)))
    (products (res_json st)) /\
  Forall (fun p => exists fname, In fname (map cf_name csv_files) /\ csv_shape fname p)
    (products (res_csv st)) /\
  Forall (fun p => exists fname, In fname (map pf_name pdf_files) /\ pdf_shape fname p)
    (products (res_pdf st)).
Proof.
  intros st csv_files pdf_files. subst st. unfold run.
  rewrite GrowthFacts.test_pdf_catalogs_fold, GrowthFacts.test_csv_catalogs_fold.
  fold csv_files pdf_files. unfold test_json_catalogs.
  destruct (GrowthFacts.fold_json_grows (firstn 10 json_files) init)
    as (gj & (Hpj & _) & _ & _ & _ & Hsj & Hjc & Hjp).
  destruct (GrowthFacts.fold_csv_grows csv_files
              (fold_left json_file_step (firstn 10 json_files) init))
    as (gc & (Hpc & _) & _ & _ & _ & Hsc & Hcj & Hcp).
  destruct (GrowthFacts.fold_pdf_grows pdf_files
              (fold_left csv_file_step csv_files
                 (fold_left json_file_step (firstn 10 json_files) init)))
    as (gp & (Hpp & _) & _ & _ & _ & _ & Hsp & Hpj' & Hpc').
  cbv zeta in *.
  rewrite Hpj', Hcj, Hpc', Hpc, Hjc, Hpp, Hcp, Hjp, Hpj.
  cbn [products res_json res_csv res_pdf init empty_bucket app].
  repeat split; assumption.
Qed.

(** X9: each ingestion keeps to its own bucket: reading JSON files changes
    neither the CSV nor the PDF bucket, and so on for the other two. *)
Theorem ingestions_keep_to_their_bucket
    (json_files : list json_file) (csv_dir : option (list csv_file))
    (have_pdfplumber : bool) (pdf_dir : option (list pdf_file)) (st : state) :
  (res_csv (test_json_catalogs json_files st) = res_csv st /\
   res_pdf (test_json_catalogs json_files st) = res_pdf st) /\
  (res_json (test_csv_catalogs csv_dir st) = res_json st /\
   res_pdf (test_csv_catalogs csv_dir st) = res_pdf st) /\
  (res_json (test_pdf_catalogs have_pdfplumber pdf_dir st) = res_json st /\
   res_csv (test_pdf_catalogs have_pdfplumber pdf_dir st) = res_csv st).
Proof.
  split; [|split].
  - unfold test_json_catalogs.
    destruct (GrowthFacts.fold_json_grows (firstn 10 json_files) st)
      as (g & _ & _ & _ & _ & _ & Hc & Hp). split; assumption.
  - rewrite GrowthFacts.test_csv_catalogs_fold.
    destruct (GrowthFacts.fold_csv_grows (files_read csv_dir) st)
      as (g & _ & _ & _ & _ & _ & Hj & Hp). split; assumption.
  - rewrite GrowthFacts.test_pdf_catalogs_fold.
    destruct (GrowthFacts.fold_pdf_grows (pdf_files_read have_pdfplumber pdf_dir) st)
      as (g & _ & _ & _ & _ & _ & _ & Hj & Hc). split; assumption.
Qed.

(** X10: [test_json_catalogs] reads the first ten files only: whatever
    comes after the tenth file changes nothing. *)
Theorem only_first_ten_json_files_are_read
    (json_files more : list json_file) (st : state) :
  10 <= List.length json_files ->
  test_json_catalogs (json_files ++ more) st = test_json_catalogs json_files st.
Proof.
  intros Hlen. unfold test_json_catalogs. rewrite firstn_app.
  replace (10 - List.length json_files) with 0 by lia.
  cbn [firstn]. now rewrite app_nil_r.
Qed.

Lemma only_first_ten_witness :
  test_json_catalogs (MoreSamples.ten_files ++ [Samples.broken_json]) init =
  test_json_catalogs MoreSamples.ten_files init.
Proof.
  apply (only_first_ten_json_files_are_read MoreSamples.ten_files
           [Samples.broken_json] init).
  cbn. lia.
Defined.

(** X11: a JSON file whose top-level value is not an object (an array, a
    string, a number, [null]) fails on the first [data.get]: one error entry
    with the file's path, and nothing else changes. *)
Theorem json_top_level_must_be_object
    (st : state) (f : json_file) (data : pyval) :
  jf_load f = Ok data ->
  is_dict data = false ->
  json_file_step st f =
    on_json (add_error (mkError (jf_path f) (AttributeError (type_name data)))) st.
Proof.
  intros Hload Hd. apply JsonFacts.json_file_step_not_object; [exact Hload|].
  intros d ->. discriminate Hd.
Qed.

Lemma json_top_level_witness :
  json_file_step init MoreSamples.array_json =
    on_json (add_error (mkError "catalogs/array.json" (AttributeError "list"))) init.
Proof.
  apply (json_top_level_must_be_object init MoreSamples.array_json
           (PList [PDict [(PStr "name", PStr "Mac Studio")]])); reflexivity.
Defined.

(** X12: a [products] value that is not an array.  On [null], a boolean or
    a number [len] raises: the file is recorded as an error and nothing is
    counted.  On a non-empty string the count is raised by its length, then
    the first character has no [get]: the file is recorded as an error with
    the count kept and no product appended. *)
Theorem products_must_be_an_array
    (st : state) (f : json_file) (d : dict pyval) (v : pyval) :
  jf_load f = Ok (PDict d) ->
  dict_get d (PStr "products") = Some v ->
  match v with
  | PNone | PBool _ | PInt _ | PFloat _ =>
      json_file_step st f =
        on_json (add_error (mkError (jf_path f) (TypeError (type_name v)))) st
  | PStr (String c s) =>
      json_file_step st f =
        on_json (add_error (mkError (jf_path f) (AttributeError "str")))
          (on_json (add_count (S (String.length s))) st)
  | _ => True
  end.
Proof.
  intros Hload Hv.
  assert (Hd : get_default d (PStr "products") (PList []) = v).
  { unfold get_default. now rewrite Hv. }
  unfold json_file_step, json_file_body. rewrite Hload. cbn [py_get]. rewrite Hd.
  destruct v as [| b | z | q | [|c s] | l | kv]; try exact I; reflexivity.
Qed.

Lemma products_must_be_an_array_witness :
  json_file_step init MoreSamples.null_products_json =
    on_json (add_error (mkError "catalogs/null.json" (TypeError "NoneType"))) init /\
  json_file_step init MoreSamples.text_products_json =
    on_json (add_error (mkError "catalogs/text.json" (AttributeError "str")))
      (on_json (add_count 4) init).
Proof.
  split.
  - apply (products_must_be_an_array init MoreSamples.null_products_json
             [(PStr "products", PNone)] PNone); reflexivity.
  - apply (products_must_be_an_array init MoreSamples.text_products_json
             [(PStr "products", PStr "none")] (PStr "none")); reflexivity.
Defined.

(** X13: the two JSON scripts on one loaded file.  When
    [measure_json_extraction] reports [n] products, [test_json_catalogs]
    raises its count by [n]; when the first raises, the second records
    exactly one error for the file. *)
Theorem measure_json_agrees_with_tester
    (st : state) (f : json_file) (data : pyval) :
  jf_load f = Ok data ->
  match Measure.measure_json data with
  | Ok n => count (res_json (json_file_step st f)) = count (res_json st) + n
  | Raise _ =>
      List.length (errors (res_json (json_file_step st f))) =
      S (List.length (errors (res_json st)))
  end.
Proof.
  intros Hload. unfold json_file_step, json_file_body, Measure.measure_json.
  rewrite Hload.
  destruct data as [| b | z | q | s | l | d]; try (cbn; rewrite length_app; cbn; lia).
  cbn [py_get].
  destruct (py_len (get_default d (PStr "products") (PList []))) as [n|e] eqn:Hlen;
    [|cbn; rewrite length_app; cbn; lia].
  destruct (GrowthFacts.py_len_iter _ _ Hlen) as (ps & -> & Hps).
  destruct (GrowthFacts.json_products_loop_grows (jf_name f) ps
              (on_json (add_count n) st)) as (new & (_ & Hc & He) & _).
  cbv zeta in *. cbn in Hc, He.
  destruct (Measure.json_fields_loop ps) as [u|e] eqn:Hf.
  - destruct (json_products_loop (jf_name f) ps (on_json (add_count n) st))
      as [st1 [e|]]; cbn [fst] in *; cbn; lia.
  - pose proof (AgreeFacts.fields_raise_loop_raises (jf_name f) ps e Hf
                  (on_json (add_count n) st)) as Hr.
    destruct (json_products_loop (jf_name f) ps (on_json (add_count n) st))
      as [st1 [e'|]]; cbn [fst snd] in *; [|congruence].
    cbn. rewrite He, length_app. cbn. rewrite app_nil_r. lia.
Qed.

Lemma measure_json_agrees_witness :
  count (res_json (json_file_step init Samples.studio_json)) = 1 /\
  List.length (errors (res_json (json_file_step init Samples.mixed_json))) = 1.
Proof.
  split.
  - apply (measure_json_agrees_with_tester init Samples.studio_json
             (PDict [(PStr "catalog_name", PStr "Studio");
                     (PStr "products",
                      PList [PDict [(PStr "name", PStr "Mac Studio");
                                    (PStr "vendor", PStr "Apple")]])])).
    reflexivity.
  - apply (measure_json_agrees_with_tester init Samples.mixed_json
             (PDict [(PStr "products",
                      PList [PDict [(PStr "name", PStr "Mac Studio")]; PInt 5])])).
    reflexivity.
Defined.

(** X14: the two CSV scripts on one file that can be read count the same:
    [measure_csv_extraction] reports the number of data rows that are not
    blank, and [test_csv_catalogs] raises its count by as much. *)
Theorem measure_csv_agrees_with_tester
    (st : state) (f : csv_file) (fieldnames : list string)
    (data : list (list string)) :
  cf_read f = Ok (fieldnames :: data) ->
  Measure.measure_csv (fieldnames :: data) =
    List.length (List.filter (fun r => negb (blank_row r)) data) /\
  count (res_csv (csv_file_step st f)) =
    count (res_csv st) + Measure.measure_csv (fieldnames :: data).
Proof.
  intros Hread. rewrite AgreeFacts.measure_csv_is_length. split.
  - apply CsvFacts.DictReader_length.
  - apply (CsvFacts.csv_file_step_rows st f _ Hread).
Qed.

Lemma measure_csv_agrees_witness :
  Measure.measure_csv Samples.seven_and_one = 8 /\
  count (res_csv (csv_file_step init Samples.electronics_csv)) = 8.
Proof.
  destruct (measure_csv_agrees_with_tester init Samples.electronics_csv
              ["Product Name"; "Vendor"] (tl Samples.seven_and_one) eq_refl)
    as [H1 H2].
  split; [exact H1 | exact H2].
Defined.

(** X15: the two PDF scripts on one file that opens.  The products
    [test_pdf_catalogs] appends are never more than the rows
    [measure_pdf_extraction] counts; when no counted row has [None] for a
    second cell they are exactly as many, and so is the count added. *)
Theorem measure_pdf_bounds_tester
    (st : state) (f : pdf_file) (pages : list page) :
  pf_open f = Ok pages ->
  let st' := pdf_file_step st f in
  List.length (products (res_pdf st')) <=
    List.length (products (res_pdf st)) + Measure.measure_pdf pages /\
  (Forall (fun r => second_cell_ok r = true)
     (flat_map kept_rows (collect_tables pages)) ->
   List.length (products (res_pdf st')) =
     List.length (products (res_pdf st)) + Measure.measure_pdf pages /\
   count (res_pdf st') = count (res_pdf st) + Measure.measure_pdf pages /\
   errors (res_pdf st') = errors (res_pdf st)).
Proof.
  intros Hopen st'. rewrite PdfFacts.measure_pdf_counts_kept_rows. split.
  - subst st'. unfold pdf_file_step, pdf_file_body. rewrite Hopen.
    destruct (GrowthFacts.pdf_tables_loop_grows (pf_name f) (collect_tables pages) st 0)
      as (new & (Hp & _) & Hn & _).
    pose proof (AgreeFacts.pdf_tables_loop_bound (pf_name f) (collect_tables pages) st 0)
      as Hb.
    destruct (pdf_tables_loop (pf_name f) (collect_tables pages) (st, 0))
      as [[st1 n1] [e|]]; cbn [fst snd] in *; cbn; rewrite Hp, length_app; cbn; lia.
  - intros Hok.
    destruct (PdfFacts.pdf_file_step_kept st f pages Hopen Hok) as (Hp & Hc & He).
    fold st' in Hp, Hc, He. rewrite Hp, length_app, length_map.
    repeat split; assumption.
Qed.

Lemma measure_pdf_bounds_witness :
  List.length (products (res_pdf (pdf_file_step init Samples.gap_pdf))) <= 2 /\
  List.length (products (res_pdf (pdf_file_step init Samples.separated_pdf))) = 2.
Proof.
  split.
  - apply (measure_pdf_bounds_tester init Samples.gap_pdf
             [mkPage (Some "Gap catalog") [Samples.gap_table]] eq_refl).
  - apply (measure_pdf_bounds_tester init Samples.separated_pdf
             [mkPage None [Samples.separated_table]] eq_refl).
    repeat constructor.
Defined.

(** X16: a PDF that opens and has no table with a row after the header (no
    table at all, empty tables, header-only tables) is an empty catalog: the
    tester is left exactly as it was, with no product, no count, no error and
    no warning, and [measure_pdf_extraction] reports zero products. *)
Theorem pdf_without_data_rows_is_empty
    (st : state) (f : pdf_file) (pages : list page) :
  pf_open f = Ok pages ->
  Forall (fun t => List.length t <= 1) (collect_tables pages) ->
  pdf_file_step st f = st /\ Measure.measure_pdf pages = 0.
Proof.
  intros Hopen Hts. split.
  - unfold pdf_file_step, pdf_file_body. rewrite Hopen.
    rewrite (AgreeFacts.pdf_tables_loop_no_rows _ _ Hts).
    apply AgreeFacts.add_count_0_pdf.
  - rewrite PdfFacts.measure_pdf_counts_kept_rows.
    now rewrite (AgreeFacts.kept_rows_no_rows _ Hts).
Qed.

Lemma pdf_without_data_rows_witness :
  pdf_file_step init MoreSamples.cover_pdf = init /\
  Measure.measure_pdf
    [ mkPage (Some "Catalog 2026") [];
      mkPage None [ [ [Some "Product"; Some "Vendor"] ] ] ] = 0.
Proof.
  apply (pdf_without_data_rows_is_empty init MoreSamples.cover_pdf
           [ mkPage (Some "Catalog 2026") [];
             mkPage None [ [ [Some "Product"; Some "Vendor"] ] ] ]).
  - reflexivity.
  - repeat constructor.
Defined.

(** X17: the success rate of the report.  It is printed exactly when some
    product was counted, and it is then 100, whatever the number of errors:
    with no error it is the quotient of the total by itself, and with errors
    it is the constant 100. *)
Theorem success_rate_is_always_100 (st : state) :
  (Report.success_rate st = None <-> Report.total_products st = 0) /\
  forall r, Report.success_rate st = Some r -> (r == 100)%Q.
Proof.
  unfold Report.success_rate.
  destruct (0 <? Report.total_products st) eqn:Hpos.
  - apply Nat.ltb_lt in Hpos. split.
    + split; [discriminate | lia].
    + intros r [= <-].
      destruct (Report.total_errors st =? 0) eqn:He; [|reflexivity].
      rewrite Nat.add_0_r || (apply Nat.eqb_eq in He; rewrite He, Nat.add_0_r).
      assert (Hq : ~ (inject_Z (Z.of_nat (Report.total_products st)) == 0)%Q).
      { unfold Qeq. cbn. lia. }
      field. exact Hq.
  - apply Nat.ltb_ge in Hpos. split.
    + split; [lia | reflexivity].
    + discriminate.
Qed.

Lemma success_rate_witness :
  Report.total_errors MoreSamples.mixed_state = 4 /\
  exists r, Report.success_rate MoreSamples.mixed_state = Some r /\ (r == 100)%Q.
Proof.
  split; [reflexivity|].
  eexists. split; [reflexivity|].
  apply (success_rate_is_always_100 MoreSamples.mixed_state). reflexivity.
Defined.

(** * The migration runner *)

(** X18: every statement the runner sends is clean: it is not empty, it
    has no white space at either end, it holds no semicolon and it does not
    begin with a comment mark. *)
Theorem statements_are_clean (sql_content : string) :
  Forall (fun s => s <> "" /\ stripped s /\
                   Migration.has_char ";" s = false /\
                   String.prefix "--" s = false)
    (Migration.statements sql_content).
Proof.
  unfold Migration.statements. apply Forall_map. apply List.Forall_forall.
  intros chunk Hin. apply filter_In in Hin. destruct Hin as [Hin Hst].
  unfold Migration.is_statement in Hst. apply andb_true_iff in Hst.
  destruct Hst as [H1 H2]. apply negb_true_iff in H1, H2.
  repeat split.
  - intros E. rewrite E in H1. discriminate.
  - apply GrowthFacts.strip_idem.
  - apply MigrationFacts.strip_has_char.
    pose proof (MigrationFacts.split_on_no_sep ";" sql_content) as Hs.
    rewrite List.Forall_forall in Hs. now apply Hs.
  - exact H2.
Qed.

(** X19: the statements of two scripts joined by a semicolon are the
    statements of the first followed by those of the second. *)
Theorem statements_of_joined_scripts (a b : string) :
  Migration.statements (a ++ ";" ++ b) =
  Migration.statements a ++ Migration.statements b.
Proof. apply MigrationFacts.statements_app. Qed.

(** X20: a comment swallows the statement after it.  The script is cut at
    the semicolons only, and a piece that begins with [--] is dropped whole:
    when a comment line follows a semicolon, everything up to the next
    semicolon is never sent, the SQL after the comment line included. *)
Theorem comment_swallows_the_next_statement (a x b : string) :
  Migration.has_char ";" x = false ->
  Migration.statements (a ++ ";" ++ "--" ++ x ++ ";" ++ b) =
  Migration.statements a ++ Migration.statements b.
Proof.
  intros Hx.
  change (a ++ ";" ++ "--" ++ x ++ ";" ++ b)%string
    with (a ++ String ";" (("--" ++ x) ++ String ";" b))%string.
  rewrite !MigrationFacts.statements_app.
  change (Migration.statements a ++ Migration.statements b)
    with (Migration.statements a ++ [] ++ Migration.statements b).
  do 2 f_equal.
  unfold Migration.statements.
  rewrite MigrationFacts.split_on_whole by exact Hx.
  cbn [List.filter]. now rewrite MigrationFacts.comment_is_no_statement.
Qed.

Lemma comment_swallows_witness :
  Migration.statements
    ("CREATE TABLE t (id int)" ++ ";" ++ "--" ++ " index it" ++ MoreSamples.nl
       ++ "CREATE INDEX i ON t (id)" ++ ";" ++ "SELECT 1") =
  ["CREATE TABLE t (id int)"; "SELECT 1"].
Proof.
  apply (comment_swallows_the_next_statement "CREATE TABLE t (id int)"
           (" index it" ++ MoreSamples.nl ++ "CREATE INDEX i ON t (id)") "SELECT 1").
  reflexivity.
Defined.

(** X21: how the runner ends.  It exits with status 1 exactly when
    [requests] cannot be imported, a variable of the environment is unset or
    empty, the migration file is missing, or reading it raises; once the
    statements are read it exits with status 0 whatever the requests gave.
    Every statement is counted once, as a success when the response is 200
    or 201 and as a failure otherwise, and the runner reports that all
    statements failed exactly when none succeeded: also when there was no
    statement at all. *)
Theorem migration_never_fails_on_statements
    (have_requests : bool) (supabase_url supabase_service_key : option string)
    (migration : option (result string))
    (post : nat -> string -> Migration.response) :
  let e := Migration.run_migration have_requests supabase_url
             supabase_service_key migration post in
  (Migration.exit_code e = 0 <->
   have_requests = true /\
   Migration.unset supabase_url = false /\
   Migration.unset supabase_service_key = false /\
   exists sql_content, migration = Some (Ok sql_content)) /\
  forall sql_content, migration = Some (Ok sql_content) ->
    Migration.exit_code e = 0 ->
    exists success_count failed_count,
      e = Migration.Finished success_count failed_count
            (List.length (Migration.statements sql_content)) /\
      success_count + failed_count = List.length (Migration.statements sql_content) /\
      success_count =
        List.length (List.filter Migration.accepted
          (Migration.responses post 1 (Migration.statements sql_content))) /\
      (Migration.summary e = Some Migration.AllFailed <-> success_count = 0).
Proof.
  intros e. subst e. unfold Migration.run_migration.
  destruct have_requests; cbn [negb].
  2:{ split; [|intros ? _ H; discriminate H].
      cbn. split; [discriminate | intros (H & _); discriminate H]. }
  destruct (Migration.unset supabase_url) eqn:Hu; cbn [orb].
  { split; [|intros ? _ H; discriminate H].
    cbn. split; [discriminate | intros (_ & H & _); discriminate H]. }
  destruct (Migration.unset supabase_service_key) eqn:Hk.
  { split; [|intros ? _ H; discriminate H].
    cbn. split; [discriminate | intros (_ & _ & H & _); discriminate H]. }
  destruct migration as [[sql|err]|].
  2:{ split; [|intros ? H; discriminate H].
      cbn. split; [discriminate | intros (_ & _ & _ & x & H); discriminate H]. }
  2:{ split; [|intros ? H; discriminate H].
      cbn. split; [discriminate | intros (_ & _ & _ & x & H); discriminate H]. }
  rewrite MigrationFacts.execute_counts. cbn [Nat.add Migration.exit_code].
  split.
  { split; [intros _ | reflexivity].
    split; [reflexivity|]. split; [reflexivity|]. split; [reflexivity|].
    now exists sql. }
  intros sql' [= <-] _.
  pose proof (MigrationFacts.filter_partition_length Migration.accepted
                (Migration.responses post 1 (Migration.statements sql))) as Hp.
  rewrite MigrationFacts.responses_length in Hp.
  eexists _, _. split; [reflexivity|]. split; [exact Hp|]. split; [reflexivity|].
  cbn [Migration.summary].
  set (s := List.length (List.filter Migration.accepted _)) in *.
  set (f := List.length (List.filter (fun r => negb (Migration.accepted r)) _)) in *.
  destruct (f =? List.length (Migration.statements sql)) eqn:E.
  - apply Nat.eqb_eq in E. split; [intros _; lia | reflexivity].
  - apply Nat.eqb_neq in E. split.
    + destruct (0 <? f); discriminate.
    + intros Hs. lia.
Qed.

Lemma migration_never_fails_witness :
  Migration.exit_code
    (Migration.run_migration true (Some "https://db.example") (Some "key")
       (Some (Ok "CREATE TABLE t (id int); CREATE INDEX i ON t (id);"))
       (fun _ _ => Migration.Status 404)) = 0 /\
  Migration.summary
    (Migration.run_migration true (Some "https://db.example") (Some "key")
       (Some (Ok "CREATE TABLE t (id int); CREATE INDEX i ON t (id);"))
       (fun _ _ => Migration.Status 404)) = Some Migration.AllFailed.
Proof.
  pose proof (migration_never_fails_on_statements true
                (Some "https://db.example") (Some "key")
                (Some (Ok "CREATE TABLE t (id int); CREATE INDEX i ON t (id);"))
                (fun _ _ => Migration.Status 404)) as [H1 H2].
  cbv zeta in H1, H2.
  assert (H0 : Migration.exit_code
    (Migration.run_migration true (Some "https://db.example") (Some "key")
       (Some (Ok "CREATE TABLE t (id int); CREATE INDEX i ON t (id);"))
       (fun _ _ => Migration.Status 404)) = 0).
  { apply H1. split; [reflexivity|]. split; [reflexivity|]. split; [reflexivity|].
    now eexists. }
  split; [exact H0|].
  destruct (H2 _ eq_refl H0) as (s & f & _ & _ & Hs & Hv).
  apply Hv. rewrite Hs. reflexivity.
Defined.

(** * The simulated ingestion step *)

(** X22: in the simulated ingestion an uploaded PDF that cannot be opened
    (or for which pdfplumber is missing) is counted as one product: with such
    a catalog among the uploads the total is at least 1 and the step returns
    [True], whatever the other catalogs hold. *)
Theorem unreadable_pdf_counts_as_one_product
    (uploaded_catalogs : list Simulation.uploaded) (c : Simulation.uploaded)
    (e : exn) :
  In c uploaded_catalogs ->
  Simulation.u_format c = "pdf" ->
  Simulation.u_pages c = Raise e ->
  1 <= Simulation.total_products
         (fst (Simulation.simulate_ingestion_extraction uploaded_catalogs)) /\
  snd (Simulation.simulate_ingestion_extraction uploaded_catalogs) = true.
Proof.
  intros Hin Hf Hp. unfold Simulation.simulate_ingestion_extraction. cbn [fst snd].
  assert (H : 1 <= Simulation.total_products
                     (fold_left Simulation.sim_step uploaded_catalogs Simulation.start)).
  { apply in_split in Hin. destruct Hin as (l1 & l2 & ->).
    rewrite fold_left_app. cbn [fold_left].
    pose proof (SimulationFacts.fold_total l2
                  (Simulation.sim_step
                     (fold_left Simulation.sim_step l1 Simulation.start) c)) as H2.
    rewrite (SimulationFacts.damaged_pdf_adds_one _ c e Hf Hp) in H2. lia. }
  split; [exact H | now apply Nat.ltb_lt].
Qed.

Lemma unreadable_pdf_witness :
  1 <= Simulation.total_products
         (fst (Simulation.simulate_ingestion_extraction [MoreSamples.damaged_upload])) /\
  snd (Simulation.simulate_ingestion_extraction [MoreSamples.damaged_upload]) = true.
Proof.
  apply (unreadable_pdf_counts_as_one_product [MoreSamples.damaged_upload]
           MoreSamples.damaged_upload
           (LoadError "No /Root object! - Is this really a PDF?")).
  - now left.
  - reflexivity.
  - reflexivity.
Defined.

(** X23: the extractions recorded by the simulated ingestion never add up
    to more than the total it reports, and they can add up to less: a
    catalog read in no measurable time is added to the total and then lost
    on the division by the extraction time.  When the step ends with status
    success, every uploaded catalog has its record and the records add up to
    the total. *)
Theorem recorded_extractions_within_total
    (uploaded_catalogs : list Simulation.uploaded) :
  let s := fst (Simulation.simulate_ingestion_extraction uploaded_catalogs) in
  Simulation.recorded s <= Simulation.total_products s /\
  (Simulation.partial_failure s = false ->
   Simulation.recorded s = Simulation.total_products s /\
   List.length (Simulation.extractions s) = List.length uploaded_catalogs).
Proof.
  intros s. subst s. unfold Simulation.simulate_ingestion_extraction. cbn [fst].
  split.
  - apply SimulationFacts.fold_recorded. cbn. lia.
  - intros H. destruct (SimulationFacts.fold_success _ _ H) as (_ & H2 & H3).
    cbn in H2, H3. split; [lia | exact H3].
Qed.

Lemma recorded_extractions_witness :
  Simulation.recorded
    (fst (Simulation.simulate_ingestion_extraction
            [MoreSamples.instant_upload; MoreSamples.damaged_upload])) <=
  Simulation.total_products
    (fst (Simulation.simulate_ingestion_extraction
            [MoreSamples.instant_upload; MoreSamples.damaged_upload])) /\
  Simulation.recorded
    (fst (Simulation.simulate_ingestion_extraction [MoreSamples.damaged_upload])) =
  Simulation.total_products
    (fst (Simulation.simulate_ingestion_extraction [MoreSamples.damaged_upload])).
Proof.
  split.
  - apply (recorded_extractions_within_total
             [MoreSamples.instant_upload; MoreSamples.damaged_upload]).
  - apply (recorded_extractions_within_total [MoreSamples.damaged_upload]).
    reflexivity.
Defined.
